(** * Jira AI agent backend: normalizers, baseline generators, orchestration

    A shallow embedding of [schema.py], [utils.py] and the generation part of
    [app.py], with the properties of the coercion layer and of the
    AI-or-fallback policy.

    Conventions of the embedding.
    - A Python [str] is a [string]; every character is read as a code point
      below 256, so whitespace and case follow the Latin-1 part of Unicode.
    - A Python [int] is a [Z]; the interpreter's optional cap on the number
      of digits in int/str conversions is not part of the model.
    - A value decoded from JSON is a [pyval]; a [float] is carried by the
      shape of its [repr], the only way the program looks at one besides its
      truth value.
    - Code that can raise returns [exn + A]; [str(e)] is carried as the
      exception itself, the wording of library messages is not reproduced.
    - The language model is an oracle: one [gemini_reply] per call. *)

From Stdlib Require Import ZArith List Bool Lia.
From Stdlib Require Import Strings.Ascii Strings.String.
From Stdlib Require Import Numbers.DecimalString Numbers.DecimalZ.
Import ListNotations.

Set Warnings "-register-all".

Local Open Scope string_scope.
Local Open Scope Z_scope.

(* ================================================================== *)
(** ** Python text primitives *)
(* ================================================================== *)

Module PyStr.

(** [str.isspace] on one character (code points below 256). *)
Definition is_space (c : ascii) : bool :=
  let n := N_of_ascii c in
  ((9 <=? n) && (n <=? 13) || (28 <=? n) && (n <=? 32)
   || (n =? 133) || (n =? 160))%N.

(** Removal of the characters satisfying [p] at the left end, and at the
    right end. *)
Fixpoint drop_left (p : ascii -> bool) (s : string) : string :=
  match s with
  | EmptyString => EmptyString
  | String c r => if p c then drop_left p r else s
  end.

Fixpoint drop_right (p : ascii -> bool) (s : string) : string :=
  match s with
  | EmptyString => EmptyString
  | String c r =>
      match drop_right p r with
      | EmptyString => if p c then EmptyString else String c EmptyString
      | r' => String c r'
      end
  end.

Definition lstrip : string -> string := drop_left is_space.
Definition rstrip : string -> string := drop_right is_space.

(** [s.strip()] *)
Definition strip (s : string) : string := rstrip (lstrip s).

(** [bool(s)] for a string: non-empty. *)
Definition nonempty (s : string) : bool :=
  match s with EmptyString => false | _ => true end.

(** [str.lower] on one character. *)
Definition lower_char (c : ascii) : ascii :=
  let n := N_of_ascii c in
  if ((65 <=? n) && (n <=? 90) || (192 <=? n) && (n <=? 214)
      || (216 <=? n) && (n <=? 222))%N
  then ascii_of_N (n + 32) else c.

Fixpoint lower (s : string) : string :=
  match s with
  | EmptyString => EmptyString
  | String c r => String (lower_char c) (lower r)
  end.

(** [k in t] for strings. *)
Fixpoint contains (k t : string) : bool :=
  String.prefix k t ||
  match t with
  | EmptyString => false
  | String _ r => contains k r
  end.

(** [any(k in t for k in ks)] *)
Definition any_in (ks : list string) (t : string) : bool :=
  existsb (fun k => contains k t) ks.

(** [sep.join(xs)] *)
Fixpoint join (sep : string) (xs : list string) : string :=
  match xs with
  | [] => EmptyString
  | [x] => x
  | x :: rest => x ++ sep ++ join sep rest
  end.

(** [str(n)] for an int. *)
Definition of_Z (n : Z) : string := NilEmpty.string_of_int (Z.to_int n).

(** [f"{n:03d}"] for a counter. *)
Definition pad3 (n : nat) : string :=
  let s := of_Z (Z.of_nat n) in
  match String.length s with
  | 1%nat => "00" ++ s
  | 2%nat => "0" ++ s
  | _ => s
  end.

Definition is_digit (c : ascii) : bool :=
  let n := N_of_ascii c in ((48 <=? n) && (n <=? 57))%N.

(** Underscores of an int literal stand only between two digits. *)
Fixpoint underscores_ok (after_digit : bool) (s : string) : bool :=
  match s with
  | EmptyString => after_digit
  | String c r =>
      if Ascii.eqb c "_" then after_digit && underscores_ok false r
      else underscores_ok true r
  end.

Fixpoint drop_underscores (s : string) : string :=
  match s with
  | EmptyString => EmptyString
  | String c r =>
      if Ascii.eqb c "_" then drop_underscores r else String c (drop_underscores r)
  end.

(** The digits of an int literal: at least one, decimal, single
    underscores between them. *)
Definition digits_value (s : string) : option Z :=
  match s with
  | EmptyString => None
  | String c _ =>
      if is_digit c && underscores_ok true s then
        option_map Z.of_uint (NilEmpty.uint_of_string (drop_underscores s))
      else None
  end.

(** What [int()] skips around a literal. *)
Definition int_space (c : ascii) : bool :=
  let n := N_of_ascii c in
  ((9 <=? n) && (n <=? 13) || (n =? 32) || (n =? 133) || (n =? 160))%N.

(** [int(s)] for a string in base 10; [None] stands for [ValueError]. *)
Definition to_Z (s : string) : option Z :=
  match drop_right int_space (drop_left int_space s) with
  | EmptyString => None
  | String c r as t =>
      if Ascii.eqb c "-" then option_map Z.opp (digits_value r)
      else if Ascii.eqb c "+" then digits_value r
      else digits_value t
  end.

End PyStr.

(* ================================================================== *)
(** ** Python values and exceptions *)
(* ================================================================== *)

(** The [repr] of a float: fixed notation, exponent notation, or one of the
    special values. [12.5] is [FFix false 12 5], [1e+16] is
    [FExp false 1 Nil (Pos 16)]. *)
Inductive pyfloat : Type :=
| FFix (neg : bool) (whole frac : Decimal.uint)
| FExp (neg : bool) (whole frac : Decimal.uint) (e : Decimal.int)
| FInf (neg : bool)
| FNan.

(** A value as [json.loads] builds it. The keys of a [PDict] are distinct;
    a lookup returns the first binding. *)
Inductive pyval : Type :=
| PNone
| PBool (b : bool)
| PInt (n : Z)
| PFloat (f : pyfloat)
| PStr (s : string)
| PList (l : list pyval)
| PDict (d : list (string * pyval)).

Inductive exn : Type :=
| AttributeError (ty attr : string)
| TypeError (what : string)
| ValueError (what : string)
| ValidationError (model field : string)
| RuntimeError (msg : string).

(** Computations that may raise. *)
Definition M (A : Type) : Type := (exn + A)%type.

Definition ret {A} (a : A) : M A := inr a.
Definition raise {A} (e : exn) : M A := inl e.
Definition bind {A B} (m : M A) (k : A -> M B) : M B :=
  match m with
  | inl e => inl e
  | inr a => k a
  end.

Notation "x <- m ;; k" := (bind m (fun x => k))
  (at level 61, m at next level, right associativity).

(** Run [f] over a list, stopping at the first exception. *)
Fixpoint mapM {A B} (f : A -> M B) (l : list A) : M (list B) :=
  match l with
  | [] => ret []
  | a :: r => b <- f a ;; bs <- mapM f r ;; ret (b :: bs)
  end.

Module Py.

Definition sign (neg : bool) : string := if neg then "-" else "".

Definition all_zero (d : Decimal.uint) : bool :=
  match Decimal.nzhead d with
  | Decimal.Nil => true
  | _ => false
  end.

Definition float_repr (f : pyfloat) : string :=
  match f with
  | FFix neg w fr =>
      sign neg ++ NilEmpty.string_of_uint w ++ "." ++ NilEmpty.string_of_uint fr
  | FExp neg w fr e =>
      sign neg ++ NilEmpty.string_of_uint w
      ++ match fr with
         | Decimal.Nil => ""
         | _ => "." ++ NilEmpty.string_of_uint fr
         end
      ++ "e"
      ++ match e with
         | Decimal.Pos d => "+" ++ NilEmpty.string_of_uint d
         | Decimal.Neg d => "-" ++ NilEmpty.string_of_uint d
         end
  | FInf neg => sign neg ++ "inf"
  | FNan => "nan"
  end.

Definition float_truthy (f : pyfloat) : bool :=
  match f with
  | FFix _ w fr | FExp _ w fr _ => negb (all_zero w && all_zero fr)
  | FInf _ | FNan => true
  end.

Definition hex_digit (n : N) : ascii :=
  ascii_of_N (if (n <? 10)%N then 48 + n else 87 + n).

Definition printable (n : N) : bool :=
  ((32 <=? n) && (n <? 127) || (161 <=? n) && negb (n =? 173))%N.

(** One character inside the quotes of a string [repr]. *)
Definition repr_char (q c : ascii) : string :=
  let n := N_of_ascii c in
  if Ascii.eqb c q || Ascii.eqb c "\" then String "\" (String c "")
  else if (n =? 9)%N then "\t"
  else if (n =? 10)%N then "\n"
  else if (n =? 13)%N then "\r"
  else if printable n then String c ""
  else String "\" (String "x"
         (String (hex_digit (n / 16)) (String (hex_digit (n mod 16)) ""))).

Fixpoint has_char (q : ascii) (s : string) : bool :=
  match s with
  | EmptyString => false
  | String c r => Ascii.eqb c q || has_char q r
  end.

Fixpoint repr_chars (q : ascii) (s : string) : string :=
  match s with
  | EmptyString => EmptyString
  | String c r => repr_char q c ++ repr_chars q r
  end.

Definition squote : ascii := ascii_of_N 39.
Definition dquote : ascii := ascii_of_N 34.

(** [repr(s)] for a string: single quotes unless the text has a single
    quote and no double quote. *)
Definition str_repr (s : string) : string :=
  let q := if has_char squote s && negb (has_char dquote s) then dquote else squote in
  String q (repr_chars q s ++ String q "").

Fixpoint repr (v : pyval) : string :=
  match v with
  | PNone => "None"
  | PBool true => "True"
  | PBool false => "False"
  | PInt n => PyStr.of_Z n
  | PFloat f => float_repr f
  | PStr s => str_repr s
  | PList l => "[" ++ PyStr.join ", " (map repr l) ++ "]"
  | PDict d =>
      "{" ++ PyStr.join ", "
               (map (fun kv => match kv with
                               | (k, x) => str_repr k ++ ": " ++ repr x
                               end) d) ++ "}"
  end.

(** [str(v)] *)
Definition str (v : pyval) : string :=
  match v with
  | PStr s => s
  | _ => repr v
  end.

(** [bool(v)] *)
Definition truthy (v : pyval) : bool :=
  match v with
  | PNone => false
  | PBool b => b
  | PInt n => negb (n =? 0)
  | PFloat f => float_truthy f
  | PStr s => PyStr.nonempty s
  | PList l => match l with [] => false | _ => true end
  | PDict d => match d with [] => false | _ => true end
  end.

(** [a or b] *)
Definition or (a b : pyval) : pyval := if truthy a then a else b.

Definition type_name (v : pyval) : string :=
  match v with
  | PNone => "NoneType"
  | PBool _ => "bool"
  | PInt _ => "int"
  | PFloat _ => "float"
  | PStr _ => "str"
  | PList _ => "list"
  | PDict _ => "dict"
  end.

Definition is_str (v : pyval) : bool := match v with PStr _ => true | _ => false end.
Definition is_list (v : pyval) : bool := match v with PList _ => true | _ => false end.
Definition is_dict (v : pyval) : bool := match v with PDict _ => true | _ => false end.
Definition is_none (v : pyval) : bool := match v with PNone => true | _ => false end.

(** [v.strip()]: only a string has the method. *)
Definition strip (v : pyval) : M string :=
  match v with
  | PStr s => ret (PyStr.strip s)
  | _ => raise (AttributeError (type_name v) "strip")
  end.

(** [option] fields of the schema seen as values. *)
Definition of_opt (o : option string) : pyval :=
  match o with
  | Some s => PStr s
  | None => PNone
  end.

End Py.

(* ================================================================== *)
(** ** Dictionaries *)
(* ================================================================== *)

Module Dict.

Definition items : Type := list (string * pyval).

(** [d.get(k)]: [None] when the key is missing. *)
Fixpoint get (d : items) (k : string) : pyval :=
  match d with
  | [] => PNone
  | (k', v) :: r => if String.eqb k k' then v else get r k
  end.

(** [d[k] = v]: in place for a present key, at the end for a new one. *)
Fixpoint set (d : items) (k : string) (v : pyval) : items :=
  match d with
  | [] => [(k, v)]
  | (k', v') :: r =>
      if String.eqb k k' then (k, v) :: r else (k', v') :: set r k v
  end.

(** A dictionary built at run time. [other_keys] tells that it also holds
    keys that are not strings, which only [dict()] over a list of pairs can
    produce; no string lookup sees them, keyword expansion refuses them. *)
Record t : Type := mk { entries : items; other_keys : bool }.

Definition of_items (d : items) : t := mk d false.

(** One element of the argument of [dict(list)]: a sequence of two items. *)
Definition pair_of (x : pyval) : M (pyval * pyval) :=
  match x with
  | PList [k; v] => ret (k, v)
  | PStr (String a (String b EmptyString)) =>
      ret (PStr (String a ""), PStr (String b ""))
  | PDict [(k1, _); (k2, _)] => ret (PStr k1, PStr k2)
  | PList _ | PStr _ | PDict _ => raise (ValueError "dictionary update sequence element")
  | _ => raise (TypeError "cannot convert dictionary update sequence element")
  end.

Definition add_pair (acc : t) (kv : pyval * pyval) : M t :=
  match fst kv with
  | PStr k => ret (mk (set (entries acc) k (snd kv)) (other_keys acc))
  | PList _ | PDict _ => raise (TypeError "unhashable type")
  | _ => ret (mk (entries acc) true)
  end.

Fixpoint of_pairs (acc : t) (l : list pyval) : M t :=
  match l with
  | [] => ret acc
  | x :: r => kv <- pair_of x ;; acc' <- add_pair acc kv ;; of_pairs acc' r
  end.

(** [dict(v)] *)
Definition of_val (v : pyval) : M t :=
  match v with
  | PDict d => ret (of_items d)
  | PList l => of_pairs (of_items []) l
  | PStr EmptyString => ret (of_items [])
  | PStr _ => raise (ValueError "dictionary update sequence element")
  | _ => raise (TypeError "object is not iterable")
  end.

(** [v.get(k)] on a value that may not be a dictionary. *)
Definition get_attr (v : pyval) (k : string) : M pyval :=
  match v with
  | PDict d => ret (get d k)
  | _ => raise (AttributeError (Py.type_name v) "get")
  end.

End Dict.

(* ================================================================== *)
(** ** schema.py *)
(* ================================================================== *)

(** A field declared [str]: only a string validates. *)
Definition str_field (model field : string) (d : Dict.items) : M string :=
  match Dict.get d field with
  | PStr s => ret s
  | _ => raise (ValidationError model field)
  end.

(** A field declared [Optional[str] = None]. *)
Definition opt_str_field (model field : string) (d : Dict.items) : M (option string) :=
  match Dict.get d field with
  | PStr s => ret (Some s)
  | PNone => ret None
  | _ => raise (ValidationError model field)
  end.

Module GivenWhenThen.

Record t : Type := mk { given : string; when_ : string; then_ : string }.

Definition validate (v : pyval) : M t :=
  match v with
  | PDict d =>
      g <- str_field "GivenWhenThen" "given" d ;;
      w <- str_field "GivenWhenThen" "when" d ;;
      th <- str_field "GivenWhenThen" "then" d ;;
      ret (mk g w th)
  | _ => raise (ValidationError "Story" "acceptanceCriteria")
  end.

Definition model_dump (x : t) : pyval :=
  PDict [("given", PStr (given x)); ("when", PStr (when_ x)); ("then", PStr (then_ x))].

End GivenWhenThen.

Module StoryDescription.

Record t : Type := mk { asA : string; iWant : string; soThat : string }.

Definition validate (v : pyval) : M t :=
  match v with
  | PDict d =>
      a <- str_field "StoryDescription" "asA" d ;;
      i <- str_field "StoryDescription" "iWant" d ;;
      s <- str_field "StoryDescription" "soThat" d ;;
      ret (mk a i s)
  | _ => raise (ValidationError "Story" "description")
  end.

Definition model_dump (x : t) : pyval :=
  PDict [("asA", PStr (asA x)); ("iWant", PStr (iWant x)); ("soThat", PStr (soThat x))].

End StoryDescription.

Module Story.

Record t : Type := mk {
  id : option string;
  featureId : option string;
  title : string;
  description : StoryDescription.t;
  acceptanceCriteria : list GivenWhenThen.t;
  storyPoints : Z
}.

(** [Literal[1,2,3,5,8,13]] *)
Definition points_literal : list Z := [1; 2; 3; 5; 8; 13].

Definition points_ok (n : Z) : bool := existsb (Z.eqb n) points_literal.

(** [Story(id=..., featureId=..., ...)] with typed arguments: what is left
    to validate is the literal. *)
Definition init (i f : option string) (ti : string) (de : StoryDescription.t)
    (ac : list GivenWhenThen.t) (sp : Z) : M t :=
  if points_ok sp then ret (mk i f ti de ac sp)
  else raise (ValidationError "Story" "storyPoints").

(** [Story] called with the entries of [ns] as keywords: keyword
    expansion, then field validation. The program
    only ever passes an int for [storyPoints]. *)
Definition validate (ns : Dict.t) : M t :=
  if Dict.other_keys ns then raise (TypeError "keywords must be strings") else
  let d := Dict.entries ns in
  i <- opt_str_field "Story" "id" d ;;
  f <- opt_str_field "Story" "featureId" d ;;
  ti <- str_field "Story" "title" d ;;
  de <- StoryDescription.validate (Dict.get d "description") ;;
  ac <- match Dict.get d "acceptanceCriteria" with
        | PList l => mapM GivenWhenThen.validate l
        | _ => raise (ValidationError "Story" "acceptanceCriteria")
        end ;;
  match Dict.get d "storyPoints" with
  | PInt sp => init i f ti de ac sp
  | _ => raise (ValidationError "Story" "storyPoints")
  end.

Definition model_dump (x : t) : pyval :=
  PDict [("id", Py.of_opt (id x));
         ("featureId", Py.of_opt (featureId x));
         ("title", PStr (title x));
         ("description", StoryDescription.model_dump (description x));
         ("acceptanceCriteria", PList (map GivenWhenThen.model_dump (acceptanceCriteria x)));
         ("storyPoints", PInt (storyPoints x))].

End Story.

Module TestCase.

Record t : Type := mk {
  id : string;
  storyId : string;
  preconditions : string;
  steps : list string;
  expected : string
}.

Definition step_item (v : pyval) : M string :=
  match v with
  | PStr s => ret s
  | _ => raise (ValidationError "TestCase" "steps")
  end.

(** [TestCase] called with the entries of the dictionary as keywords. *)
Definition validate (tc : Dict.t) : M t :=
  if Dict.other_keys tc then raise (TypeError "keywords must be strings") else
  let d := Dict.entries tc in
  i <- str_field "TestCase" "id" d ;;
  s <- str_field "TestCase" "storyId" d ;;
  p <- str_field "TestCase" "preconditions" d ;;
  st <- match Dict.get d "steps" with
        | PList l => mapM step_item l
        | _ => raise (ValidationError "TestCase" "steps")
        end ;;
  e <- str_field "TestCase" "expected" d ;;
  ret (mk i s p st e).

Definition model_dump (x : t) : pyval :=
  PDict [("id", PStr (id x));
         ("storyId", PStr (storyId x));
         ("preconditions", PStr (preconditions x));
         ("steps", PList (map PStr (steps x)));
         ("expected", PStr (expected x))].

End TestCase.

Module Feature.

Record t : Type := mk {
  id : string;
  key : option string;
  title : string;
  description : option string
}.

Definition model_dump (x : t) : pyval :=
  PDict [("id", PStr (id x));
         ("key", Py.of_opt (key x));
         ("title", PStr (title x));
         ("description", Py.of_opt (description x))].

End Feature.

(** [getattr(feature_fallback, name, default)] where the fallback is a
    [Feature] or [None]. *)
Definition getattr_id (fb : option Feature.t) (default : pyval) : pyval :=
  match fb with Some f => PStr (Feature.id f) | None => default end.
Definition getattr_key (fb : option Feature.t) (default : pyval) : pyval :=
  match fb with Some f => Py.of_opt (Feature.key f) | None => default end.
Definition getattr_title (fb : option Feature.t) (default : pyval) : pyval :=
  match fb with Some f => PStr (Feature.title f) | None => default end.

(* ================================================================== *)
(** ** app.py: normalizers *)
(* ================================================================== *)

Definition _FIB_ALLOWED : list Z := [1; 2; 3; 5; 8; 13].

(** The order of the keys [(abs(v - n), v)]: tuples compare
    lexicographically. *)
Definition key_lt (n a b : Z) : bool :=
  (Z.abs (a - n) <? Z.abs (b - n))
  || ((Z.abs (a - n) =? Z.abs (b - n)) && (a <? b)).

(** [min(x :: xs, key=...)]: the first element with the least key. *)
Definition min_by_key (n : Z) (x : Z) (xs : list Z) : Z :=
  fold_left (fun best v => if key_lt n v best then v else best) xs x.

Definition _to_fib (value : pyval) : Z :=
  match PyStr.to_Z (PyStr.strip (Py.str value)) with
  | None => 3
  | Some n => min_by_key n (hd 0 _FIB_ALLOWED) (tl _FIB_ALLOWED)
  end.

Definition _normalize_gwt (item : pyval) : pyval :=
  let item := match item with PDict d => d | _ => [] end in
  let get := Dict.get item in
  let given := Py.or (get "given") (Py.or (get "Given")
                 (Py.or (get "precondition") (Py.or (get "context") (PStr "")))) in
  let when_ := Py.or (get "when") (Py.or (get "When")
                 (Py.or (get "action") (Py.or (get "event") (PStr "")))) in
  let then_ := Py.or (get "then") (Py.or (get "Then")
                 (Py.or (get "outcome") (Py.or (get "result") (PStr "")))) in
  PDict [("given", PStr (PyStr.strip (Py.str given)));
         ("when", PStr (PyStr.strip (Py.str when_)));
         ("then", PStr (PyStr.strip (Py.str then_)))].

(** [x or "F"] on text. *)
Definition or_text (x default : string) : string :=
  if PyStr.nonempty x then x else default.

Definition gwt_literal (g w th : string) : pyval :=
  PDict [("given", PStr g); ("when", PStr w); ("then", PStr th)].

(** The blocks of [_normalize_story], in the order of the source; [s] is
    the dictionary at hand. *)

(** [# featureId] *)
Definition story_feature_id (s : Dict.items) (feature_fallback : option Feature.t)
  : pyval :=
  Py.or (Dict.get s "featureId")
    (Py.or (getattr_id feature_fallback PNone)
       (Py.or (getattr_key feature_fallback PNone)
          (Py.or (getattr_title feature_fallback PNone) (PStr "F")))).

(** [# title] *)
Definition story_title (s : Dict.items) (feature_fallback : option Feature.t)
  : M string :=
  title <- Py.strip (Py.or (Dict.get s "title") (PStr "")) ;;
  if PyStr.nonempty title then ret title
  else
    let ft := Py.or (getattr_title feature_fallback (PStr "")) (PStr "feature") in
    ret (PyStr.strip ("Implement " ++ Py.str ft)).

(** [# description] *)
Definition story_description (s : Dict.items) (feature_fallback : option Feature.t)
  : M Dict.items :=
  let desc := Dict.get s "description" in
  match desc with
  | PDict desc =>
      asA <- Py.strip (Py.or (Dict.get desc "asA")
               (Py.or (Dict.get desc "role") (PStr "end-user"))) ;;
      iWant <- Py.strip (Py.or (Dict.get desc "iWant")
                 (Py.or (Dict.get desc "goal")
                    (Py.or (getattr_title feature_fallback (PStr ""))
                       (PStr "use the feature")))) ;;
      soThat <- Py.strip (Py.or (Dict.get desc "soThat")
                  (Py.or (Dict.get desc "why") (PStr "I get value quickly"))) ;;
      ret [("asA", PStr asA); ("iWant", PStr iWant); ("soThat", PStr soThat)]
  | _ =>
      ret [("asA", PStr "end-user");
           ("iWant", Py.or (getattr_title feature_fallback (PStr ""))
                       (PStr "use the feature"));
           ("soThat", PStr "I get value quickly")]
  end.

(** [# acceptanceCriteria] *)
Definition story_acceptance (s : Dict.items) (feature_fallback : option Feature.t)
  : list pyval :=
  let ac := Py.or (Dict.get s "acceptanceCriteria")
              (Py.or (Dict.get s "acceptance_criteria")
                 (Py.or (Dict.get s "AC") (PList []))) in
  let ac := if Py.is_dict ac then PList [ac] else ac in
  let ac := match ac with PList l => l | _ => [] end in
  let ac_norm := map _normalize_gwt (filter (fun x => negb (Py.is_none x)) ac) in
  match ac_norm with
  | [] =>
      let ft := Py.or (getattr_title feature_fallback (PStr "")) (PStr "the feature") in
      let use := "I use " ++ PyStr.lower (Py.str ft) in
      [_normalize_gwt (gwt_literal "valid input" use "the system completes successfully");
       _normalize_gwt (gwt_literal "invalid input" use "a clear validation message is shown")]
  | _ => ac_norm
  end.

Definition _normalize_story (s : pyval) (feature_fallback : option Feature.t)
  : M Dict.items :=
  s <- Dict.of_val (Py.or s (PDict [])) ;;
  let s := Dict.entries s in
  let feature_id := story_feature_id s feature_fallback in
  title <- story_title s feature_fallback ;;
  description <- story_description s feature_fallback ;;
  let ac_norm := story_acceptance s feature_fallback in
  (* storyPoints *)
  let sp := _to_fib (Dict.get s "storyPoints") in
  ret [("featureId", PStr (or_text (PyStr.strip (Py.str feature_id)) "F"));
       ("title", PStr title);
       ("description", PDict description);
       ("acceptanceCriteria", PList ac_norm);
       ("storyPoints", PInt sp)].

(** The second definition of the name in app.py, the one in force: it
    rebinds the first. *)
Definition _normalize_testcase (t : pyval) (story_id_fallback : pyval) : M Dict.t :=
  t <- Dict.of_val (Py.or t (PDict [])) ;;
  let other := Dict.other_keys t in
  let t := Dict.entries t in
  (* steps *)
  let steps := Dict.get t "steps" in
  let steps :=
    match steps with
    | PStr _ => [steps]
    | PList l => l
    | _ => []
    end in
  let steps :=
    map (fun s => PyStr.strip (Py.str s))
      (filter (fun s => negb (Py.is_none s) && PyStr.nonempty (PyStr.strip (Py.str s)))
         steps) in
  let t := Dict.set t "steps" (PList (map PStr steps)) in
  (* expected *)
  let exp := Dict.get t "expected" in
  let exp :=
    match exp with
    | PList l =>
        PStr (PyStr.join " "
                (map (fun x => PyStr.strip (Py.str x))
                   (filter (fun x => negb (Py.is_none x)
                                     && PyStr.nonempty (PyStr.strip (Py.str x))) l)))
    | PNone => PStr ""
    | _ => exp
    end in
  let t := Dict.set t "expected" (PStr (PyStr.strip (Py.str exp))) in
  (* preconditions *)
  let prec := Dict.get t "preconditions" in
  let t := Dict.set t "preconditions"
             (PStr (PyStr.strip (if Py.is_none prec then "" else Py.str prec))) in
  (* ids *)
  let sid := Py.or (Dict.get t "storyId") (Py.or story_id_fallback (PStr "S")) in
  let t := Dict.set t "storyId" (PStr (or_text (PyStr.strip (Py.str sid)) "S")) in
  let tid := Dict.get t "id" in
  let t :=
    if negb (Py.is_str tid) || negb (PyStr.nonempty (PyStr.strip (Py.str tid))) then
      Dict.set t "id"
        (PStr ("TC-" ++ Py.str (Dict.get t "storyId") ++ "-"
               ++ PyStr.of_Z (Z.max 1 (Z.of_nat (List.length steps)))))
    else t in
  ret (Dict.mk t other).

(* ================================================================== *)
(** ** utils.py: baseline generators *)
(* ================================================================== *)

Definition estimate_points (title : string) : Z :=
  let t := PyStr.lower title in
  if PyStr.any_in ["auth"; "login"; "signup"; "register"; "payment";
                   "checkout"; "pdf"; "export"; "email"] t then 5
  else if PyStr.any_in ["error"; "retry"; "timeout"; "edge"; "validation"] t then 3
  else 2.

Definition _mk_ac (items : list (string * string * string)) : list GivenWhenThen.t :=
  map (fun it => match it with (g, w, th) => GivenWhenThen.mk g w th end) items.

Definition FIB : list Z := [1; 2; 3; 5; 8; 13].

Definition fib_down (n : Z) : Z :=
  match find (fun v => v <=? n) (rev FIB) with
  | Some v => v
  | None => 1
  end.

(** [l.index(x)] *)
Fixpoint index_of (x : Z) (l : list Z) : M Z :=
  match l with
  | [] => raise (ValueError "is not in list")
  | y :: r => if y =? x then ret 0 else i <- index_of x r ;; ret (i + 1)
  end.

Definition fib_next_lower (n : Z) : M Z :=
  i <- index_of (fib_down n) FIB ;;
  ret (nth (Z.to_nat (Z.max 0 (i - 1))) FIB 0).

(** [f.id or f.key or base_title] on the typed fields of a feature. *)
Definition feature_ref (f : Feature.t) (base_title : string) : string :=
  if PyStr.nonempty (Feature.id f) then Feature.id f
  else match Feature.key f with
       | Some k => or_text k base_title
       | None => base_title
       end.

Definition opt_text (o : option string) : string :=
  match o with Some s => s | None => "" end.

(** The loop of [features_to_baseline_stories]; [sid] is the running
    story number. *)
Fixpoint baseline_stories_from (sid : nat) (features : list Feature.t)
  : M (list Story.t) :=
  match features with
  | [] => ret []
  | f :: rest =>
      let base_title :=
        if PyStr.nonempty (Feature.title f) then PyStr.strip (Feature.title f)
        else "Feature" in
      let points1 := fib_down (estimate_points base_title) in
      s1 <- Story.init
              (Some ("S-" ++ PyStr.pad3 sid))
              (Some (feature_ref f base_title))
              (base_title ++ ": happy path")
              (StoryDescription.mk "end user"
                 ("to use " ++ PyStr.lower base_title ++ " successfully")
                 "I can achieve my goal")
              (_mk_ac [("valid inputs", "I perform the main action",
                        "the system completes it successfully");
                       ("system is available", "I retry once",
                        "the system responds within 2 seconds")])
              points1 ;;
      if PyStr.nonempty (PyStr.strip (opt_text (Feature.description f))) then
        points2 <- fib_next_lower points1 ;;
        s2 <- Story.init
                (Some ("S-" ++ PyStr.pad3 (sid + 1)))
                (Some (feature_ref f base_title))
                (base_title ++ ": error handling")
                (StoryDescription.mk "end user"
                   ("to see clear errors while using " ++ PyStr.lower base_title)
                   "I can recover and proceed")
                (_mk_ac [("invalid inputs", "I submit the form",
                          "I see helpful validation messages");
                         ("a server error occurs", "I try again",
                          "I see a non-destructive error and can retry")])
                points2 ;;
        more <- baseline_stories_from (sid + 2) rest ;;
        ret (s1 :: s2 :: more)
      else
        more <- baseline_stories_from (sid + 1) rest ;;
        ret (s1 :: more)
  end.

Definition features_to_baseline_stories (features : list Feature.t) : M (list Story.t) :=
  baseline_stories_from 1 features.

Fixpoint baseline_tests_from (tid : nat) (stories : list Story.t) : list TestCase.t :=
  match stories with
  | [] => []
  | s :: rest =>
      let steps :=
        ["Navigate to the area for '" ++ Story.title s ++ "'";
         "Provide valid inputs (or reproduce described scenario)";
         "Trigger the main action";
         "Observe system response"] in
      let st := PyStr.lower (Story.title s) in
      let expected :=
        if PyStr.any_in ["error"; "validation"; "retry"; "fail"] st
        then "Clear error shown with guidance; user can retry or recover"
        else "System completes the action successfully without errors" in
      TestCase.mk ("T-" ++ PyStr.pad3 tid)
                  (or_text (opt_text (Story.id s)) "")
                  "User has access and system is available"
                  steps expected
      :: baseline_tests_from (tid + 1) rest
  end.

Definition stories_to_baseline_tests (stories : list Story.t) : list TestCase.t :=
  baseline_tests_from 1 stories.

(* ================================================================== *)
(** ** app.py: generation endpoints *)
(* ================================================================== *)

(** The process-wide variables of app.py. *)
Record ServerState : Type := mkState {
  STATE_features : list pyval;
  STATE_stories : list pyval;
  STATE_tests : list pyval;
  LAST_AI_ENGINE : string;
  LAST_AI_ERROR : option exn
}.

Definition initial_state : ServerState := mkState [] [] [] "unknown" None.

Definition with_engine (st : ServerState) (e : string) : ServerState :=
  mkState (STATE_features st) (STATE_stories st) (STATE_tests st) e (LAST_AI_ERROR st).
Definition with_error (st : ServerState) (e : option exn) : ServerState :=
  mkState (STATE_features st) (STATE_stories st) (STATE_tests st) (LAST_AI_ENGINE st) e.
Definition with_stories (st : ServerState) (l : list pyval) : ServerState :=
  mkState (STATE_features st) l (STATE_tests st) (LAST_AI_ENGINE st) (LAST_AI_ERROR st).
Definition with_tests (st : ServerState) (l : list pyval) : ServerState :=
  mkState (STATE_features st) (STATE_stories st) l (LAST_AI_ENGINE st) (LAST_AI_ERROR st).

(** What one call of the model, followed by [json.loads], comes to. *)
Inductive gemini_reply : Type :=
| Raises (e : exn)
| Returns (raw : pyval).

(** The configured client, or none, and its answer to the call at hand. *)
Record LLM : Type := mkLLM { llm_available : bool; reply : gemini_reply }.

Definition _gemini_json (llm : LLM) : M pyval :=
  if negb (llm_available llm) then raise (RuntimeError "Gemini not configured.")
  else match reply llm with
       | Raises e => raise e
       | Returns raw => ret raw
       end.

(** The body returned by both endpoints: [count], [engine] and the dumped
    records ([stories] or [tests]). *)
Record Response : Type := mkResponse {
  count : nat;
  engine : string;
  records : list pyval
}.

(** [raw] made a list: an object is wrapped, anything else but a list is
    dropped. *)
Definition as_array (raw : pyval) : list pyval :=
  match raw with
  | PDict _ => [raw]
  | PList l => l
  | _ => []
  end.

(** One turn of the loop over the AI stories. *)
Definition story_item (idx : nat) (s : pyval) (default_feature : option Feature.t)
  : M Story.t :=
  ns <- _normalize_story s default_feature ;;
  sid <- Dict.get_attr s "id" ;;
  let ns := Dict.set ns "id" (Py.or sid (PStr ("S-" ++ PyStr.pad3 idx))) in
  let ns :=
    if negb (Py.truthy (Dict.get ns "featureId")) then
      Dict.set ns "featureId"
        match default_feature with
        | Some f =>
            Py.or (PStr (Feature.id f))
              (Py.or (Py.of_opt (Feature.key f))
                 (Py.or (PStr (Feature.title f)) (PStr "F")))
        | None => PStr "F"
        end
    else ns in
  Story.validate (Dict.of_items ns).

Fixpoint story_items (idx : nat) (raw : list pyval) (default_feature : option Feature.t)
  : M (list Story.t) :=
  match raw with
  | [] => ret []
  | s :: rest =>
      x <- story_item idx s default_feature ;;
      xs <- story_items (idx + 1) rest default_feature ;;
      ret (x :: xs)
  end.

(** The [try] block of [generate_stories]: the state as the block leaves
    it, and the stories or the exception that ended it. *)
Definition stories_attempt (llm : LLM) (features : list Feature.t) (st : ServerState)
  : ServerState * M (list Story.t) :=
  match _gemini_json llm with
  | inl e => (st, inl e)
  | inr raw =>
      let st := with_error (with_engine st "gemini") None in
      (st, story_items 1 (as_array raw) (hd_error features))
  end.

Definition generate_stories (llm : LLM) (features : list Feature.t) (st : ServerState)
  : M (Response * ServerState) :=
  if negb (llm_available llm) then
    let st := with_engine st "fallback" in
    stories <- features_to_baseline_stories features ;;
    let st := with_stories st (map Story.model_dump stories) in
    ret (mkResponse (List.length stories) (LAST_AI_ENGINE st) (STATE_stories st), st)
  else
    let (st, outcome) := stories_attempt llm features st in
    r <- match outcome with
         | inr stories => ret (st, stories)
         | inl e =>
             let st := with_error (with_engine st "fallback") (Some e) in
             stories <- features_to_baseline_stories features ;;
             ret (st, stories)
         end ;;
    let (st, stories) := (r : ServerState * list Story.t) in
    let st := with_stories st (map Story.model_dump stories) in
    ret (mkResponse (List.length stories) (LAST_AI_ENGINE st) (STATE_stories st), st).

(** The [try] block of [generate_tests]. *)
Definition tests_attempt (llm : LLM) (stories : list Story.t) (st : ServerState)
  : ServerState * M (list TestCase.t) :=
  match _gemini_json llm with
  | inl e => (st, inl e)
  | inr raw =>
      let st := with_engine st "gemini" in
      let story_id_default :=
        match stories with
        | s :: _ => Py.of_opt (Story.id s)
        | [] => PStr "S"
        end in
      (st,
       normalized <- mapM (fun t => _normalize_testcase t story_id_default) (as_array raw) ;;
       mapM TestCase.validate normalized)
  end.

Definition generate_tests (llm : LLM) (stories : list Story.t) (st : ServerState)
  : Response * ServerState :=
  if negb (llm_available llm) then
    let st := with_engine st "fallback" in
    let tests := stories_to_baseline_tests stories in
    let st := with_tests st (map TestCase.model_dump tests) in
    (mkResponse (List.length tests) (LAST_AI_ENGINE st) (STATE_tests st), st)
  else
    let (st, outcome) := tests_attempt llm stories st in
    let (st, tests) :=
      match outcome with
      | inr tests => (st, tests)
      | inl e =>
          (with_error (with_engine st "fallback") (Some e),
           stories_to_baseline_tests stories)
      end in
    let st := with_tests st (map TestCase.model_dump tests) in
    (mkResponse (List.length tests) (LAST_AI_ENGINE st) (STATE_tests st), st).

(* ================================================================== *)
(** ** Notions used in the statements *)
(* ================================================================== *)

Fixpoint any_char (p : ascii -> bool) (s : string) : bool :=
  match s with
  | EmptyString => false
  | String c r => p c || any_char p r
  end.

Fixpoint all_chars (p : ascii -> bool) (s : string) : bool :=
  match s with
  | EmptyString => true
  | String c r => p c && all_chars p r
  end.

(** The first character, if any, is not one that [p] removes. *)
Definition head_ok (p : ascii -> bool) (s : string) : bool :=
  match s with
  | EmptyString => true
  | String c _ => negb (p c)
  end.

(** The last character, if any, is not one that [p] removes. *)
Fixpoint last_ok (p : ascii -> bool) (s : string) : bool :=
  match s with
  | EmptyString => true
  | String c EmptyString => negb (p c)
  | String _ r => last_ok p r
  end.

(** A text that [strip] leaves alone. *)
Definition trimmed (s : string) : Prop := PyStr.strip s = s.

(** The characters an int literal is made of. *)
Definition literal_char (c : ascii) : bool :=
  PyStr.is_digit c || Ascii.eqb c "_" || Ascii.eqb c "+" || Ascii.eqb c "-".

(** A character that is neither part of an int literal nor whitespace:
    its presence makes [int()] fail whatever surrounds it. *)
Definition alien (c : ascii) : bool :=
  negb (literal_char c) && negb (PyStr.is_space c).

(** Every value on which [_normalize_story] calls [strip] is a text: the
    title, and the three parts of a description that is a mapping. *)
Definition texts_ok (d : Dict.items) (fb : option Feature.t) : bool :=
  Py.is_str (Py.or (Dict.get d "title") (PStr ""))
  && match Dict.get d "description" with
     | PDict desc =>
         Py.is_str (Py.or (Dict.get desc "asA")
                      (Py.or (Dict.get desc "role") (PStr "end-user")))
         && Py.is_str (Py.or (Dict.get desc "iWant")
                         (Py.or (Dict.get desc "goal")
                            (Py.or (getattr_title fb (PStr ""))
                               (PStr "use the feature"))))
         && Py.is_str (Py.or (Dict.get desc "soThat")
                         (Py.or (Dict.get desc "why") (PStr "I get value quickly")))
     | _ => true
     end.

(** The dumped fields of a story other than [id], which the normalizer
    leaves to its caller. *)
Definition dumped_fields (x : Story.t) : Dict.items :=
  [("featureId", Py.of_opt (Story.featureId x));
   ("title", PStr (Story.title x));
   ("description", StoryDescription.model_dump (Story.description x));
   ("acceptanceCriteria",
    PList (map GivenWhenThen.model_dump (Story.acceptanceCriteria x)));
   ("storyPoints", PInt (Story.storyPoints x))].

(** A text with something in it and nothing to trim. *)
Definition clean (s : string) : Prop := trimmed s /\ s <> EmptyString.

Definition trimmed_gwt (g : GivenWhenThen.t) : Prop :=
  trimmed (GivenWhenThen.given g)
  /\ trimmed (GivenWhenThen.when_ g)
  /\ trimmed (GivenWhenThen.then_ g).

(** A story in the form the normalizer produces. *)
Definition canonical (x : Story.t) : Prop :=
  (exists f, Story.featureId x = Some f /\ clean f)
  /\ clean (Story.title x)
  /\ clean (StoryDescription.asA (Story.description x))
  /\ clean (StoryDescription.iWant (Story.description x))
  /\ clean (StoryDescription.soThat (Story.description x))
  /\ Story.acceptanceCriteria x <> []
  /\ Forall trimmed_gwt (Story.acceptanceCriteria x)
  /\ Story.points_ok (Story.storyPoints x) = true.

(** The AI path of story generation fails: the call or the decoding of its
    answer raises, or some item of the answer raises in normalization or
    validation. *)
Definition stories_ai_fails (llm : LLM) (features : list Feature.t) : Prop :=
  (exists e, reply llm = Raises e)
  \/ (exists raw i s e,
        reply llm = Returns raw
        /\ nth_error (as_array raw) i = Some s
        /\ story_item (1 + i) s (hd_error features) = inl e).

(** The input of a test-case normalizer made a list of steps, and the
    filter-and-trim pass over a list of values. *)
Definition steps_input (v : pyval) : list pyval :=
  match v with
  | PStr _ => [v]
  | PList l => l
  | _ => []
  end.

Definition kept_texts (l : list pyval) : list string :=
  map (fun s => PyStr.strip (Py.str s))
    (filter (fun s => negb (Py.is_none s) && PyStr.nonempty (PyStr.strip (Py.str s))) l).

(** Sample data. *)
Definition login_feature : Feature.t := Feature.mk "" None "Login" (Some "").

Definition padded_story : Story.t :=
  Story.mk (Some "S-001") (Some "F-1") " Login " (StoryDescription.mk "user" "log in" "I get in")
    [GivenWhenThen.mk "a" "b" "c"] 3.

Definition tidy_story : Story.t :=
  Story.mk (Some "S-001") (Some "F-1") "Login" (StoryDescription.mk "user" "log in" "I get in")
    [GivenWhenThen.mk "a" "b" "c"] 3.

Definition mixed_criteria : Dict.items :=
  [("title", PStr "Login");
   ("acceptanceCriteria", PList [PStr "foo"; PInt 7; PNone; gwt_literal "a" "b" "c"])].

Definition sample_testcase : Dict.items :=
  [("steps", PStr "click button");
   ("expected", PList [PStr "ok"; PStr "done"]);
   ("preconditions", PNone)].

(** The title a baseline story is built on, and whether the feature gets a
    second story. *)
Definition base_title_of (f : Feature.t) : string :=
  if PyStr.nonempty (Feature.title f) then PyStr.strip (Feature.title f)
  else "Feature".

Definition has_description (f : Feature.t) : bool :=
  PyStr.nonempty (PyStr.strip (opt_text (Feature.description f))).

(** The two texts a baseline test can expect. *)
Definition expect_success : string :=
  "System completes the action successfully without errors".
Definition expect_recovery : string :=
  "Clear error shown with guidance; user can retry or recover".

(* ================================================================== *)
(** ** app.py: the remaining helpers and endpoints *)
(* ================================================================== *)

Module Text.

(** [s[:n]] and [s[n:]] for a non-negative [n]. *)
Fixpoint take (n : nat) (s : string) : string :=
  match n, s with
  | S k, String c r => String c (take k r)
  | _, _ => EmptyString
  end.

Fixpoint drop (n : nat) (s : string) : string :=
  match n, s with
  | S k, String _ r => drop k r
  | _, _ => s
  end.

(** [s[-n:]] for a positive [n]: the whole text when it is shorter. *)
Definition last_n (n : nat) (s : string) : string :=
  drop (String.length s - n) s.

(** [s.removeprefix(p)] *)
Definition removeprefix (p s : string) : string :=
  if String.prefix p s then drop (String.length p) s else s.

(** [s.removesuffix(p)]: the text is cut where what remains is [p]. *)
Fixpoint cut_suffix (p s : string) : option string :=
  if String.eqb s p then Some EmptyString
  else match s with
       | EmptyString => None
       | String c r => option_map (String c) (cut_suffix p r)
       end.

Definition removesuffix (p s : string) : string :=
  match p with
  | EmptyString => s
  | _ => match cut_suffix p s with Some x => x | None => s end
  end.

End Text.

(** [_mask]: [None] for a missing or empty secret. *)
Definition _mask (s : option string) : option string :=
  match s with
  | None | Some EmptyString => None
  | Some s =>
      let s := PyStr.strip s in
      Some (if (8 <? String.length s)%nat
            then Text.take 4 s ++ "..." ++ Text.last_n 4 s
            else "********")
  end.

Definition fence : string := "```".

(** [_gemini_json], from the text of the answer to the text handed to
    [json.loads]: the two lines that strip the answer and unwrap a code
    fence. *)
Definition gemini_json_text (text : string) : string :=
  let text := PyStr.strip text in
  if String.prefix fence text then
    PyStr.strip
      (Text.removesuffix fence
         (Text.removeprefix fence (Text.removeprefix (fence ++ "json") text)))
  else text.

(** [d.get(k, default)]: the default stands for a missing key only. *)
Fixpoint get_or (d : Dict.items) (k : string) (default : pyval) : pyval :=
  match d with
  | [] => default
  | (k', v) :: r => if String.eqb k k' then v else get_or r k default
  end.

(** [v.get(k, default)] on a value that may not be a dictionary. *)
Definition get_attr_or (v : pyval) (k : string) (default : pyval) : M pyval :=
  match v with
  | PDict d => ret (get_or d k default)
  | _ => raise (AttributeError (Py.type_name v) "get")
  end.

Fixpoint chars (s : string) : list pyval :=
  match s with
  | EmptyString => []
  | String c r => PStr (String c EmptyString) :: chars r
  end.

(** [for x in v]: what the loop ranges over. *)
Definition iterate (v : pyval) : M (list pyval) :=
  match v with
  | PList l => ret l
  | PStr s => ret (chars s)
  | PDict d => ret (map (fun kv => PStr (fst kv)) d)
  | _ => raise (TypeError "object is not iterable")
  end.

(** [v == "text"] for a text literal. *)
Definition eq_text (v : pyval) (lit : string) : bool :=
  match v with
  | PStr s => String.eqb s lit
  | _ => false
  end.

(** [" ".join(parts)]: every part has to be a text. *)
Fixpoint texts_of (parts : list pyval) : M (list string) :=
  match parts with
  | [] => ret []
  | PStr s :: r => ss <- texts_of r ;; ret (s :: ss)
  | _ :: _ => raise (TypeError "sequence item: expected str instance")
  end.

(** The inner loop of [_plain_desc]: the texts of the text nodes among
    [subs]. *)
Fixpoint plain_inner (subs : list pyval) : list pyval :=
  match subs with
  | [] => []
  | PDict sub :: r =>
      if eq_text (Dict.get sub "type") "text"
      then get_or sub "text" (PStr "") :: plain_inner r
      else plain_inner r
  | _ :: r => plain_inner r
  end.

(** The outer loop of [_plain_desc]. *)
Fixpoint plain_outer (nodes : list pyval) : M (list pyval) :=
  match nodes with
  | [] => ret []
  | PDict node :: r =>
      subs <- iterate (get_or node "content" (PList [])) ;;
      rest <- plain_outer r ;;
      ret (plain_inner subs ++ rest)%list
  | _ :: r => plain_outer r
  end.

Definition _plain_desc (desc : pyval) : M string :=
  match desc with
  | PStr s => ret s
  | PDict d =>
      if eq_text (Dict.get d "type") "doc" then
        nodes <- iterate (get_or d "content" (PList [])) ;;
        parts <- plain_outer nodes ;;
        ss <- texts_of parts ;;
        ret (PyStr.join " " ss)
      else ret ""
  | _ => ret ""
  end.

(** [Feature(id=..., key=..., title=..., description=...)]: the values
    are validated against the declared types. *)
Definition feature_init (i k ti de : pyval) : M Feature.t :=
  match i with
  | PStr i =>
      match k with
      | PStr _ | PNone =>
          match ti with
          | PStr ti =>
              match de with
              | PStr _ | PNone =>
                  ret (Feature.mk i
                         (match k with PStr k => Some k | _ => None end)
                         ti
                         (match de with PStr de => Some de | _ => None end))
              | _ => raise (ValidationError "Feature" "description")
              end
          | _ => raise (ValidationError "Feature" "title")
          end
      | _ => raise (ValidationError "Feature" "key")
      end
  | _ => raise (ValidationError "Feature" "id")
  end.

(** [Feature] called with the entries of a mapping as keywords: a missing
    [id] or [description] takes its default, the empty text; a missing
    [key] is [None]; [title] is required, so a missing one is looked up as
    a value that no text field accepts. *)
Definition feature_of_mapping (f : pyval) : M Feature.t :=
  match f with
  | PDict d =>
      feature_init (get_or d "id" (PStr "")) (get_or d "key" PNone)
                   (get_or d "title" (PBool false)) (get_or d "description" (PStr ""))
  | _ => raise (TypeError "argument after ** must be a mapping")
  end.

Definition with_features (st : ServerState) (l : list pyval) : ServerState :=
  mkState l (STATE_stories st) (STATE_tests st) (LAST_AI_ENGINE st) (LAST_AI_ERROR st).

(** What an ingestion answers: an error text, or the count and the dumped
    features. *)
Inductive ingest_result : Type :=
| IngestError (msg : string)
| Ingested (n : nat) (features : list pyval).

(** [v.lower()] *)
Definition lower_of (v : pyval) : M string :=
  match v with
  | PStr s => ret (PyStr.lower s)
  | _ => raise (AttributeError (Py.type_name v) "lower")
  end.

(** One turn of the loop of [ingest_jira] over the issues: [None] for an
    issue that is skipped. *)
Definition feature_of_issue (issue : pyval) : M (option Feature.t) :=
  fields <- get_attr_or issue "fields" (PDict []) ;;
  issuetype <- get_attr_or fields "issuetype" (PDict []) ;;
  name <- get_attr_or (Py.or issuetype (PDict [])) "name" (PStr "") ;;
  name <- lower_of name ;;
  if negb (String.eqb name "epic") then ret None
  else
    i <- get_attr_or issue "id" (PStr "") ;;
    k <- Dict.get_attr issue "key" ;;
    summary <- Dict.get_attr fields "summary" ;;
    ti <- Py.strip (Py.or summary (PStr "")) ;;
    description <- Dict.get_attr fields "description" ;;
    de <- _plain_desc description ;;
    f <- feature_init i k (PStr ti) (PStr de) ;;
    ret (Some f).

Fixpoint features_of_issues (issues : list pyval) : M (list Feature.t) :=
  match issues with
  | [] => ret []
  | issue :: r =>
      o <- feature_of_issue issue ;;
      fs <- features_of_issues r ;;
      ret (match o with Some f => f :: fs | None => fs end)
  end.

(** The three settings [ingest_jira] reads. *)
Record JiraEnv : Type := mkJiraEnv {
  JIRA_BASE_URL : option string;
  JIRA_EMAIL : option string;
  JIRA_API_TOKEN : option string
}.

Definition setting_given (o : option string) : bool :=
  match o with Some s => PyStr.nonempty s | None => false end.

(** What the request to the tracker comes to: an [httpx.HTTPError] with
    its text, or the decoded body. *)
Inductive jira_reply : Type :=
| JiraFails (msg : string)
| JiraAnswers (data : pyval).

Definition ingest_jira (env : JiraEnv) (answer : jira_reply) (st : ServerState)
  : M (ingest_result * ServerState) :=
  if negb (setting_given (JIRA_BASE_URL env) && setting_given (JIRA_EMAIL env)
           && setting_given (JIRA_API_TOKEN env))
  then ret (IngestError "Missing JIRA_BASE_URL/JIRA_EMAIL/JIRA_API_TOKEN in .env", st)
  else
    match answer with
    | JiraFails msg => ret (IngestError ("Jira request failed: " ++ msg), st)
    | JiraAnswers data =>
        issues <- get_attr_or data "issues" (PList []) ;;
        issues <- iterate issues ;;
        feats <- features_of_issues issues ;;
        let st := with_features st (map Feature.model_dump feats) in
        ret (Ingested (List.length (STATE_features st)) (STATE_features st), st)
    end.

(** [ingest_mock] on the decoded upload. *)
Definition ingest_mock (data : pyval) (st : ServerState)
  : M (ingest_result * ServerState) :=
  features <- get_attr_or data "features" (PList []) ;;
  features <- iterate features ;;
  feats <- mapM feature_of_mapping features ;;
  let st := with_features st (map Feature.model_dump feats) in
  ret (Ingested (List.length (STATE_features st)) (STATE_features st), st).

(** What [export] answers. *)
Inductive export_result : Type :=
| ExportJson (features stories tests : list pyval)
| ExportMarkdown (markdown : string)
| ExportError (msg : string).

Definition newline : string := String (ascii_of_N 10) EmptyString.

(** The two lines of one story in the Markdown export. *)
Definition export_lines (s : pyval) : M (list string) :=
  d <- get_attr_or s "description" (PDict []) ;;
  i <- Dict.get_attr s "id" ;;
  ti <- Dict.get_attr s "title" ;;
  a <- Dict.get_attr d "asA" ;;
  w <- Dict.get_attr d "iWant" ;;
  t <- Dict.get_attr d "soThat" ;;
  ret ["## " ++ Py.str i ++ " - " ++ Py.str ti;
       "As a " ++ Py.str a ++ ", I want " ++ Py.str w ++ " so that " ++ Py.str t ++ "."].

Fixpoint export_out (stories : list pyval) : M (list string) :=
  match stories with
  | [] => ret []
  | s :: r => l <- export_lines s ;; ls <- export_out r ;; ret (l ++ ls)%list
  end.

Definition export (fmt : string) (st : ServerState) : M export_result :=
  if String.eqb fmt "json" then
    ret (ExportJson (STATE_features st) (STATE_stories st) (STATE_tests st))
  else if String.eqb fmt "md" then
    out <- export_out (STATE_stories st) ;;
    ret (ExportMarkdown
           (PyStr.join newline (("# Generated Stories & Tests" ++ newline) :: out)))
  else ret (ExportError ("Unsupported format: " ++ fmt)).

(** [__ai_engine] *)
Definition __ai_engine (st : ServerState) : string * option exn :=
  (LAST_AI_ENGINE st, LAST_AI_ERROR st).

(** Documents of the tracker's rich-text format, as far as [_plain_desc]
    reads them. *)
Definition adf_text (s : string) : pyval :=
  PDict [("type", PStr "text"); ("text", PStr s)].
Definition adf_block (ty : string) (content : list pyval) : pyval :=
  PDict [("type", PStr ty); ("content", PList content)].
Definition adf_doc (blocks : list pyval) : pyval :=
  PDict [("type", PStr "doc"); ("version", PInt 1); ("content", PList blocks)].
Definition adf_paragraphs (paras : list (list string)) : pyval :=
  adf_doc (map (fun texts => adf_block "paragraph" (map adf_text texts)) paras).

(** An issue as the tracker's search answers it; the summary and the
    description are whatever the tracker sends. *)
Record issue : Type := mkIssue {
  issue_id : string;
  issue_key : string;
  issue_type : string;
  issue_summary : pyval;
  issue_description : pyval
}.

Definition issue_json (x : issue) : pyval :=
  PDict [("id", PStr (issue_id x));
         ("key", PStr (issue_key x));
         ("fields",
          PDict [("summary", issue_summary x);
                 ("issuetype", PDict [("name", PStr (issue_type x))]);
                 ("description", issue_description x)])].

Definition is_epic (x : issue) : bool :=
  String.eqb (PyStr.lower (issue_type x)) "epic".

(** The feature an epic becomes. *)
Definition epic_feature (x : issue) : M Feature.t :=
  ti <- Py.strip (Py.or (issue_summary x) (PStr "")) ;;
  de <- _plain_desc (issue_description x) ;;
  ret (Feature.mk (issue_id x) (Some (issue_key x)) ti (Some de)).

Definition complete (env : JiraEnv) : bool :=
  setting_given (JIRA_BASE_URL env) && setting_given (JIRA_EMAIL env)
  && setting_given (JIRA_API_TOKEN env).

(** The two lines of a story in the Markdown export, from its fields. *)
Definition story_lines (x : Story.t) : list string :=
  ["## " ++ Py.str (Py.of_opt (Story.id x)) ++ " - " ++ Story.title x;
   "As a " ++ StoryDescription.asA (Story.description x)
   ++ ", I want " ++ StoryDescription.iWant (Story.description x)
   ++ " so that " ++ StoryDescription.soThat (Story.description x) ++ "."].

(** An item of the model's answer that one turn of the story loop accepts:
    a mapping whose trimmed values are texts and whose [id], if any, is a
    text. *)
Definition story_item_ok (fb : option Feature.t) (s : pyval) : bool :=
  match s with
  | PDict d =>
      texts_ok d fb
      && (negb (Py.truthy (Dict.get d "id")) || Py.is_str (Dict.get d "id"))
  | _ => false
  end.

(** The [id] of an item, when it has none of its own. *)
Definition lacks_id (s : pyval) : bool :=
  match s with
  | PDict d => negb (Py.truthy (Dict.get d "id"))
  | _ => false
  end.

(** [k in d] *)
Fixpoint has_key (d : Dict.items) (k : string) : bool :=
  match d with
  | [] => false
  | (k', _) :: r => String.eqb k k' || has_key r k
  end.

(** A test-case mapping in the form the normalizer leaves it. *)
Definition testcase_normal (f : Dict.items) : Prop :=
  (exists steps, Dict.get f "steps" = PList (map PStr steps) /\ Forall clean steps)
  /\ (exists e, Dict.get f "expected" = PStr e /\ trimmed e)
  /\ (exists p, Dict.get f "preconditions" = PStr p /\ trimmed p)
  /\ (exists sid, Dict.get f "storyId" = PStr sid /\ clean sid)
  /\ (exists i, Dict.get f "id" = PStr i /\ PyStr.strip i <> "")
  /\ has_key f "steps" = true /\ has_key f "expected" = true
  /\ has_key f "preconditions" = true /\ has_key f "storyId" = true.

(* ================================================================== *)
(** ** utils.py: the authorization header *)
(* ================================================================== *)

Module Base64.

Definition alphabet : string :=
  "ABCDEFGHIJKLMNOPQRSTUVWXYZabcdefghijklmnopqrstuvwxyz0123456789+/".

Definition pad : ascii := "="%char.

(** The character of a six-bit value. *)
Definition char_of (n : Z) : ascii :=
  match String.get (Z.to_nat n) alphabet with
  | Some c => c
  | None => pad
  end.

(** [base64.b64encode] over bytes, each a [Z] below 256. *)
Fixpoint encode (bs : list Z) : string :=
  match bs with
  | [] => EmptyString
  | [a] =>
      String (char_of (a / 4))
        (String (char_of (a mod 4 * 16)) (String pad (String pad EmptyString)))
  | [a; b] =>
      String (char_of (a / 4))
        (String (char_of (a mod 4 * 16 + b / 16))
           (String (char_of (b mod 16 * 4)) (String pad EmptyString)))
  | a :: b :: c :: r =>
      String (char_of (a / 4))
        (String (char_of (a mod 4 * 16 + b / 16))
           (String (char_of (b mod 16 * 4 + c / 64))
              (String (char_of (c mod 64)) (encode r))))
  end.

End Base64.

(** [str.encode("utf-8")] on one character, a code point below 256. *)
Definition utf8_char (c : ascii) : list Z :=
  let n := Z.of_N (N_of_ascii c) in
  if n <? 128 then [n] else [192 + n / 64; 128 + n mod 64].

Fixpoint utf8 (s : string) : list Z :=
  match s with
  | EmptyString => []
  | String c r => (utf8_char c ++ utf8 r)%list
  end.

Definition basic_auth_header (email token : string) : string :=
  let raw := utf8 (email ++ ":" ++ token) in
  "Basic " ++ Base64.encode raw.

(** Reading a Base64 text back, used to tell apart the headers of distinct
    credentials. *)
Fixpoint sextet_from (i : nat) (pool : string) (c : ascii) : Z :=
  match pool with
  | EmptyString => Z.of_nat i
  | String x r => if Ascii.eqb c x then Z.of_nat i else sextet_from (S i) r c
  end.

Definition sextet (c : ascii) : Z := sextet_from 0 Base64.alphabet c.

Fixpoint base64_decode (s : string) : list Z :=
  match s with
  | String c1 (String c2 (String c3 (String c4 r))) =>
      let a := sextet c1 * 4 + sextet c2 / 16 in
      let b := sextet c2 mod 16 * 16 + sextet c3 / 4 in
      let c := sextet c3 mod 4 * 64 + sextet c4 in
      if Ascii.eqb c3 Base64.pad then [a]
      else if Ascii.eqb c4 Base64.pad then [a; b]
      else a :: b :: c :: base64_decode r
  | _ => []
  end.

(** The six-bit values, and the test that [sextet] undoes [char_of]
    without ever meeting the padding character. *)
Definition sextets : list Z := map Z.of_nat (seq 0 64).

Definition sextet_ok (n : Z) : bool :=
  (sextet (Base64.char_of n) =? n) && negb (Ascii.eqb (Base64.char_of n) Base64.pad).

(* ================================================================== *)
(** * Properties *)
(* ================================================================== *)

(** ** Text *)

Section DropFacts.

Variable p : ascii -> bool.

Lemma drop_left_fix s : head_ok p s = true -> PyStr.drop_left p s = s.
Proof.
  destruct s as [|c r]; simpl; auto.
  destruct (p c); simpl; [discriminate | reflexivity].
Qed.

Lemma head_ok_drop_left s : head_ok p (PyStr.drop_left p s) = true.
Proof.
  induction s as [|c r IH]; simpl; auto.
  destruct (p c) eqn:E; simpl; auto. now rewrite E.
Qed.

Lemma drop_right_cons c r :
  PyStr.drop_right p (String c r) =
  match PyStr.drop_right p r with
  | EmptyString => if p c then EmptyString else String c EmptyString
  | r' => String c r'
  end.
Proof. reflexivity. Qed.

Lemma drop_right_fix s : last_ok p s = true -> PyStr.drop_right p s = s.
Proof.
  induction s as [|c r IH]; auto.
  rewrite drop_right_cons. destruct r as [|c' r'].
  - simpl. destruct (p c); simpl; [discriminate | reflexivity].
  - intros H. change (last_ok p (String c' r') = true) in H.
    rewrite (IH H). reflexivity.
Qed.

Lemma last_ok_drop_right s : last_ok p (PyStr.drop_right p s) = true.
Proof.
  induction s as [|c r IH]; auto.
  rewrite drop_right_cons. destruct (PyStr.drop_right p r) as [|c' r'] eqn:E.
  - destruct (p c) eqn:Ec; simpl; auto. now rewrite Ec.
  - exact IH.
Qed.

Lemma head_ok_drop_right s :
  head_ok p s = true -> head_ok p (PyStr.drop_right p s) = true.
Proof.
  destruct s as [|c r]; auto.
  rewrite drop_right_cons. simpl. intros H.
  destruct (PyStr.drop_right p r); simpl; auto.
  destruct (p c) eqn:E; simpl in *; [discriminate | now rewrite E].
Qed.

(** Stripping both ends reaches a fixed point in one pass. *)
Lemma drop_both_fix s :
  let t := PyStr.drop_right p (PyStr.drop_left p s) in
  PyStr.drop_right p (PyStr.drop_left p t) = t.
Proof.
  intros t. subst t.
  rewrite (drop_left_fix (PyStr.drop_right p (PyStr.drop_left p s))).
  - apply drop_right_fix, last_ok_drop_right.
  - apply head_ok_drop_right, head_ok_drop_left.
Qed.

Lemma drop_both_ends s :
  head_ok p s = true -> last_ok p s = true ->
  PyStr.drop_right p (PyStr.drop_left p s) = s.
Proof.
  intros H1 H2. rewrite drop_left_fix by assumption. now apply drop_right_fix.
Qed.

(** Characters that [p] does not remove survive. *)
Variable q : ascii -> bool.
Hypothesis q_kept : forall c, q c = true -> p c = false.

Lemma any_char_drop_left s : any_char q (PyStr.drop_left p s) = any_char q s.
Proof.
  induction s as [|c r IH]; simpl; auto.
  destruct (p c) eqn:E; simpl; auto.
  rewrite IH. destruct (q c) eqn:Eq; auto.
  apply q_kept in Eq. congruence.
Qed.

Lemma any_char_drop_right s : any_char q (PyStr.drop_right p s) = any_char q s.
Proof.
  induction s as [|c r IH]; auto.
  rewrite drop_right_cons. simpl any_char at 2. rewrite <- IH.
  destruct (PyStr.drop_right p r) as [|c' r'].
  - destruct (p c) eqn:E; simpl.
    + destruct (q c) eqn:Eq; auto. apply q_kept in Eq. congruence.
    + reflexivity.
  - reflexivity.
Qed.

End DropFacts.

Lemma head_ok_app p a b :
  a <> EmptyString -> head_ok p (a ++ b) = head_ok p a.
Proof. destruct a; simpl; congruence. Qed.

Lemma last_ok_app p a b :
  b <> EmptyString -> last_ok p (a ++ b) = last_ok p b.
Proof.
  intros Hb. induction a as [|c r IH]; simpl; auto.
  destruct (r ++ b) eqn:E.
  - destruct r; simpl in E; [congruence | discriminate].
  - exact IH.
Qed.

Lemma any_char_app q a b : any_char q (a ++ b) = any_char q a || any_char q b.
Proof.
  induction a as [|c r IH]; simpl; auto. now rewrite IH, orb_assoc.
Qed.

Lemma all_chars_app q a b : all_chars q (a ++ b) = all_chars q a && all_chars q b.
Proof.
  induction a as [|c r IH]; simpl; auto. now rewrite IH, andb_assoc.
Qed.

Lemma strip_idempotent s : trimmed (PyStr.strip s).
Proof. apply (drop_both_fix PyStr.is_space). Qed.

Lemma trimmed_ends s :
  trimmed s <->
  head_ok PyStr.is_space s = true /\ last_ok PyStr.is_space s = true.
Proof.
  split.
  - intros H. unfold trimmed, PyStr.strip, PyStr.rstrip, PyStr.lstrip in H.
    rewrite <- H. split.
    + apply head_ok_drop_right, head_ok_drop_left.
    + apply last_ok_drop_right.
  - intros [H1 H2]. now apply (drop_both_ends PyStr.is_space).
Qed.

Lemma trimmed_empty : trimmed "".
Proof. reflexivity. Qed.

Lemma join_ends l :
  Forall (fun s => trimmed s /\ s <> EmptyString) l -> l <> [] ->
  head_ok PyStr.is_space (PyStr.join " " l) = true
  /\ last_ok PyStr.is_space (PyStr.join " " l) = true
  /\ PyStr.join " " l <> EmptyString.
Proof.
  induction 1 as [|x r [Hx Hne] Hr IH]; [congruence|]. intros _.
  apply trimmed_ends in Hx. destruct Hx as [Hh Hl].
  destruct r as [|y r'].
  - simpl. auto.
  - destruct IH as (IHh & IHl & IHne); [discriminate|].
    change (PyStr.join " " (x :: y :: r'))
      with (x ++ " " ++ PyStr.join " " (y :: r')).
    repeat split.
    + now rewrite head_ok_app.
    + rewrite last_ok_app by discriminate.
      change (" " ++ PyStr.join " " (y :: r'))
        with (String " " (PyStr.join " " (y :: r'))).
      destruct (PyStr.join " " (y :: r')) eqn:E; [congruence | exact IHl].
    + destruct x; simpl; congruence.
Qed.

(** Joining trimmed, non-empty words with single spaces leaves nothing for
    a final [strip] to remove. *)
Lemma join_trimmed l :
  Forall (fun s => trimmed s /\ s <> EmptyString) l -> trimmed (PyStr.join " " l).
Proof.
  intros H. destruct l as [|x r]; [reflexivity|].
  apply trimmed_ends. destruct (join_ends (x :: r) H) as (? & ? & _);
    [discriminate | auto].
Qed.

(** ** Integers and text *)

Ltac char_cases :=
  unfold alien, literal_char, PyStr.is_space, PyStr.int_space, PyStr.is_digit in *;
  repeat match goal with
         | H : Ascii.eqb _ _ = true |- _ => apply Ascii.eqb_eq in H; subst
         end;
  repeat match goal with
         | |- context [Ascii.eqb ?a ?b] =>
             destruct (Ascii.eqb_spec a b); subst; simpl; try reflexivity
         end;
  repeat match goal with
         | |- context [(?a <=? ?b)%N] => destruct (N.leb_spec a b)
         | |- context [(?a =? ?b)%N] => destruct (N.eqb_spec a b)
         | H : context [(?a <=? ?b)%N] |- _ => destruct (N.leb_spec a b)
         | H : context [(?a =? ?b)%N] |- _ => destruct (N.eqb_spec a b)
         end;
  simpl in *; try reflexivity; try discriminate; try lia.

Lemma int_space_is_space c : PyStr.int_space c = true -> PyStr.is_space c = true.
Proof. intros H. char_cases. Qed.

Lemma digit_not_space c : PyStr.is_digit c = true -> PyStr.is_space c = false.
Proof. intros H. char_cases. Qed.

Lemma digit_not_underscore c : PyStr.is_digit c = true -> Ascii.eqb c "_" = false.
Proof.
  intros H. destruct (Ascii.eqb_spec c "_"); [subst; discriminate | reflexivity].
Qed.

Lemma alien_not_space c : alien c = true -> PyStr.is_space c = false.
Proof.
  unfold alien. intros H. apply andb_true_iff in H. destruct H as [_ H].
  now apply negb_true_iff in H.
Qed.

Lemma alien_not_int_space c : alien c = true -> PyStr.int_space c = false.
Proof.
  intros H. apply alien_not_space in H.
  destruct (PyStr.int_space c) eqn:E; auto.
  apply int_space_is_space in E. congruence.
Qed.

Lemma alien_not_literal c : alien c = true -> literal_char c = false.
Proof.
  unfold alien. intros H. apply andb_true_iff in H. destruct H as [H _].
  now apply negb_true_iff in H.
Qed.

Lemma digits_of_uint u : all_chars PyStr.is_digit (NilEmpty.string_of_uint u) = true.
Proof. induction u; simpl; auto. Qed.

Lemma digits_underscores_ok s :
  all_chars PyStr.is_digit s = true -> PyStr.underscores_ok true s = true.
Proof.
  induction s as [|c r IH]; simpl; auto.
  intros H. apply andb_true_iff in H. destruct H as [Hc Hr].
  rewrite (digit_not_underscore c Hc). auto.
Qed.

Lemma digits_drop_underscores s :
  all_chars PyStr.is_digit s = true -> PyStr.drop_underscores s = s.
Proof.
  induction s as [|c r IH]; simpl; auto.
  intros H. apply andb_true_iff in H. destruct H as [Hc Hr].
  rewrite (digit_not_underscore c Hc), (IH Hr). reflexivity.
Qed.

Lemma digits_value_of_uint u :
  u <> Decimal.Nil ->
  PyStr.digits_value (NilEmpty.string_of_uint u) = Some (Z.of_uint u).
Proof.
  intros Hu. pose proof (digits_of_uint u) as Hd.
  unfold PyStr.digits_value.
  destruct (NilEmpty.string_of_uint u) as [|c r] eqn:E.
  - destruct u; simpl in E; congruence.
  - rewrite <- E in *. rewrite digits_underscores_ok, digits_drop_underscores by assumption.
    rewrite E in Hd. simpl in Hd. apply andb_true_iff in Hd. destruct Hd as [Hc _].
    rewrite Hc. simpl. now rewrite NilEmpty.usu.
Qed.

Lemma digits_ends p u :
  (forall c, PyStr.is_digit c = true -> p c = false) ->
  head_ok p (NilEmpty.string_of_uint u) = true
  /\ last_ok p (NilEmpty.string_of_uint u) = true.
Proof.
  intros Hp. pose proof (digits_of_uint u) as Hd.
  induction (NilEmpty.string_of_uint u) as [|c r IH]; [auto|].
  simpl in Hd. apply andb_true_iff in Hd. destruct Hd as [Hc Hr].
  split; simpl.
  - now rewrite (Hp c Hc).
  - destruct r; [now rewrite (Hp c Hc) | now apply IH].
Qed.

Lemma digit_not_int_space c : PyStr.is_digit c = true -> PyStr.int_space c = false.
Proof.
  intros H. destruct (PyStr.int_space c) eqn:E; auto.
  apply int_space_is_space in E. apply digit_not_space in H. congruence.
Qed.

Lemma digit_not_sign c :
  PyStr.is_digit c = true -> Ascii.eqb c "-" = false /\ Ascii.eqb c "+" = false.
Proof.
  intros H. split.
  - destruct (Ascii.eqb_spec c "-"); [subst; discriminate | reflexivity].
  - destruct (Ascii.eqb_spec c "+"); [subst; discriminate | reflexivity].
Qed.

Lemma uint_text_nonempty u :
  u <> Decimal.Nil -> NilEmpty.string_of_uint u <> EmptyString.
Proof. destruct u; simpl; congruence. Qed.

Lemma to_Z_unsigned u :
  u <> Decimal.Nil ->
  PyStr.to_Z (NilEmpty.string_of_uint u) = Some (Z.of_uint u).
Proof.
  intros Hu. unfold PyStr.to_Z.
  destruct (digits_ends PyStr.int_space u digit_not_int_space) as [Hh Hl].
  rewrite drop_both_ends by assumption.
  rewrite <- (digits_value_of_uint u Hu).
  pose proof (digits_of_uint u) as Hd.
  destruct (NilEmpty.string_of_uint u) as [|c r] eqn:E.
  - now apply uint_text_nonempty in E.
  - simpl in Hd. apply andb_true_iff in Hd. destruct Hd as [Hc _].
    destruct (digit_not_sign c Hc) as [-> ->]. reflexivity.
Qed.

Lemma to_Z_negative u :
  u <> Decimal.Nil ->
  PyStr.to_Z (String "-" (NilEmpty.string_of_uint u)) = Some (- Z.of_uint u).
Proof.
  intros Hu. unfold PyStr.to_Z.
  destruct (digits_ends PyStr.int_space u digit_not_int_space) as [Hh Hl].
  rewrite drop_both_ends.
  - simpl. now rewrite digits_value_of_uint.
  - reflexivity.
  - simpl. destruct (NilEmpty.string_of_uint u) eqn:E; [|exact Hl].
    now apply uint_text_nonempty in E.
Qed.

(** [int(str(n)) == n] *)
Lemma to_Z_of_Z n : PyStr.to_Z (PyStr.of_Z n) = Some n.
Proof.
  unfold PyStr.of_Z. rewrite <- (DecimalZ.of_to n) at 2.
  destruct n as [|q|q]; simpl Z.to_int; simpl NilEmpty.string_of_int.
  - reflexivity.
  - apply to_Z_unsigned, DecimalPos.Unsigned.to_uint_nonnil.
  - apply to_Z_negative, DecimalPos.Unsigned.to_uint_nonnil.
Qed.

(** The text of an int has no whitespace to strip. *)
Lemma strip_of_Z n : PyStr.strip (PyStr.of_Z n) = PyStr.of_Z n.
Proof.
  apply trimmed_ends. unfold PyStr.of_Z.
  destruct n as [|q|q]; simpl Z.to_int; simpl NilEmpty.string_of_int.
  - auto.
  - apply digits_ends, digit_not_space.
  - destruct (digits_ends PyStr.is_space (Pos.to_uint q) digit_not_space) as [Hh Hl].
    split; [reflexivity|]. simpl.
    destruct (NilEmpty.string_of_uint (Pos.to_uint q)) eqn:E; [|exact Hl].
    apply uint_text_nonempty in E; [easy | apply DecimalPos.Unsigned.to_uint_nonnil].
Qed.

(** A text that [int()] accepts holds literal characters and whitespace
    only. *)
Lemma uint_of_string_digits s u :
  NilEmpty.uint_of_string s = Some u -> all_chars PyStr.is_digit s = true.
Proof.
  intros H. apply NilEmpty.sus in H. subst s. apply digits_of_uint.
Qed.

Lemma dropped_underscores_alien s :
  all_chars PyStr.is_digit (PyStr.drop_underscores s) = true ->
  any_char alien s = false.
Proof.
  induction s as [|c r IH]; simpl; auto.
  destruct (Ascii.eqb_spec c "_").
  - subst. intros H. rewrite (IH H). reflexivity.
  - simpl. intros H. apply andb_true_iff in H. destruct H as [Hc Hr].
    rewrite (IH Hr), orb_false_r. unfold alien, literal_char. now rewrite Hc.
Qed.

Lemma digits_value_alien s n :
  PyStr.digits_value s = Some n -> any_char alien s = false.
Proof.
  unfold PyStr.digits_value. destruct s as [|c r]; [discriminate|].
  destruct (PyStr.is_digit c && PyStr.underscores_ok true (String c r)); [|discriminate].
  destruct (NilEmpty.uint_of_string (PyStr.drop_underscores (String c r))) eqn:E;
    [|discriminate].
  intros _. apply dropped_underscores_alien. eapply uint_of_string_digits; eauto.
Qed.

Lemma to_Z_alien s n : PyStr.to_Z s = Some n -> any_char alien s = false.
Proof.
  unfold PyStr.to_Z.
  rewrite <- (any_char_drop_left PyStr.int_space alien alien_not_int_space s).
  rewrite <- (any_char_drop_right PyStr.int_space alien alien_not_int_space).
  destruct (PyStr.drop_right PyStr.int_space (PyStr.drop_left PyStr.int_space s))
    as [|c r]; [discriminate|].
  destruct (Ascii.eqb_spec c "-"); [subst|destruct (Ascii.eqb_spec c "+"); [subst|]].
  - destruct (PyStr.digits_value r) eqn:E; [|discriminate].
    intros _. simpl. now apply digits_value_alien in E.
  - intros E. simpl. now apply digits_value_alien in E.
  - apply digits_value_alien.
Qed.

(** One alien character anywhere makes [int(s.strip())] fail. *)
Lemma alien_not_int s :
  any_char alien s = true -> PyStr.to_Z (PyStr.strip s) = None.
Proof.
  intros H. destruct (PyStr.to_Z (PyStr.strip s)) eqn:E; [|reflexivity].
  apply to_Z_alien in E. unfold PyStr.strip, PyStr.rstrip, PyStr.lstrip in E.
  rewrite (any_char_drop_right PyStr.is_space alien alien_not_space) in E.
  rewrite (any_char_drop_left PyStr.is_space alien alien_not_space) in E.
  congruence.
Qed.

(** ** Values whose text is no int literal *)

Lemma alien_float f : any_char alien (Py.float_repr f) = true.
Proof.
  destruct f as [neg w fr|neg w fr e|neg|]; unfold Py.float_repr.
  - rewrite !any_char_app. simpl. now rewrite !orb_true_r.
  - rewrite !any_char_app. simpl. now rewrite !orb_true_r.
  - rewrite any_char_app. simpl. now rewrite !orb_true_r.
  - reflexivity.
Qed.

Lemma alien_str v :
  match v with PInt _ | PStr _ => True | _ => any_char alien (Py.str v) = true end.
Proof.
  destruct v as [|[|]| | | | |]; simpl; auto.
  apply alien_float.
Qed.

(** ** Story points *)

Lemma key_lt_true n a b :
  key_lt n a b = true <->
  Z.abs (a - n) < Z.abs (b - n) \/ (Z.abs (a - n) = Z.abs (b - n) /\ a < b).
Proof.
  unfold key_lt. rewrite orb_true_iff, andb_true_iff, !Z.ltb_lt, Z.eqb_eq. tauto.
Qed.

Lemma key_lt_false n a b :
  key_lt n a b = false <->
  Z.abs (b - n) < Z.abs (a - n) \/ (Z.abs (b - n) = Z.abs (a - n) /\ b <= a).
Proof.
  destruct (key_lt n a b) eqn:E.
  - apply key_lt_true in E. split; [discriminate | lia].
  - split; [intros _ | reflexivity].
    assert (H : ~ (Z.abs (a - n) < Z.abs (b - n)
                   \/ (Z.abs (a - n) = Z.abs (b - n) /\ a < b))).
    { rewrite <- key_lt_true. congruence. }
    lia.
Qed.

Lemma key_le_trans n a b c :
  key_lt n b a = false -> key_lt n c b = false -> key_lt n c a = false.
Proof. rewrite !key_lt_false. lia. Qed.

(** [min] with the key of [_to_fib] returns an element of the list that no
    other element beats. *)
Lemma min_by_key_least n xs : forall x,
  In (min_by_key n x xs) (x :: xs)
  /\ forall y, In y (x :: xs) -> key_lt n y (min_by_key n x xs) = false.
Proof.
  unfold min_by_key. induction xs as [|v xs IH]; intros x.
  - simpl. split; [auto|]. intros y [<-|[]]. apply key_lt_false. lia.
  - simpl fold_left.
    destruct (IH (if key_lt n v x then v else x)) as [Hin Hmin]. split.
    + destruct Hin as [Hin|Hin]; [|now right; right].
      rewrite <- Hin. destruct (key_lt n v x); simpl; auto.
    + intros y [<-|[<-|Hy]].
      * destruct (key_lt n v x) eqn:E.
        -- eapply key_le_trans; [apply Hmin; now left|].
           apply key_lt_true in E. apply key_lt_false. lia.
        -- apply Hmin. now left.
      * destruct (key_lt n v x) eqn:E.
        -- apply Hmin. now left.
        -- eapply key_le_trans; [apply Hmin; now left | exact E].
      * apply Hmin. now right.
Qed.

Lemma to_fib_int n : _to_fib (PInt n) = min_by_key n 1 [2; 3; 5; 8; 13].
Proof.
  unfold _to_fib. simpl Py.str. now rewrite strip_of_Z, to_Z_of_Z.
Qed.

Lemma to_fib_text s :
  _to_fib (PStr s) =
  match PyStr.to_Z (PyStr.strip s) with
  | Some n => _to_fib (PInt n)
  | None => 3
  end.
Proof.
  unfold _to_fib at 1. simpl Py.str.
  destruct (PyStr.to_Z (PyStr.strip s)); [now rewrite to_fib_int | reflexivity].
Qed.

Lemma to_fib_allowed v : In (_to_fib v) _FIB_ALLOWED.
Proof.
  unfold _to_fib. destruct (PyStr.to_Z (PyStr.strip (Py.str v))) as [n|].
  - apply (min_by_key_least n [2; 3; 5; 8; 13] 1).
  - simpl. auto.
Qed.

Lemma to_fib_nearest n a :
  In a _FIB_ALLOWED ->
  Z.abs (_to_fib (PInt n) - n) <= Z.abs (a - n)
  /\ (Z.abs (a - n) = Z.abs (_to_fib (PInt n) - n) -> _to_fib (PInt n) <= a).
Proof.
  intros Ha. rewrite to_fib_int.
  destruct (min_by_key_least n [2; 3; 5; 8; 13] 1) as [_ Hmin].
  specialize (Hmin a Ha). apply key_lt_false in Hmin. lia.
Qed.

Lemma to_fib_fixes_allowed n : In n _FIB_ALLOWED -> _to_fib (PInt n) = n.
Proof.
  intros Hn. destruct (to_fib_nearest n n Hn) as [H _]. lia.
Qed.

Lemma to_fib_not_int v :
  PyStr.to_Z (PyStr.strip (Py.str v)) = None -> _to_fib v = 3.
Proof. unfold _to_fib. now intros ->. Qed.

Lemma to_fib_untyped v :
  match v with PInt _ | PStr _ => True | _ => _to_fib v = 3 end.
Proof.
  pose proof (alien_str v) as H.
  destruct v; auto; apply to_fib_not_int, alien_not_int, H.
Qed.

(** C2. The story-points coercion [_to_fib] returns a value of
    {1,2,3,5,8,13} on every input, so on every int and on every text that
    reads as an int; a text that reads as [n] is treated as the int [n]; an
    allowed [n] is returned as it is; the result is a nearest allowed value
    and, among the allowed values at that same distance, the lowest one, so
    [4] gives [3]; a text that is no int, and [None], give [3]. *)
Theorem to_fib_coercion :
  (forall v, In (_to_fib v) [1; 2; 3; 5; 8; 13])
  /\ (forall s n, PyStr.to_Z (PyStr.strip s) = Some n ->
                  _to_fib (PStr s) = _to_fib (PInt n))
  /\ (forall n, _to_fib (PStr (PyStr.of_Z n)) = _to_fib (PInt n))
  /\ (forall n, In n [1; 2; 3; 5; 8; 13] -> _to_fib (PInt n) = n)
  /\ (forall n a, In a [1; 2; 3; 5; 8; 13] ->
        Z.abs (_to_fib (PInt n) - n) <= Z.abs (a - n)
        /\ (Z.abs (a - n) = Z.abs (_to_fib (PInt n) - n) -> _to_fib (PInt n) <= a))
  /\ _to_fib (PInt 4) = 3
  /\ (forall s, PyStr.to_Z (PyStr.strip s) = None -> _to_fib (PStr s) = 3)
  /\ _to_fib PNone = 3.
Proof.
  repeat apply conj.
  - apply to_fib_allowed.
  - intros s n H. now rewrite to_fib_text, H.
  - intros n. now rewrite to_fib_text, strip_of_Z, to_Z_of_Z.
  - apply to_fib_fixes_allowed.
  - apply to_fib_nearest.
  - now rewrite to_fib_int.
  - intros s H. now rewrite to_fib_text, H.
  - reflexivity.
Qed.

Lemma to_fib_coercion_witness :
  In 8 [1; 2; 3; 5; 8; 13] /\ _to_fib (PInt 8) = 8
  /\ PyStr.to_Z (PyStr.strip " 6 ") = Some 6 /\ _to_fib (PStr " 6 ") = _to_fib (PInt 6)
  /\ PyStr.to_Z (PyStr.strip "five") = None /\ _to_fib (PStr "five") = 3.
Proof.
  destruct to_fib_coercion as (_ & Htext & _ & Hfix & _ & _ & Hbad & _).
  assert (H8 : In 8 [1; 2; 3; 5; 8; 13]) by (simpl; tauto).
  assert (H6 : PyStr.to_Z (PyStr.strip " 6 ") = Some 6) by reflexivity.
  assert (H5 : PyStr.to_Z (PyStr.strip "five") = None) by reflexivity.
  exact (conj H8 (conj (Hfix 8 H8)
          (conj H6 (conj (Htext " 6 " 6 H6) (conj H5 (Hbad "five" H5)))))).
Defined.

(** C10. Whenever the trimmed text of the input is no int literal,
    [_to_fib] returns the default 3, whatever allowed value is nearest to
    the number: so for every float ([4.7], and [5.0] too), for a text such
    as ["4.5"], and for every value that is neither an int nor a text. *)
Theorem to_fib_default_on_non_integer :
  (forall v, PyStr.to_Z (PyStr.strip (Py.str v)) = None -> _to_fib v = 3)
  /\ (forall f, _to_fib (PFloat f) = 3)
  /\ _to_fib (PFloat (FFix false (Decimal.D4 Decimal.Nil) (Decimal.D7 Decimal.Nil))) = 3
  /\ _to_fib (PFloat (FFix false (Decimal.D5 Decimal.Nil) (Decimal.D0 Decimal.Nil))) = 3
  /\ _to_fib (PStr "4.5") = 3
  /\ (forall s, any_char alien s = true -> _to_fib (PStr s) = 3)
  /\ (forall b, _to_fib (PBool b) = 3)
  /\ (forall l, _to_fib (PList l) = 3)
  /\ (forall d, _to_fib (PDict d) = 3).
Proof.
  repeat apply conj.
  - apply to_fib_not_int.
  - intros f. apply (to_fib_untyped (PFloat f)).
  - apply (to_fib_untyped (PFloat _)).
  - apply (to_fib_untyped (PFloat _)).
  - reflexivity.
  - intros s H. apply to_fib_not_int, alien_not_int, H.
  - intros b. apply (to_fib_untyped (PBool b)).
  - intros l. apply (to_fib_untyped (PList l)).
  - intros d. apply (to_fib_untyped (PDict d)).
Qed.

Lemma to_fib_default_on_non_integer_witness :
  PyStr.to_Z (PyStr.strip (Py.str (PStr "4.5"))) = None /\ _to_fib (PStr "4.5") = 3
  /\ any_char alien "1e3" = true /\ _to_fib (PStr "1e3") = 3.
Proof.
  destruct to_fib_default_on_non_integer as (Hgen & _ & _ & _ & _ & Halien & _).
  assert (H1 : PyStr.to_Z (PyStr.strip (Py.str (PStr "4.5"))) = None) by reflexivity.
  assert (H2 : any_char alien "1e3" = true) by reflexivity.
  exact (conj H1 (conj (Hgen (PStr "4.5") H1) (conj H2 (Halien "1e3" H2)))).
Defined.

(** ** Baseline generators *)

Lemma estimate_points_cases t :
  estimate_points t = 5 \/ estimate_points t = 3 \/ estimate_points t = 2.
Proof.
  unfold estimate_points.
  destruct (PyStr.any_in _ (PyStr.lower t)); auto.
  destruct (PyStr.any_in _ (PyStr.lower t)); auto.
Qed.

(** The points of the first story validate, and so do those of the second:
    the two constructor calls of the baseline generator cannot raise. *)
Lemma baseline_points_valid t :
  Story.points_ok (fib_down (estimate_points t)) = true
  /\ exists p2, fib_next_lower (fib_down (estimate_points t)) = inr p2
                /\ Story.points_ok p2 = true.
Proof.
  destruct (estimate_points_cases t) as [E|[E|E]]; rewrite E; split;
    try reflexivity; eexists; split; reflexivity.
Qed.

Lemma baseline_stories_total fs : forall sid,
  exists l, baseline_stories_from sid fs = inr l.
Proof.
  induction fs as [|f rest IH]; intros sid.
  - now exists [].
  - cbn [baseline_stories_from].
    set (base := if PyStr.nonempty (Feature.title f)
                 then PyStr.strip (Feature.title f) else "Feature").
    destruct (baseline_points_valid base) as (H1 & p2 & H2 & H3).
    unfold Story.init at 1. rewrite H1. cbn [bind ret].
    destruct (PyStr.nonempty (PyStr.strip (opt_text (Feature.description f)))).
    + rewrite H2. cbn [bind ret]. unfold Story.init. rewrite H3. cbn [bind ret].
      destruct (IH (sid + 2)%nat) as [l ->]. cbn [bind ret]. eauto.
    + destruct (IH (sid + 1)%nat) as [l ->]. cbn [bind ret]. eauto.
Qed.

Lemma baseline_total fs : exists l, features_to_baseline_stories fs = inr l.
Proof. apply baseline_stories_total. Qed.

(** The title [Login] holds the keyword [login]: the estimate is 5, not the
    small default. *)
Lemma estimate_points_login : estimate_points "Login" = 5.
Proof. reflexivity. Qed.

(** C8, as stated, fails: for the feature titled [Login] with an empty
    description there is no single baseline story with 2 story points. *)
Lemma baseline_login_not_two_points :
  ~ exists s,
      features_to_baseline_stories [login_feature] = inr [s]
      /\ Story.title s = "Login: happy path"
      /\ List.length (Story.acceptanceCriteria s) = 2%nat
      /\ Story.storyPoints s = 2.
Proof.
  intros (s & H & _ & _ & Hp). vm_compute in H.
  injection H as <-. discriminate Hp.
Qed.

(** C8, amended. For a feature titled [Login] whose description is empty
    (or blank, or absent), the baseline generator yields exactly one story,
    titled [Login: happy path], with 2 acceptance criteria and 5 story
    points: [login] is a keyword of the estimate 5. *)
Theorem baseline_login_story (f : Feature.t) :
  Feature.title f = "Login" ->
  PyStr.strip (opt_text (Feature.description f)) = "" ->
  exists s,
    features_to_baseline_stories [f] = inr [s]
    /\ Story.id s = Some "S-001"
    /\ Story.title s = "Login: happy path"
    /\ List.length (Story.acceptanceCriteria s) = 2%nat
    /\ Story.storyPoints s = 5.
Proof.
  intros Ht Hd. unfold features_to_baseline_stories. cbn [baseline_stories_from].
  rewrite Ht, Hd.
  change (PyStr.nonempty "Login") with true. change (PyStr.nonempty "") with false.
  cbv iota.
  change (PyStr.strip "Login") with "Login".
  change (fib_down (estimate_points "Login")) with 5.
  unfold Story.init. change (Story.points_ok 5) with true.
  cbn [bind ret]. eexists. split; [reflexivity|]. repeat split.
Qed.

Lemma baseline_login_story_witness :
  exists s,
    features_to_baseline_stories [login_feature] = inr [s]
    /\ Story.id s = Some "S-001"
    /\ Story.title s = "Login: happy path"
    /\ List.length (Story.acceptanceCriteria s) = 2%nat
    /\ Story.storyPoints s = 5.
Proof.
  apply (baseline_login_story login_feature); reflexivity.
Defined.

(** ** Generation endpoints *)

Lemma gemini_json_available llm :
  llm_available llm = true ->
  _gemini_json llm = match reply llm with Raises e => inl e | Returns raw => inr raw end.
Proof. unfold _gemini_json. intros ->. now destruct (reply llm). Qed.

(** The loop stops at the first item that raises: one failing item fails
    the whole block. *)
Lemma story_items_raise dflt raw : forall idx i s e,
  nth_error raw i = Some s ->
  story_item (idx + i) s dflt = inl e ->
  exists e', story_items idx raw dflt = inl e'.
Proof.
  induction raw as [|x rest IH]; intros idx i s e Hnth Hitem.
  - destruct i; discriminate.
  - cbn [story_items]. destruct i as [|j].
    + injection Hnth as ->. rewrite Nat.add_0_r in Hitem. rewrite Hitem.
      cbn [bind]. eauto.
    + destruct (story_item idx x dflt) as [e0|y]; cbn [bind]; [eauto|].
      simpl in Hnth.
      destruct (IH (idx + 1)%nat j s e Hnth) as [e' ->].
      * now replace (idx + 1 + j)%nat with (idx + S j)%nat by lia.
      * cbn [bind]. eauto.
Qed.

Lemma stories_attempt_fails llm features st :
  llm_available llm = true ->
  stories_ai_fails llm features ->
  exists st1 e, stories_attempt llm features st = (st1, inl e)
                /\ STATE_tests st1 = STATE_tests st
                /\ STATE_features st1 = STATE_features st.
Proof.
  intros Hav Hfail. unfold stories_attempt. rewrite gemini_json_available by assumption.
  destruct Hfail as [[e He]|(raw & i & s & e & Hr & Hnth & Hitem)].
  - rewrite He. eauto.
  - rewrite Hr. destruct (story_items_raise (hd_error features) (as_array raw) 1 i s e)
      as [e' He']; auto.
    rewrite He'. eexists. eexists. split; [reflexivity|]. split; reflexivity.
Qed.

(** C3. When the AI path of story generation raises (in the call, in the
    decoding, or on any single item), the whole batch falls back: the
    response carries the engine ["fallback"], its records are exactly the
    baseline stories of the same features, none of the AI stories, and its
    count is the baseline count; the error is recorded. *)
Theorem stories_fall_back_as_a_whole llm features st :
  llm_available llm = true ->
  stories_ai_fails llm features ->
  exists base resp st',
    features_to_baseline_stories features = inr base
    /\ generate_stories llm features st = inr (resp, st')
    /\ engine resp = "fallback"
    /\ records resp = map Story.model_dump base
    /\ count resp = List.length base
    /\ LAST_AI_ENGINE st' = "fallback"
    /\ STATE_stories st' = map Story.model_dump base
    /\ exists e, LAST_AI_ERROR st' = Some e.
Proof.
  intros Hav Hfail.
  destruct (baseline_total features) as [base Hbase].
  destruct (stories_attempt_fails llm features st Hav Hfail) as (st1 & e & Hatt & _).
  exists base. unfold generate_stories. rewrite Hav. cbn [negb].
  rewrite Hatt, Hbase. cbn [bind ret].
  eexists. eexists. split; [reflexivity|]. split; [reflexivity|].
  cbn. repeat split. eauto.
Qed.

Lemma stories_fall_back_as_a_whole_witness :
  let llm := mkLLM true (Returns (PList [PDict [("title", PStr "Sign in")];
                                        PDict [("title", PInt 5)]])) in
  exists base resp st',
    features_to_baseline_stories [login_feature] = inr base
    /\ generate_stories llm [login_feature] initial_state = inr (resp, st')
    /\ engine resp = "fallback"
    /\ records resp = map Story.model_dump base
    /\ count resp = List.length base
    /\ LAST_AI_ENGINE st' = "fallback"
    /\ STATE_stories st' = map Story.model_dump base
    /\ exists e, LAST_AI_ERROR st' = Some e.
Proof.
  intros llm. apply (stories_fall_back_as_a_whole llm [login_feature] initial_state).
  - reflexivity.
  - right. exists (PList [PDict [("title", PStr "Sign in")]; PDict [("title", PInt 5)]]).
    exists 1%nat. exists (PDict [("title", PInt 5)]).
    exists (AttributeError "int" "strip").
    split; [reflexivity|]. split; reflexivity.
Defined.

(** C5, as stated, fails: after a story generation served by the AI path
    the recorded engine is ["gemini"], which is neither ["ai"] nor
    ["fallback"]. *)
Lemma engine_label_is_gemini :
  generate_stories (mkLLM true (Returns (PList []))) [] initial_state
  = inr (mkResponse 0 "gemini" [], mkState [] [] [] "gemini" None)
  /\ "gemini" <> "ai" /\ "gemini" <> "fallback".
Proof. repeat split; discriminate. Qed.

(** C5, amended. Every call of story generation and of test generation
    returns, and leaves as recorded engine one of exactly two values,
    ["gemini"] or ["fallback"], the value sent in the response: ["gemini"]
    when the AI path produced the records, ["fallback"] when the baseline
    generator did. *)
Theorem engine_label_values :
  (forall llm features st,
     exists resp st',
       generate_stories llm features st = inr (resp, st')
       /\ engine resp = LAST_AI_ENGINE st'
       /\ records resp = STATE_stories st'
       /\ ((LAST_AI_ENGINE st' = "gemini"
            /\ exists stories,
                 snd (stories_attempt llm features st) = inr stories
                 /\ records resp = map Story.model_dump stories)
           \/ (LAST_AI_ENGINE st' = "fallback"
               /\ exists base,
                    features_to_baseline_stories features = inr base
                    /\ records resp = map Story.model_dump base)))
  /\ (forall llm stories st,
        let resp := fst (generate_tests llm stories st) in
        let st' := snd (generate_tests llm stories st) in
        engine resp = LAST_AI_ENGINE st'
        /\ records resp = STATE_tests st'
        /\ ((LAST_AI_ENGINE st' = "gemini"
             /\ exists tests,
                  snd (tests_attempt llm stories st) = inr tests
                  /\ records resp = map TestCase.model_dump tests)
            \/ (LAST_AI_ENGINE st' = "fallback"
                /\ records resp
                   = map TestCase.model_dump (stories_to_baseline_tests stories)))).
Proof.
  split.
  - intros llm features st. unfold generate_stories.
    destruct (baseline_total features) as [base Hbase].
    destruct (llm_available llm) eqn:Hav; cbn [negb].
    + unfold stories_attempt. rewrite gemini_json_available by assumption.
      destruct (reply llm) as [e|raw].
      * rewrite Hbase. cbn [bind ret]. eexists. eexists.
        split; [reflexivity|]. cbn. repeat split. right. split; eauto.
      * destruct (story_items 1 (as_array raw) (hd_error features)) as [e|stories] eqn:E.
        -- rewrite Hbase. cbn [bind ret]. eexists. eexists.
           split; [reflexivity|]. cbn. repeat split. right. split; eauto.
        -- cbn [bind ret]. eexists. eexists.
           split; [reflexivity|]. cbn. repeat split. left. split; eauto.
    + rewrite Hbase. cbn [bind ret]. eexists. eexists.
      split; [reflexivity|]. cbn. repeat split. right. split; eauto.
  - intros llm stories st. unfold generate_tests.
    destruct (llm_available llm) eqn:Hav; cbn [negb].
    + unfold tests_attempt. rewrite gemini_json_available by assumption.
      destruct (reply llm) as [e|raw].
      * cbn. repeat split. right. split; reflexivity.
      * match goal with
        | |- context [bind ?m ?k] => destruct (bind m k) as [e|tests] eqn:E
        end.
        -- cbn. repeat split. right. split; reflexivity.
        -- cbn. repeat split. left. split; eauto.
    + cbn. repeat split. right. split; reflexivity.
Qed.

(** C9: the last error outlives a call. A story generation whose model call
    raises records the error; the test generation that follows is served
    by the AI path and overwrites the engine, yet the error of the earlier
    call is still the recorded one. [generate_stories] clears it at that
    point, [generate_tests] does not. *)
Theorem tests_keep_earlier_error :
  let failing := mkLLM true (Raises (RuntimeError "quota exceeded")) in
  let working := mkLLM true (Returns (PList [])) in
  exists resp1 st1,
    generate_stories failing [] initial_state = inr (resp1, st1)
    /\ LAST_AI_ERROR st1 = Some (RuntimeError "quota exceeded")
    /\ LAST_AI_ENGINE (snd (generate_tests working [] st1)) = "gemini"
    /\ LAST_AI_ERROR (snd (generate_tests working [] st1))
       = Some (RuntimeError "quota exceeded")
    /\ (exists resp2 st2,
          generate_stories working [] st1 = inr (resp2, st2)
          /\ LAST_AI_ERROR st2 = None).
Proof.
  cbv zeta. eexists. eexists. split; [reflexivity|].
  repeat split. eexists. eexists. split; reflexivity.
Qed.

(** The engine, for its part, is overwritten by every call; the last error
    is left as it was whenever no exception is caught: in the AI path of
    test generation, and in both endpoints when no model is configured. *)
Lemma last_error_left_alone :
  (forall llm stories st tests,
     llm_available llm = true ->
     snd (tests_attempt llm stories st) = inr tests ->
     LAST_AI_ERROR (snd (generate_tests llm stories st)) = LAST_AI_ERROR st)
  /\ (forall llm stories st,
        llm_available llm = false ->
        LAST_AI_ERROR (snd (generate_tests llm stories st)) = LAST_AI_ERROR st)
  /\ (forall llm features st resp st',
        llm_available llm = false ->
        generate_stories llm features st = inr (resp, st') ->
        LAST_AI_ERROR st' = LAST_AI_ERROR st).
Proof.
  repeat apply conj.
  - intros llm stories st tests Hav Hok. unfold generate_tests. rewrite Hav. cbn [negb].
    revert Hok. unfold tests_attempt. rewrite gemini_json_available by assumption.
    destruct (reply llm) as [e|raw]; [discriminate|].
    cbn [snd]. intros ->. reflexivity.
  - intros llm stories st Hav. unfold generate_tests. rewrite Hav. reflexivity.
  - intros llm features st resp st' Hav. unfold generate_stories. rewrite Hav. cbn [negb].
    destruct (features_to_baseline_stories features); cbn [bind ret]; [discriminate|].
    intros H. injection H as _ <-. reflexivity.
Qed.

(** ** Story normalizer *)

Lemma of_val_dict d : Dict.of_val (Py.or (PDict d) (PDict [])) = inr (Dict.of_items d).
Proof. destruct d; reflexivity. Qed.

Lemma normalize_story_dict d fb :
  _normalize_story (PDict d) fb =
  (title <- story_title d fb ;;
   description <- story_description d fb ;;
   ret [("featureId", PStr (or_text (PyStr.strip (Py.str (story_feature_id d fb))) "F"));
        ("title", PStr title);
        ("description", PDict description);
        ("acceptanceCriteria", PList (story_acceptance d fb));
        ("storyPoints", PInt (_to_fib (Dict.get d "storyPoints")))]).
Proof. unfold _normalize_story. rewrite of_val_dict. reflexivity. Qed.

Lemma strip_text v :
  Py.is_str v = true -> exists s, v = PStr s /\ Py.strip v = inr (PyStr.strip s).
Proof. destruct v; try discriminate. eauto. Qed.

Lemma strip_not_text v :
  Py.is_str v = false -> Py.strip v = inl (AttributeError (Py.type_name v) "strip").
Proof. destruct v; try discriminate; reflexivity. Qed.

Lemma or_text_nonempty x d : d <> EmptyString -> or_text x d <> EmptyString.
Proof. unfold or_text. destruct x; simpl; congruence. Qed.

Lemma nonempty_true s : PyStr.nonempty s = true <-> s <> EmptyString.
Proof. destruct s; simpl; split; congruence. Qed.

Lemma strip_keeps_head c r :
  PyStr.is_space c = false -> PyStr.strip (String c r) <> EmptyString.
Proof.
  intros Hc. unfold PyStr.strip, PyStr.lstrip, PyStr.rstrip.
  cbn [PyStr.drop_left]. rewrite Hc. rewrite drop_right_cons. rewrite Hc.
  destruct (PyStr.drop_right PyStr.is_space r); discriminate.
Qed.

Lemma story_title_clean d fb :
  Py.is_str (Py.or (Dict.get d "title") (PStr "")) = true ->
  exists t, story_title d fb = inr t /\ clean t.
Proof.
  intros H. unfold story_title.
  destruct (strip_text _ H) as (s & -> & ->). cbn [bind].
  destruct (PyStr.nonempty (PyStr.strip s)) eqn:E.
  - eexists. split; [reflexivity|]. split; [apply strip_idempotent | now apply nonempty_true].
  - eexists. split; [reflexivity|]. split; [apply strip_idempotent|].
    apply strip_keeps_head. reflexivity.
Qed.

Lemma title_or_text fb d :
  exists s, Py.or (getattr_title fb (PStr "")) (PStr d) = PStr s.
Proof.
  destruct fb as [f|]; unfold Py.or; simpl.
  - destruct (PyStr.nonempty (Feature.title f)); eauto.
  - eauto.
Qed.

Lemma story_description_texts d fb :
  texts_ok d fb = true ->
  exists a i s,
    story_description d fb
    = inr [("asA", PStr a); ("iWant", PStr i); ("soThat", PStr s)].
Proof.
  unfold texts_ok, story_description. intros H.
  apply andb_true_iff in H. destruct H as [_ H].
  destruct (Dict.get d "description");
    try solve [destruct (title_or_text fb "use the feature") as [w ->];
               do 3 eexists; reflexivity].
  apply andb_true_iff in H. destruct H as [H H3].
  apply andb_true_iff in H. destruct H as [H1 H2].
  destruct (strip_text _ H1) as (a & _ & ->).
  destruct (strip_text _ H2) as (i & _ & ->).
  destruct (strip_text _ H3) as (s & _ & ->).
  cbn [bind ret]. eauto.
Qed.

(** The normalizer returns exactly when the values it trims are texts. *)
Lemma normalize_story_returns d fb :
  texts_ok d fb = true ->
  exists fid t a i s,
    _normalize_story (PDict d) fb
    = inr [("featureId", PStr fid);
           ("title", PStr t);
           ("description", PDict [("asA", PStr a); ("iWant", PStr i); ("soThat", PStr s)]);
           ("acceptanceCriteria", PList (story_acceptance d fb));
           ("storyPoints", PInt (_to_fib (Dict.get d "storyPoints")))]
    /\ fid <> EmptyString /\ clean t.
Proof.
  intros H. rewrite normalize_story_dict.
  destruct (story_description_texts d fb H) as (a & i & s & ->).
  apply andb_true_iff in H. destruct H as [H _].
  destruct (story_title_clean d fb H) as (t & -> & Ht).
  cbn [bind ret]. do 5 eexists. split; [reflexivity|]. split; [|exact Ht].
  apply or_text_nonempty. discriminate.
Qed.

Lemma normalize_story_raises d fb :
  texts_ok d fb = false ->
  exists ty, _normalize_story (PDict d) fb = inl (AttributeError ty "strip").
Proof.
  intros H. rewrite normalize_story_dict. unfold texts_ok in H.
  destruct (Py.is_str (Py.or (Dict.get d "title") (PStr ""))) eqn:Ht.
  - destruct (story_title_clean d fb Ht) as (t & -> & _). cbn [bind].
    simpl in H. unfold story_description.
    destruct (Dict.get d "description"); try discriminate.
    match type of H with
    | (Py.is_str ?x && Py.is_str ?y && Py.is_str ?z) = false =>
        destruct (Py.is_str x) eqn:H1;
        [destruct (strip_text _ H1) as (? & _ & ->); cbn [bind];
         destruct (Py.is_str y) eqn:H2;
         [destruct (strip_text _ H2) as (? & _ & ->); cbn [bind];
          simpl in H; rewrite (strip_not_text _ H); cbn [bind]; eauto
         | rewrite (strip_not_text _ H2); cbn [bind]; eauto]
        | rewrite (strip_not_text _ H1); cbn [bind]; eauto]
    end.
  - unfold story_title. rewrite (strip_not_text _ Ht). cbn [bind]. eauto.
Qed.

(** A normalized criterion is a triple of texts, whatever the item was. *)
Lemma normalize_gwt_validates x :
  exists g, GivenWhenThen.validate (_normalize_gwt x) = inr g
            /\ trimmed_gwt g.
Proof.
  unfold _normalize_gwt. eexists. split; [reflexivity|].
  repeat split; apply strip_idempotent.
Qed.

Lemma normalize_gwt_non_mapping x :
  Py.is_dict x = false -> _normalize_gwt x = gwt_literal "" "" "".
Proof. destruct x; try discriminate; reflexivity. Qed.

Lemma mapM_normalized_gwt l :
  exists gs, mapM GivenWhenThen.validate (map _normalize_gwt l) = inr gs
             /\ List.length gs = List.length l.
Proof.
  induction l as [|x r (gs & IH & Hlen)]; [now exists []|].
  destruct (normalize_gwt_validates x) as (g & Hg & _).
  cbn [map mapM]. rewrite Hg, IH. cbn [bind ret]. eexists. split; [reflexivity|].
  simpl. now rewrite Hlen.
Qed.

Lemma story_acceptance_normalized d fb :
  exists l, story_acceptance d fb = map _normalize_gwt l /\ l <> [].
Proof.
  unfold story_acceptance.
  match goal with
  | |- context [map _normalize_gwt ?l] => destruct l as [|x r] eqn:E
  end.
  - cbn [map]. eexists [_; _]. split; [reflexivity | discriminate].
  - exists (x :: r). split; [reflexivity | discriminate].
Qed.

(** ** Dictionaries *)

Lemma get_set_same d k v : Dict.get (Dict.set d k v) k = v.
Proof.
  induction d as [|[k0 v0] r IH]; simpl.
  - now rewrite String.eqb_refl.
  - destruct (String.eqb k k0) eqn:E; simpl.
    + now rewrite String.eqb_refl.
    + now rewrite E.
Qed.

Lemma get_set_other d k v k' :
  String.eqb k' k = false -> Dict.get (Dict.set d k v) k' = Dict.get d k'.
Proof.
  intros Hk. induction d as [|[k0 v0] r IH]; simpl.
  - now rewrite Hk.
  - destruct (String.eqb k k0) eqn:E; simpl.
    + apply String.eqb_eq in E. subst k0. now rewrite Hk.
    + now rewrite IH.
Qed.

Ltac dict_lookup :=
  repeat first
    [ rewrite get_set_same
    | rewrite get_set_other by reflexivity ].

(** ** TestCase normalizer *)

Lemma kept_texts_clean l : Forall clean (kept_texts l).
Proof.
  unfold kept_texts. induction l as [|x r IH]; simpl; [constructor|].
  destruct (negb (Py.is_none x) && PyStr.nonempty (PyStr.strip (Py.str x))) eqn:E;
    [|exact IH].
  simpl. constructor; [|exact IH].
  apply andb_true_iff in E. destruct E as [_ E].
  split; [apply strip_idempotent | now apply nonempty_true].
Qed.

Lemma trimmed_strip s : trimmed s -> PyStr.strip s = s.
Proof. exact (fun H => H). Qed.

Lemma mapM_step_items l : mapM TestCase.step_item (map PStr l) = inr l.
Proof.
  induction l as [|x r IH]; [reflexivity|].
  cbn [map mapM TestCase.step_item bind ret]. rewrite IH. reflexivity.
Qed.

(** C4. On every mapping the TestCase normalizer returns, and what it
    returns validates as a TestCase. Its steps are the kept texts of the
    input steps: a single text stands for the one-element list, a list for
    itself, anything else (also null) for the empty list; each element is
    stringified and trimmed, null and empty-after-trim elements are
    discarded, so every step is non-empty and trimmed. Its expected value is
    a trimmed text: the kept texts joined by single spaces for a list, the
    empty text for null. Its preconditions are a trimmed text, empty for
    null. In particular the sample input gives steps [click button],
    expected [ok done] and empty preconditions. *)
Theorem normalize_testcase_shape :
  (forall (d : Dict.items) (story_id_fallback : pyval),
     exists t tc steps e p,
       _normalize_testcase (PDict d) story_id_fallback = inr t
       /\ TestCase.validate t = inr tc
       /\ TestCase.steps tc = steps
       /\ TestCase.expected tc = e
       /\ TestCase.preconditions tc = p
       /\ Dict.get (Dict.entries t) "steps" = PList (map PStr steps)
       /\ Dict.get (Dict.entries t) "expected" = PStr e
       /\ Dict.get (Dict.entries t) "preconditions" = PStr p
       /\ Forall clean steps
       /\ (forall s, Dict.get d "steps" = PStr s -> steps = kept_texts [PStr s])
       /\ (forall s, Dict.get d "steps" = PStr s -> PyStr.strip s <> "" ->
           steps = [PyStr.strip s])
       /\ (forall l, Dict.get d "steps" = PList l -> steps = kept_texts l)
       /\ (Py.is_str (Dict.get d "steps") = false ->
           Py.is_list (Dict.get d "steps") = false -> steps = [])
       /\ trimmed e
       /\ (forall l, Dict.get d "expected" = PList l -> e = PyStr.join " " (kept_texts l))
       /\ (Dict.get d "expected" = PNone -> e = "")
       /\ trimmed p
       /\ (Dict.get d "preconditions" = PNone -> p = ""))
  /\ (exists t,
        _normalize_testcase (PDict sample_testcase) (PStr "S") = inr t
        /\ Dict.get (Dict.entries t) "steps" = PList [PStr "click button"]
        /\ Dict.get (Dict.entries t) "expected" = PStr "ok done"
        /\ Dict.get (Dict.entries t) "preconditions" = PStr "").
Proof.
  split; [|eexists; split; [reflexivity|]; repeat split].
  intros d fb. unfold _normalize_testcase. rewrite of_val_dict.
  cbn [bind ret Dict.entries Dict.other_keys Dict.of_items]. cbv zeta.
  dict_lookup.
  fold (steps_input (Dict.get d "steps")).
  fold (kept_texts (steps_input (Dict.get d "steps"))).
  set (steps := kept_texts (steps_input (Dict.get d "steps"))).
  set (e := PyStr.strip (Py.str match Dict.get d "expected" with
                                | PList l => _
                                | PNone => PStr ""
                                | _ => Dict.get d "expected"
                                end)).
  set (p := PyStr.strip (if Py.is_none (Dict.get d "preconditions") then ""
                         else Py.str (Dict.get d "preconditions"))).
  set (sid := or_text _ "S").
  match goal with
  | |- context [if ?c then Dict.set ?t "id" ?v else ?t] =>
      set (final := if c then Dict.set t "id" v else t);
      assert (Hsteps : Dict.get final "steps" = PList (map PStr steps))
        by (subst final; destruct c; dict_lookup; reflexivity);
      assert (He : Dict.get final "expected" = PStr e)
        by (subst final; destruct c; dict_lookup; reflexivity);
      assert (Hp : Dict.get final "preconditions" = PStr p)
        by (subst final; destruct c; dict_lookup; reflexivity);
      assert (Hsid : Dict.get final "storyId" = PStr sid)
        by (subst final; destruct c; dict_lookup; reflexivity);
      assert (Hid : exists i, Dict.get final "id" = PStr i)
  end.
  { subst final.
    match goal with
    | |- context [if ?c then _ else _] => destruct c eqn:Ec
    end.
    - dict_lookup. eauto.
    - apply orb_false_iff in Ec. destruct Ec as [Ec _].
      apply negb_false_iff in Ec. dict_lookup.
      destruct (Dict.get d "id"); try discriminate. eauto. }
  destruct Hid as [i Hid].
  exists (Dict.mk final false), (TestCase.mk i sid p steps e), steps, e, p.
  split; [reflexivity|]. split.
  { unfold TestCase.validate, str_field. cbn [Dict.other_keys Dict.entries].
    rewrite Hid, Hsid, Hp, Hsteps, He. cbn [bind ret].
    rewrite mapM_step_items. reflexivity. }
  do 3 (split; [reflexivity|]).
  do 3 (split; [assumption|]).
  split; [apply kept_texts_clean|].
  split; [intros s Hs; subst steps; now rewrite Hs|].
  split.
  { intros s Hs Hne. subst steps. rewrite Hs. unfold kept_texts.
    cbn [steps_input filter Py.is_none negb andb Py.str].
    apply nonempty_true in Hne. rewrite Hne. reflexivity. }
  split; [intros l Hl; subst steps; now rewrite Hl|].
  split; [subst steps; destruct (Dict.get d "steps"); try discriminate; reflexivity|].
  split; [apply strip_idempotent|].
  split.
  { intros l Hl. subst e. rewrite Hl. cbn [Py.str]. fold (kept_texts l).
    apply trimmed_strip, join_trimmed.
    eapply Forall_impl; [|apply kept_texts_clean]. now intros a [? ?]. }
  split; [intros Hn; subst e; now rewrite Hn|].
  split; [apply strip_idempotent|].
  intros Hn. subst p. now rewrite Hn.
Qed.

Lemma normalize_testcase_shape_witness :
  Dict.get sample_testcase "steps" = PStr "click button"
  /\ Dict.get sample_testcase "expected" = PList [PStr "ok"; PStr "done"]
  /\ Dict.get sample_testcase "preconditions" = PNone
  /\ exists t tc,
       _normalize_testcase (PDict sample_testcase) (PStr "S") = inr t
       /\ TestCase.validate t = inr tc
       /\ TestCase.steps tc = ["click button"]
       /\ TestCase.expected tc = "ok done"
       /\ TestCase.preconditions tc = "".
Proof.
  destruct (proj1 normalize_testcase_shape sample_testcase (PStr "S"))
    as (t & tc & steps & e & p & H1 & H2 & H3 & H4 & H5 & _ & _ & _ & _
        & _ & Hs & _ & _ & _ & Hl & _ & _ & Hn).
  split; [reflexivity|]. split; [reflexivity|]. split; [reflexivity|].
  exists t, tc. rewrite H3, H4, H5.
  assert (Hne : PyStr.strip "click button" <> "") by discriminate.
  rewrite (Hs "click button" eq_refl Hne), (Hl [PStr "ok"; PStr "done"] eq_refl),
    (Hn eq_refl).
  repeat split; assumption.
Defined.

(** ** Story normalizer: what it guarantees and what it does not *)

(** C1: the normalizer does not cover every mapping. A title that is a
    number makes it raise instead of producing a story, and so does a
    description part that is not a text; a numeric [id] passes through the
    caller's assignment and fails validation. Each of the three ends the
    AI path of [generate_stories], which falls back. *)
Theorem normalize_story_raises_on_non_text :
  _normalize_story (PDict [("title", PInt 5)]) (Some login_feature)
  = inl (AttributeError "int" "strip")
  /\ _normalize_story
       (PDict [("title", PStr "Login");
               ("description", PDict [("asA", PList [PStr "admin"])])]) None
     = inl (AttributeError "list" "strip")
  /\ story_item 1 (PDict [("id", PInt 7); ("title", PStr "Login")]) None
     = inl (ValidationError "Story" "id")
  /\ (exists resp st',
        generate_stories (mkLLM true (Returns (PList [PDict [("title", PInt 5)]])))
          [login_feature] initial_state = inr (resp, st')
        /\ engine resp = "fallback"
        /\ LAST_AI_ERROR st' = Some (AttributeError "int" "strip")).
Proof.
  repeat apply conj; try reflexivity.
  eexists. eexists. split; [reflexivity|]. split; reflexivity.
Qed.

(** What does hold: when the title and the parts of a mapping description
    are texts (or falsy, or absent) and the [id] is a text (or falsy, or
    absent), one turn of the loop returns a validated story with the
    shape of the schema. *)
Lemma story_item_validates idx d fb :
  texts_ok d fb = true ->
  Py.truthy (Dict.get d "id") = false \/ Py.is_str (Dict.get d "id") = true ->
  exists x,
    story_item idx (PDict d) fb = inr x
    /\ (exists i, Story.id x = Some i /\ i <> EmptyString)
    /\ (exists f, Story.featureId x = Some f /\ f <> EmptyString)
    /\ clean (Story.title x)
    /\ Story.acceptanceCriteria x <> []
    /\ Forall trimmed_gwt (Story.acceptanceCriteria x)
    /\ In (Story.storyPoints x) [1; 2; 3; 5; 8; 13].
Proof.
  intros Hok Hid. unfold story_item.
  destruct (normalize_story_returns d fb Hok) as (fid & t & a & i & s & -> & Hfid & Ht).
  cbn [bind Dict.get_attr ret].
  assert (Hsid : exists sid, Py.or (Dict.get d "id") (PStr ("S-" ++ PyStr.pad3 idx)) = PStr sid
                             /\ sid <> EmptyString).
  { unfold Py.or. destruct Hid as [Hf|Hs].
    - rewrite Hf. eexists. split; [reflexivity | discriminate].
    - destruct (Dict.get d "id") as [| | | |w| |] eqn:E; try discriminate.
      simpl. destruct w; simpl; eexists; split; try reflexivity; discriminate. }
  destruct Hsid as (sid & -> & Hsid).
  assert (Htruthy : Py.truthy (PStr fid) = true) by (now apply nonempty_true).
  cbn [Dict.set String.eqb Ascii.eqb Bool.eqb Dict.get negb]. rewrite Htruthy. cbn [negb].
  unfold Story.validate.
  cbn [Dict.other_keys Dict.of_items Dict.entries opt_str_field str_field Dict.get
       String.eqb Ascii.eqb Bool.eqb bind ret StoryDescription.validate].
  destruct (story_acceptance_normalized d fb) as (l & -> & Hl).
  destruct (mapM_normalized_gwt l) as (gs & Hgs & Hlen). rewrite Hgs. cbn [bind].
  unfold Story.init.
  assert (Hp : Story.points_ok (_to_fib (Dict.get d "storyPoints")) = true).
  { pose proof (to_fib_allowed (Dict.get d "storyPoints")) as H.
    unfold Story.points_ok, Story.points_literal. apply existsb_exists.
    eexists. split; [exact H | apply Z.eqb_refl]. }
  rewrite Hp. eexists. split; [reflexivity|]. cbn.
  split; [eauto|]. split; [eauto|]. split; [exact Ht|].
  split; [destruct gs; [destruct l; [congruence | discriminate] | discriminate]|].
  split; [|apply to_fib_allowed].
  clear - Hgs. revert gs Hgs. induction l as [|y r IH]; intros gs Hgs.
  - injection Hgs as <-. constructor.
  - cbn [map mapM] in Hgs.
    destruct (normalize_gwt_validates y) as (g & Hg & Hclean). rewrite Hg in Hgs.
    cbn [bind] in Hgs.
    destruct (mapM GivenWhenThen.validate (map _normalize_gwt r)) as [e|gr];
      cbn [bind ret] in Hgs; [discriminate|].
    injection Hgs as <-. constructor; [exact Hclean | now apply IH].
Qed.

(** ** Normalizing a story that is already valid *)

Lemma or_kept_text t b : t <> EmptyString -> Py.or (PStr t) b = PStr t.
Proof. unfold Py.or. destruct t; simpl; congruence. Qed.

Lemma strip_clean t : clean t -> Py.strip (PStr t) = inr t.
Proof. intros [Ht _]. simpl. unfold ret. now rewrite Ht. Qed.

Lemma text_or_empty a :
  Py.str (Py.or (PStr a) (Py.or PNone (Py.or PNone (Py.or PNone (PStr ""))))) = a.
Proof. destruct a; reflexivity. Qed.

Lemma normalize_gwt_dumped g :
  trimmed_gwt g -> _normalize_gwt (GivenWhenThen.model_dump g) = GivenWhenThen.model_dump g.
Proof.
  destruct g as [a b c]. intros (Ha & Hb & Hc). simpl in Ha, Hb, Hc.
  unfold _normalize_gwt, GivenWhenThen.model_dump.
  cbn [GivenWhenThen.given GivenWhenThen.when_ GivenWhenThen.then_
       Dict.get String.eqb Ascii.eqb Bool.eqb].
  rewrite !text_or_empty, Ha, Hb, Hc. reflexivity.
Qed.

Lemma normalize_gwt_dumped_all gs :
  Forall trimmed_gwt gs ->
  map _normalize_gwt (filter (fun x => negb (Py.is_none x)) (map GivenWhenThen.model_dump gs))
  = map GivenWhenThen.model_dump gs.
Proof.
  induction 1 as [|g r Hg Hr IH]; [reflexivity|].
  cbn [map filter GivenWhenThen.model_dump Py.is_none negb].
  fold (GivenWhenThen.model_dump g). now rewrite normalize_gwt_dumped, IH.
Qed.

(** C6, as stated, fails: a valid story whose title carries surrounding
    blanks does not come back as it was, the normalizer trims the title. *)
Lemma normalize_padded_story_differs :
  Story.points_ok (Story.storyPoints padded_story) = true
  /\ Story.validate (Dict.of_items (("id", PStr "S-001") :: dumped_fields padded_story))
     = inr padded_story
  /\ _normalize_story (Story.model_dump padded_story) None
     = inr (dumped_fields tidy_story)
  /\ dumped_fields tidy_story <> dumped_fields padded_story.
Proof. repeat apply conj; try reflexivity. discriminate. Qed.

Lemma model_dump_fields x :
  Story.model_dump x = PDict (("id", Py.of_opt (Story.id x)) :: dumped_fields x).
Proof. reflexivity. Qed.

Lemma validate_dumped_gwts acs :
  mapM GivenWhenThen.validate (map GivenWhenThen.model_dump acs) = inr acs.
Proof.
  induction acs as [|[a b c] r IH]; [reflexivity|].
  cbn [map mapM]. rewrite IH. reflexivity.
Qed.

Lemma normalize_dumped_canonical (x : Story.t) (fb : option Feature.t) :
  canonical x ->
  _normalize_story (Story.model_dump x) fb = inr (dumped_fields x).
Proof.
  destruct x as [id fid t [a i s] acs sp].
  intros ((f & Hf & Hfc) & Ht & Ha & Hi & Hs & Hne & Hacs & Hsp).
  cbn [Story.featureId Story.title Story.description Story.acceptanceCriteria
       Story.storyPoints StoryDescription.asA StoryDescription.iWant
       StoryDescription.soThat] in *.
  subst fid. unfold Story.model_dump. rewrite normalize_story_dict.
  unfold story_title, story_description, story_feature_id, story_acceptance, dumped_fields.
  cbn [Story.id Story.featureId Story.title Story.description Story.acceptanceCriteria
       Story.storyPoints StoryDescription.model_dump StoryDescription.asA
       StoryDescription.iWant StoryDescription.soThat Py.of_opt
       Dict.get String.eqb Ascii.eqb Bool.eqb].
  rewrite (or_kept_text t) by apply Ht. rewrite (strip_clean t Ht). cbn [bind].
  replace (PyStr.nonempty t) with true by (symmetry; apply nonempty_true, Ht).
  cbn [bind ret].
  rewrite (or_kept_text a) by apply Ha. rewrite (strip_clean a Ha).
  rewrite (or_kept_text i) by apply Hi. rewrite (strip_clean i Hi).
  rewrite (or_kept_text s) by apply Hs. rewrite (strip_clean s Hs).
  cbn [bind ret].
  rewrite (or_kept_text f) by apply Hfc. cbn [Py.str].
  replace (PyStr.strip f) with f by (symmetry; apply Hfc).
  replace (or_text f "F") with f
    by (unfold or_text; destruct Hfc as [_ Hn]; destruct f; simpl; congruence).
  assert (Hor : forall b, Py.or (PList (map GivenWhenThen.model_dump acs)) b
                          = PList (map GivenWhenThen.model_dump acs)).
  { intros b. unfold Py.or. destruct acs; [congruence | reflexivity]. }
  rewrite Hor. cbn [Py.is_dict]. rewrite (normalize_gwt_dumped_all acs Hacs).
  replace (_to_fib (PInt sp)) with sp.
  - destruct acs as [|g r]; [congruence | reflexivity].
  - symmetry. apply to_fib_fixes_allowed.
    unfold Story.points_ok, Story.points_literal in Hsp.
    apply existsb_exists in Hsp. destruct Hsp as (y & Hy & Heq).
    apply Z.eqb_eq in Heq. now subst y.
Qed.

(** C6, amended. Normalizing the dump of a valid story returns the same
    fields, [id] apart (the normalizer leaves it to its caller), provided
    the story is in canonical form: a feature id, a title and the three
    description parts that are non-empty and trimmed, at least one
    acceptance criterion, and criteria whose three parts are trimmed. With
    a non-empty [id], a turn of the generation loop (normalize, assign the
    id, validate) then gives the story back. *)
Theorem normalize_canonical_story (x : Story.t) (fb : option Feature.t) :
  canonical x ->
  _normalize_story (Story.model_dump x) fb = inr (dumped_fields x)
  /\ (forall idx i, Story.id x = Some i -> i <> EmptyString ->
        story_item idx (Story.model_dump x) fb = inr x).
Proof.
  intros Hx. split; [now apply normalize_dumped_canonical|].
  intros idx i Hi Hne. unfold story_item.
  rewrite (normalize_dumped_canonical x fb Hx). cbn [bind].
  destruct x as [id fid t [a iw s] acs sp].
  destruct Hx as ((f & Hf & Hfc) & _ & _ & _ & _ & _ & _ & Hsp).
  cbn [Story.id Story.featureId Story.storyPoints] in *. subst id fid.
  unfold Story.model_dump, dumped_fields.
  cbn [Story.id Story.featureId Story.title Story.description Story.acceptanceCriteria
       Story.storyPoints StoryDescription.model_dump StoryDescription.asA
       StoryDescription.iWant StoryDescription.soThat Py.of_opt
       Dict.get_attr Dict.get Dict.set String.eqb Ascii.eqb Bool.eqb bind ret].
  rewrite (or_kept_text i) by assumption.
  replace (Py.truthy (PStr f)) with true
    by (symmetry; apply nonempty_true, Hfc).
  cbn [negb]. unfold Story.validate.
  cbn [Dict.other_keys Dict.of_items Dict.entries opt_str_field str_field Dict.get
       String.eqb Ascii.eqb Bool.eqb bind ret StoryDescription.validate].
  rewrite validate_dumped_gwts. cbn [bind].
  unfold Story.init. rewrite Hsp. reflexivity.
Qed.

Lemma normalize_canonical_story_witness :
  canonical tidy_story
  /\ _normalize_story (Story.model_dump tidy_story) (Some login_feature)
     = inr (dumped_fields tidy_story)
  /\ story_item 7 (Story.model_dump tidy_story) (Some login_feature) = inr tidy_story.
Proof.
  assert (H : canonical tidy_story).
  { unfold canonical, clean, trimmed, tidy_story. cbn.
    repeat apply conj; try reflexivity; try discriminate.
    - exists "F-1". repeat split. discriminate.
    - repeat constructor. }
  assert (Hne : "S-001" <> EmptyString) by discriminate.
  destruct (normalize_canonical_story tidy_story (Some login_feature) H) as [H1 H2].
  exact (conj H (conj H1 (H2 7%nat "S-001" eq_refl Hne))).
Defined.

(** ** Acceptance criteria that are not mappings *)

(** C7, as stated, fails: of the entries [foo], [7], null and one mapping,
    only the null one is dropped; the text and the number each yield a
    criterion of three empty texts, so the output has three criteria where
    the input has one mapping. *)
Lemma non_mapping_criteria_kept :
  Dict.get mixed_criteria "acceptanceCriteria"
  = PList [PStr "foo"; PInt 7; PNone; gwt_literal "a" "b" "c"]
  /\ (exists out,
        _normalize_story (PDict mixed_criteria) None = inr out
        /\ Dict.get out "acceptanceCriteria"
           = PList [gwt_literal "" "" ""; gwt_literal "" "" ""; gwt_literal "a" "b" "c"])
  /\ map _normalize_gwt
       (filter Py.is_dict [PStr "foo"; PInt 7; PNone; gwt_literal "a" "b" "c"])
     = [gwt_literal "a" "b" "c"].
Proof.
  split; [reflexivity|]. split; [|reflexivity].
  eexists. split; reflexivity.
Qed.

(** C7, amended. When the acceptanceCriteria input is a sequence with at
    least one entry that is not null, the normalizer (which returns, the
    texts being texts) drops the null entries only: the output holds one
    criterion per non-null entry, in order, and the criterion of an entry
    that is not a mapping (a text, a number) has three empty texts. *)
Theorem acceptance_drops_null_only (d : Dict.items) (fb : option Feature.t)
    (l : list pyval) :
  Dict.get d "acceptanceCriteria" = PList l ->
  filter (fun x => negb (Py.is_none x)) l <> [] ->
  texts_ok d fb = true ->
  exists out,
    _normalize_story (PDict d) fb = inr out
    /\ Dict.get out "acceptanceCriteria"
       = PList (map _normalize_gwt (filter (fun x => negb (Py.is_none x)) l))
    /\ (forall x, In x l -> Py.is_dict x = false -> Py.is_none x = false ->
          In (gwt_literal "" "" "")
             (map _normalize_gwt (filter (fun x => negb (Py.is_none x)) l))).
Proof.
  intros Hac Hne Hok.
  destruct (normalize_story_returns d fb Hok) as (fid & t & a & i & s & -> & _).
  eexists. split; [reflexivity|].
  cbn [Dict.get String.eqb Ascii.eqb Bool.eqb].
  assert (Hl : l <> []) by (destruct l; [contradiction | discriminate]).
  split.
  - unfold story_acceptance. rewrite Hac.
    replace (Py.or (PList l) _) with (PList l)
      by (unfold Py.or; destruct l; [congruence | reflexivity]).
    cbn [Py.is_dict].
    destruct (filter (fun x => negb (Py.is_none x)) l); [congruence | reflexivity].
  - intros x Hx Hd Hn. rewrite <- (normalize_gwt_non_mapping x Hd).
    apply in_map, filter_In. split; [exact Hx | now rewrite Hn].
Qed.

Lemma acceptance_drops_null_only_witness :
  exists out,
    _normalize_story (PDict mixed_criteria) None = inr out
    /\ Dict.get out "acceptanceCriteria"
       = PList (map _normalize_gwt
                  (filter (fun x => negb (Py.is_none x))
                     [PStr "foo"; PInt 7; PNone; gwt_literal "a" "b" "c"]))
    /\ (forall x, In x [PStr "foo"; PInt 7; PNone; gwt_literal "a" "b" "c"] ->
          Py.is_dict x = false -> Py.is_none x = false ->
          In (gwt_literal "" "" "")
             (map _normalize_gwt
                (filter (fun x => negb (Py.is_none x))
                   [PStr "foo"; PInt 7; PNone; gwt_literal "a" "b" "c"]))).
Proof.
  apply (acceptance_drops_null_only mixed_criteria None
           [PStr "foo"; PInt 7; PNone; gwt_literal "a" "b" "c"]).
  - reflexivity.
  - discriminate.
  - reflexivity.
Defined.

(* ================================================================== *)
(** * Further properties of the code *)
(* ================================================================== *)

(** ** utils.py: Fibonacci rounding *)

(** X1. [fib_down] returns an allowed value; from 1 on it is the largest
    allowed value not above its argument, below 1 it is the floor 1 (then
    above its argument). *)
Theorem fib_down_largest (n : Z) :
  In (fib_down n) FIB
  /\ (1 <= n ->
      fib_down n <= n /\ forall v, In v FIB -> v <= n -> v <= fib_down n)
  /\ (n < 1 -> fib_down n = 1)
  /\ fib_down (fib_down n) = fib_down n.
Proof.
  unfold fib_down, FIB. cbn [rev app find].
  repeat match goal with
         | |- context [?a <=? n] => destruct (Z.leb_spec a n)
         end;
    (repeat apply conj;
     [ simpl; tauto
     | intros ?; split; [lia | intros v Hv; simpl in Hv; lia]
     | intros; lia
     | reflexivity ]).
Qed.

(** X2. [fib_next_lower] never raises: the value it looks up is always in the
    table. It returns the allowed value just below [fib_down n], and stops
    at the floor 1. *)
Theorem fib_next_lower_below (n : Z) :
  exists p,
    fib_next_lower n = inr p
    /\ In p FIB
    /\ (2 <= n -> p < fib_down n
                  /\ forall v, In v FIB -> v < fib_down n -> v <= p)
    /\ (n < 2 -> p = 1).
Proof.
  unfold fib_next_lower, fib_down, FIB. cbn [rev app find].
  repeat match goal with
         | |- context [?a <=? n] => destruct (Z.leb_spec a n)
         end;
    (eexists; split; [vm_compute; reflexivity|]; cbn;
     repeat apply conj;
     [ tauto
     | intros ?; split; [lia | intros v Hv Hlt; lia]
     | intros; lia ]).
Qed.

(** ** utils.py: the estimate *)

Lemma lower_char_idempotent c :
  PyStr.lower_char (PyStr.lower_char c) = PyStr.lower_char c.
Proof. destruct c as [[] [] [] [] [] [] [] []]; reflexivity. Qed.

Lemma lower_idempotent s : PyStr.lower (PyStr.lower s) = PyStr.lower s.
Proof.
  induction s as [|c r IH]; simpl; [reflexivity|].
  now rewrite lower_char_idempotent, IH.
Qed.

Lemma lower_app a b : PyStr.lower (a ++ b) = PyStr.lower a ++ PyStr.lower b.
Proof. induction a as [|c r IH]; simpl; [reflexivity | now rewrite IH]. Qed.

Lemma prefix_app k b : String.prefix k (k ++ b) = true.
Proof.
  induction k as [|c r IH]; simpl; [now destruct b|].
  destruct (ascii_dec c c); [exact IH | congruence].
Qed.

Lemma contains_of_prefix k t : String.prefix k t = true -> PyStr.contains k t = true.
Proof. destruct t; simpl; intros ->; reflexivity. Qed.

Lemma contains_prefix k b : PyStr.contains k (k ++ b) = true.
Proof. apply contains_of_prefix, prefix_app. Qed.

Lemma contains_app_left k a t :
  PyStr.contains k t = true -> PyStr.contains k (a ++ t) = true.
Proof.
  intros H. induction a as [|c r IH]; [exact H|].
  simpl. rewrite IH. apply orb_true_r.
Qed.

(** A text that holds [k] somewhere. *)
Lemma contains_infix k a b : PyStr.contains k (a ++ k ++ b) = true.
Proof. apply contains_app_left, contains_prefix. Qed.

Lemma any_in_infix ks k a b :
  In k ks -> PyStr.any_in ks (a ++ k ++ b) = true.
Proof.
  intros Hk. unfold PyStr.any_in. apply existsb_exists.
  exists k. split; [exact Hk | apply contains_infix].
Qed.

(** X3. The estimate is 2, 3 or 5 and does not depend on the case of the
    title. A title that holds, in any spelling of upper and lower case, one
    of the nine keywords of the first list is estimated 5, also when it
    holds a keyword of the second list; one that holds a keyword of the
    second list is never estimated 2. *)
Theorem estimate_points_keywords :
  (forall t, In (estimate_points t) [2; 3; 5])
  /\ (forall t, estimate_points (PyStr.lower t) = estimate_points t)
  /\ (forall k w a b,
        In k ["auth"; "login"; "signup"; "register"; "payment";
              "checkout"; "pdf"; "export"; "email"] ->
        PyStr.lower w = k ->
        estimate_points (a ++ w ++ b) = 5)
  /\ (forall k w a b,
        In k ["error"; "retry"; "timeout"; "edge"; "validation"] ->
        PyStr.lower w = k ->
        estimate_points (a ++ w ++ b) = 3 \/ estimate_points (a ++ w ++ b) = 5).
Proof.
  repeat apply conj.
  - intros t. destruct (estimate_points_cases t) as [E|[E|E]]; rewrite E; simpl; tauto.
  - intros t. unfold estimate_points. now rewrite lower_idempotent.
  - intros k w a b Hk Hw. unfold estimate_points.
    rewrite !lower_app, Hw. now rewrite any_in_infix.
  - intros k w a b Hk Hw. unfold estimate_points.
    rewrite !lower_app, Hw.
    destruct (PyStr.any_in _ (PyStr.lower a ++ k ++ PyStr.lower b)); [now right|].
    rewrite any_in_infix by exact Hk. now left.
Qed.

Lemma estimate_points_keywords_witness :
  estimate_points ("User " ++ "LOGIN" ++ " error page") = 5
  /\ (estimate_points ("Form " ++ "Validation" ++ "") = 3
      \/ estimate_points ("Form " ++ "Validation" ++ "") = 5).
Proof.
  destruct estimate_points_keywords as (_ & _ & H5 & H3).
  split.
  - apply (H5 "login" "LOGIN" "User " " error page"); [simpl; tauto | reflexivity].
  - apply (H3 "validation" "Validation" "Form " ""); [simpl; tauto | reflexivity].
Defined.

(** ** utils.py: baseline stories *)

(** One turn of the loop of the baseline generator. *)
Lemma baseline_stories_step sid f rest :
  exists s1 more,
    baseline_stories_from sid (f :: rest) = inr (s1 :: more)
    /\ Story.id s1 = Some ("S-" ++ PyStr.pad3 sid)
    /\ Story.featureId s1 = Some (feature_ref f (base_title_of f))
    /\ Story.title s1 = base_title_of f ++ ": happy path"
    /\ Story.storyPoints s1 = fib_down (estimate_points (base_title_of f))
    /\ List.length (Story.acceptanceCriteria s1) = 2%nat
    /\ (has_description f = false ->
        baseline_stories_from (sid + 1) rest = inr more)
    /\ (has_description f = true ->
        exists s2 more',
          more = s2 :: more'
          /\ baseline_stories_from (sid + 2) rest = inr more'
          /\ Story.id s2 = Some ("S-" ++ PyStr.pad3 (sid + 1))
          /\ Story.featureId s2 = Some (feature_ref f (base_title_of f))
          /\ Story.title s2 = base_title_of f ++ ": error handling"
          /\ fib_next_lower (Story.storyPoints s1) = inr (Story.storyPoints s2)
          /\ List.length (Story.acceptanceCriteria s2) = 2%nat).
Proof.
  cbn [baseline_stories_from]. fold (base_title_of f). fold (has_description f).
  destruct (baseline_points_valid (base_title_of f)) as (H1 & p2 & H2 & H3).
  unfold Story.init at 1. rewrite H1. cbn [bind ret].
  destruct (has_description f).
  - rewrite H2. cbn [bind ret]. unfold Story.init. rewrite H3. cbn [bind ret].
    destruct (baseline_stories_total rest (sid + 2)%nat) as [l Hl]. rewrite Hl.
    cbn [bind ret]. eexists. eexists. split; [reflexivity|].
    cbn. repeat apply conj; try reflexivity; try (intros; discriminate).
    intros _. eexists. eexists. repeat apply conj; try reflexivity. exact H2.
  - destruct (baseline_stories_total rest (sid + 1)%nat) as [l Hl]. rewrite Hl.
    cbn [bind ret]. eexists. eexists. split; [reflexivity|].
    cbn. repeat apply conj; try reflexivity; try (intros; discriminate).
Qed.

(** X4. The baseline generator gives every feature one story, and a second one
    to the features with a description that is not blank. *)
Theorem baseline_stories_count (features : list Feature.t) :
  exists stories,
    features_to_baseline_stories features = inr stories
    /\ List.length stories
       = (List.length features + List.length (filter has_description features))%nat.
Proof.
  unfold features_to_baseline_stories. generalize 1%nat as sid.
  induction features as [|f rest IH]; intros sid; [now exists []|].
  destruct (baseline_stories_step sid f rest)
    as (s1 & more & -> & _ & _ & _ & _ & _ & Hno & Hyes).
  eexists. split; [reflexivity|]. cbn [filter List.length].
  destruct (has_description f).
  - destruct (Hyes eq_refl) as (s2 & more' & -> & Hmore & _).
    destruct (IH (sid + 2)%nat) as (l & Hl & Hlen).
    rewrite Hmore in Hl. injection Hl as <-. simpl. lia.
  - destruct (IH (sid + 1)%nat) as (l & Hl & Hlen).
    rewrite (Hno eq_refl) in Hl. injection Hl as <-. simpl. lia.
Qed.

Lemma of_Z_nonneg z :
  0 <= z ->
  exists u, u <> Decimal.Nil
            /\ PyStr.of_Z z = NilEmpty.string_of_uint u
            /\ Z.of_uint u = z.
Proof.
  intros Hz. unfold PyStr.of_Z. pose proof (DecimalZ.of_to z) as Hrt.
  destruct z as [|q|q]; [| |lia]; simpl Z.to_int in *.
  - exists Decimal.zero. repeat split. discriminate.
  - exists (Pos.to_uint q). split; [apply DecimalPos.Unsigned.to_uint_nonnil|].
    split; [reflexivity | exact Hrt].
Qed.

(** The three-digit number of an id reads back as the counter. *)
Lemma to_Z_pad3 n : PyStr.to_Z (PyStr.pad3 n) = Some (Z.of_nat n).
Proof.
  unfold PyStr.pad3.
  destruct (of_Z_nonneg (Z.of_nat n)) as (u & Hu & -> & Hval); [lia|].
  rewrite <- Hval.
  destruct (String.length (NilEmpty.string_of_uint u)) as [|[|[|k]]].
  - now apply to_Z_unsigned.
  - change ("00" ++ NilEmpty.string_of_uint u)
      with (NilEmpty.string_of_uint (Decimal.D0 (Decimal.D0 u))).
    now rewrite to_Z_unsigned.
  - change ("0" ++ NilEmpty.string_of_uint u)
      with (NilEmpty.string_of_uint (Decimal.D0 u)).
    now rewrite to_Z_unsigned.
  - now apply to_Z_unsigned.
Qed.

Lemma pad3_injective n m : PyStr.pad3 n = PyStr.pad3 m -> n = m.
Proof.
  intros H. pose proof (to_Z_pad3 n) as Hn. rewrite H, to_Z_pad3 in Hn.
  injection Hn. lia.
Qed.

Lemma numbered_ids_distinct {A} (g : A -> option string) (pre : string) (base : nat)
    (l : list A) :
  (forall i x, nth_error l i = Some x -> g x = Some (pre ++ PyStr.pad3 (base + i))) ->
  NoDup (map g l).
Proof.
  intros Hid. apply NoDup_nth_error. intros i j Hi Heq.
  rewrite length_map in Hi. rewrite !nth_error_map in Heq.
  destruct (nth_error l i) as [x|] eqn:Ex; [|apply nth_error_None in Ex; lia].
  destruct (nth_error l j) as [y|] eqn:Ey; [|discriminate].
  simpl in Heq. rewrite (Hid i x Ex), (Hid j y Ey) in Heq.
  injection Heq as Heq.
  assert (Hp : PyStr.pad3 (base + i) = PyStr.pad3 (base + j)).
  { clear - Heq. induction pre as [|c r IH]; [exact Heq|].
    simpl in Heq. injection Heq as Heq. auto. }
  apply pad3_injective in Hp. lia.
Qed.

Lemma baseline_ids_from features : forall sid stories i s,
  baseline_stories_from sid features = inr stories ->
  nth_error stories i = Some s ->
  Story.id s = Some ("S-" ++ PyStr.pad3 (sid + i)).
Proof.
  induction features as [|f rest IH]; intros sid stories i s Hrun Hnth.
  - injection Hrun as <-. destruct i; discriminate.
  - destruct (baseline_stories_step sid f rest)
      as (s1 & more & Hstep & Hid1 & _ & _ & _ & _ & Hno & Hyes).
    rewrite Hstep in Hrun. injection Hrun as <-.
    destruct i as [|i]; [injection Hnth as <-; now rewrite Nat.add_0_r|].
    cbn [nth_error] in Hnth.
    destruct (has_description f).
    + destruct (Hyes eq_refl) as (s2 & more' & -> & Hmore & Hid2 & _).
      destruct i as [|i]; [injection Hnth as <-; exact Hid2|].
      cbn [nth_error] in Hnth.
      rewrite (IH (sid + 2)%nat more' i s Hmore Hnth). do 3 f_equal. lia.
    + rewrite (IH (sid + 1)%nat more i s (Hno eq_refl) Hnth). do 3 f_equal. lia.
Qed.

(** X5. Baseline story ids are numbered in output order from [S-001], one
    number per story whatever the feature; no two stories of one call share
    an id. *)
Theorem baseline_story_ids (features : list Feature.t) (stories : list Story.t) :
  features_to_baseline_stories features = inr stories ->
  (forall i s, nth_error stories i = Some s ->
               Story.id s = Some ("S-" ++ PyStr.pad3 (1 + i)))
  /\ NoDup (map Story.id stories).
Proof.
  intros Hrun.
  assert (H : forall i s, nth_error stories i = Some s ->
                          Story.id s = Some ("S-" ++ PyStr.pad3 (1 + i)))
    by (intros i s; apply (baseline_ids_from features 1 stories i s Hrun)).
  split; [exact H | exact (numbered_ids_distinct Story.id "S-" 1 stories H)].
Qed.

Lemma baseline_story_ids_witness :
  let two := [Feature.mk "F1" None "Search" (Some "find things"); login_feature] in
  exists stories,
    features_to_baseline_stories two = inr stories
    /\ map Story.id stories = [Some "S-001"; Some "S-002"; Some "S-003"]
    /\ NoDup (map Story.id stories).
Proof.
  intros two.
  destruct (baseline_total two) as [stories Hrun].
  exists stories. split; [exact Hrun|].
  pose proof (proj2 (baseline_story_ids two stories Hrun)) as Hnd.
  split; [|exact Hnd].
  vm_compute in Hrun. injection Hrun as <-. reflexivity.
Defined.

(** X6. For a feature with a description the generator emits the pair happy
    path, error handling; the first story has 2, 3 or 5 points and the
    second strictly fewer, the next allowed value below. Baseline stories
    never get 8 or 13 points. *)
Theorem baseline_error_story_lower (sid : nat) (f : Feature.t) (rest : list Feature.t) :
  has_description f = true ->
  exists s1 s2 more,
    baseline_stories_from sid (f :: rest) = inr (s1 :: s2 :: more)
    /\ Story.title s1 = base_title_of f ++ ": happy path"
    /\ Story.title s2 = base_title_of f ++ ": error handling"
    /\ Story.featureId s1 = Story.featureId s2
    /\ In (Story.storyPoints s1, Story.storyPoints s2) [(5, 3); (3, 2); (2, 1)].
Proof.
  intros Hd.
  destruct (baseline_stories_step sid f rest)
    as (s1 & more & Hstep & _ & Hf1 & Ht1 & Hp1 & _ & _ & Hyes).
  destruct (Hyes Hd) as (s2 & more' & -> & _ & _ & Hf2 & Ht2 & Hp2 & _).
  exists s1, s2, more'. split; [exact Hstep|].
  split; [exact Ht1|]. split; [exact Ht2|]. split; [congruence|].
  rewrite Hp1 in *.
  destruct (estimate_points_cases (base_title_of f)) as [E|[E|E]];
    rewrite E in *;
    match type of Hp2 with
    | fib_next_lower ?x = _ =>
        let v := eval vm_compute in (fib_next_lower x) in
        change (fib_next_lower x) with v in Hp2
    end;
    injection Hp2 as <-; simpl; tauto.
Qed.

Lemma baseline_error_story_lower_witness :
  let f := Feature.mk "" (Some "PAY-1") "Payment Checkout" (Some "handle failures") in
  has_description f = true
  /\ exists s1 s2 more,
       baseline_stories_from 1 [f] = inr (s1 :: s2 :: more)
       /\ Story.title s1 = base_title_of f ++ ": happy path"
       /\ Story.title s2 = base_title_of f ++ ": error handling"
       /\ Story.featureId s1 = Story.featureId s2
       /\ In (Story.storyPoints s1, Story.storyPoints s2) [(5, 3); (3, 2); (2, 1)].
Proof.
  intros f. split; [reflexivity|].
  apply (baseline_error_story_lower 1 f []). reflexivity.
Defined.

(** ** utils.py: baseline tests *)

Lemma text_app_assoc (a b c : string) : (a ++ b) ++ c = a ++ b ++ c.
Proof. induction a as [|x r IH]; simpl; [reflexivity | now rewrite IH]. Qed.

Lemma baseline_tests_nth stories : forall tid i s,
  nth_error stories i = Some s ->
  exists t,
    nth_error (baseline_tests_from tid stories) i = Some t
    /\ TestCase.id t = "T-" ++ PyStr.pad3 (tid + i)
    /\ TestCase.storyId t = opt_text (Story.id s)
    /\ TestCase.preconditions t = "User has access and system is available"
    /\ List.length (TestCase.steps t) = 4%nat
    /\ hd "" (TestCase.steps t) = "Navigate to the area for '" ++ Story.title s ++ "'"
    /\ TestCase.expected t
       = if PyStr.any_in ["error"; "validation"; "retry"; "fail"]
              (PyStr.lower (Story.title s))
         then expect_recovery else expect_success.
Proof.
  induction stories as [|x rest IH]; intros tid i s Hnth; [destruct i; discriminate|].
  destruct i as [|i].
  - injection Hnth as ->. eexists. split; [reflexivity|].
    rewrite Nat.add_0_r. cbn. unfold or_text. destruct (opt_text (Story.id s));
      repeat split; reflexivity.
  - cbn [nth_error] in Hnth. destruct (IH (tid + 1)%nat i s Hnth) as (t & Ht & Hid & Hrest).
    exists t. split; [exact Ht|]. split; [|exact Hrest].
    rewrite Hid. do 2 f_equal. lia.
Qed.

Lemma baseline_tests_length stories : forall tid,
  List.length (baseline_tests_from tid stories) = List.length stories.
Proof.
  induction stories as [|x rest IH]; intros tid; [reflexivity|].
  cbn [baseline_tests_from List.length]. now rewrite IH.
Qed.

(** X8. The baseline test generator gives exactly one test per story, in
    order. The test of the story at position [i] is numbered [T-] followed
    by [i+1] on three digits, carries the id of its story (the empty text
    when the story has none) and four steps, the first naming the story's
    title; test ids are pairwise distinct. When the title holds one of
    [error], [validation], [retry], [fail] in any spelling of upper and
    lower case, the expected text is the recovery one. *)
Theorem baseline_tests_per_story (stories : list Story.t) :
  List.length (stories_to_baseline_tests stories) = List.length stories
  /\ NoDup (map TestCase.id (stories_to_baseline_tests stories))
  /\ (forall i s, nth_error stories i = Some s ->
        exists t,
          nth_error (stories_to_baseline_tests stories) i = Some t
          /\ TestCase.id t = "T-" ++ PyStr.pad3 (1 + i)
          /\ TestCase.storyId t = opt_text (Story.id s)
          /\ List.length (TestCase.steps t) = 4%nat
          /\ hd "" (TestCase.steps t)
             = "Navigate to the area for '" ++ Story.title s ++ "'"
          /\ (TestCase.expected t = expect_recovery
              \/ TestCase.expected t = expect_success)
          /\ (forall k w a b,
                In k ["error"; "validation"; "retry"; "fail"] ->
                PyStr.lower w = k -> Story.title s = a ++ w ++ b ->
                TestCase.expected t = expect_recovery)).
Proof.
  unfold stories_to_baseline_tests. split; [apply baseline_tests_length|]. split.
  - apply NoDup_nth_error. intros i j Hi Heq.
    rewrite length_map, baseline_tests_length in Hi.
    rewrite !nth_error_map in Heq.
    destruct (nth_error stories i) as [x|] eqn:Ex; [|apply nth_error_None in Ex; lia].
    destruct (baseline_tests_nth stories 1 i x Ex) as (t & Ht & Hid & _).
    rewrite Ht in Heq.
    destruct (nth_error stories j) as [y|] eqn:Ey.
    + destruct (baseline_tests_nth stories 1 j y Ey) as (t' & Ht' & Hid' & _).
      rewrite Ht' in Heq. simpl in Heq. injection Heq as Heq.
      rewrite Hid, Hid' in Heq. simpl in Heq. injection Heq as Heq.
      apply pad3_injective in Heq. lia.
    + apply nth_error_None in Ey.
      rewrite <- (baseline_tests_length stories 1) in Ey.
      apply nth_error_None in Ey. rewrite Ey in Heq. discriminate.
  - intros i s Hnth.
    destruct (baseline_tests_nth stories 1 i s Hnth)
      as (t & Ht & Hid & Hsid & _ & Hlen & Hhd & Hexp).
    exists t. repeat apply conj; try assumption.
    + rewrite Hexp. destruct (PyStr.any_in _ _); auto.
    + intros k w a b Hk Hw Htitle. rewrite Hexp, Htitle, !lower_app, Hw.
      now rewrite any_in_infix.
Qed.

Lemma baseline_tests_per_story_witness :
  exists t,
    nth_error (stories_to_baseline_tests [tidy_story; padded_story]) 1 = Some t
    /\ TestCase.id t = "T-002"
    /\ TestCase.storyId t = "S-001"
    /\ TestCase.expected t = expect_success.
Proof.
  destruct (proj2 (proj2 (baseline_tests_per_story [tidy_story; padded_story]))
              1%nat padded_story eq_refl)
    as (t & Ht & Hid & Hsid & _ & _ & _ & _).
  exists t. split; [exact Ht|]. split; [exact Hid|]. split; [exact Hsid|].
  vm_compute in Ht. injection Ht as <-. reflexivity.
Defined.

(** X9. The two baseline generators in a row: the test at position [i] belongs
    to the story at position [i] and both carry the number [i+1]; the test
    of every error-handling story expects the recovery text. *)
Theorem baseline_pipeline_numbering (features : list Feature.t) (stories : list Story.t) :
  features_to_baseline_stories features = inr stories ->
  List.length (stories_to_baseline_tests stories) = List.length stories
  /\ forall i s, nth_error stories i = Some s ->
       exists t,
         nth_error (stories_to_baseline_tests stories) i = Some t
         /\ Story.id s = Some ("S-" ++ PyStr.pad3 (1 + i))
         /\ TestCase.storyId t = "S-" ++ PyStr.pad3 (1 + i)
         /\ TestCase.id t = "T-" ++ PyStr.pad3 (1 + i)
         /\ (forall b, Story.title s = b ++ ": error handling" ->
                       TestCase.expected t = expect_recovery).
Proof.
  intros Hrun. split; [apply baseline_tests_length|]. intros i s Hnth.
  destruct (baseline_tests_nth stories 1 i s Hnth)
    as (t & Ht & Hid & Hsid & _ & _ & _ & Hexp).
  pose proof (baseline_ids_from features 1 stories i s Hrun Hnth) as Hs.
  exists t. repeat apply conj; try assumption.
  - now rewrite Hsid, Hs.
  - intros b Hb. rewrite Hexp, Hb.
    change (b ++ ": error handling") with (b ++ ": " ++ "error" ++ " handling").
    rewrite !lower_app.
    change (PyStr.lower "error") with "error".
    rewrite <- (text_app_assoc (PyStr.lower b) (PyStr.lower ": ")).
    rewrite any_in_infix; [reflexivity | simpl; tauto].
Qed.

Lemma baseline_pipeline_numbering_witness :
  let f := Feature.mk "" (Some "PAY-1") "Payment Checkout" (Some "handle failures") in
  exists stories,
    features_to_baseline_stories [f] = inr stories
    /\ List.length (stories_to_baseline_tests stories) = List.length stories.
Proof.
  intros f. destruct (baseline_total [f]) as [stories Hrun].
  exists stories. split; [exact Hrun|].
  exact (proj1 (baseline_pipeline_numbering [f] stories Hrun)).
Defined.

(** ** app.py: masking a secret *)

Lemma take_drop n s : Text.take n s ++ Text.drop n s = s.
Proof.
  revert s. induction n as [|k IH]; intros s; [reflexivity|].
  destruct s as [|c r]; [reflexivity|]. simpl. now rewrite IH.
Qed.

Lemma length_take n s : String.length (Text.take n s) = Nat.min n (String.length s).
Proof.
  revert s. induction n as [|k IH]; intros s; [reflexivity|].
  destruct s as [|c r]; [reflexivity|]. simpl. now rewrite IH.
Qed.

Lemma length_drop n s : String.length (Text.drop n s) = (String.length s - n)%nat.
Proof.
  revert s. induction n as [|k IH]; intros s; [simpl; lia|].
  destruct s as [|c r]; [reflexivity|]. simpl. now rewrite IH.
Qed.

Lemma drop_drop n m s : Text.drop m (Text.drop n s) = Text.drop (n + m) s.
Proof.
  revert s. induction n as [|k IH]; intros s; [reflexivity|].
  destruct s as [|c r]; [now destruct m|]. simpl. apply IH.
Qed.

(** X11. [_mask] answers [None] exactly for a missing or empty secret. A secret
    of at most 8 characters once stripped is replaced as a whole. A longer
    one is shown as its first four characters, three dots and its last four:
    at least one character in between is never shown. *)
Theorem mask_hides_middle :
  (forall s, _mask s = None <-> s = None \/ s = Some "")
  /\ (forall s, s <> "" -> (String.length (PyStr.strip s) <= 8)%nat ->
                _mask (Some s) = Some "********")
  /\ (forall s, (8 < String.length (PyStr.strip s))%nat ->
        exists a mid b,
          PyStr.strip s = a ++ mid ++ b
          /\ String.length a = 4%nat /\ String.length b = 4%nat
          /\ mid <> ""
          /\ _mask (Some s) = Some (a ++ "..." ++ b)).
Proof.
  repeat apply conj.
  - intros [[|c r]|]; simpl; split; try tauto; try discriminate.
    intros [H|H]; discriminate.
  - intros s Hs Hlen. destruct s as [|c r]; [congruence|].
    unfold _mask. apply Nat.ltb_ge in Hlen. now rewrite Hlen.
  - intros s Hlen.
    assert (Hs : s <> "") by (intros ->; simpl in Hlen; lia).
    destruct s as [|c r]; [congruence|]. unfold _mask.
    set (t := PyStr.strip (String c r)) in *.
    pose proof (proj2 (Nat.ltb_lt _ _) Hlen) as Hlt. rewrite Hlt.
    exists (Text.take 4 t),
           (Text.take (String.length t - 8) (Text.drop 4 t)),
           (Text.last_n 4 t).
    repeat apply conj.
    + unfold Text.last_n.
      replace (String.length t - 4)%nat with (4 + (String.length t - 8))%nat by lia.
      rewrite <- drop_drop, take_drop, take_drop. reflexivity.
    + rewrite length_take. lia.
    + unfold Text.last_n. rewrite length_drop. lia.
    + intros Hmid. apply (f_equal String.length) in Hmid.
      rewrite length_take, length_drop in Hmid. simpl in Hmid. lia.
    + reflexivity.
Qed.

Lemma mask_hides_middle_witness :
  exists a mid b,
    PyStr.strip " ATATT3xFfGF0token " = a ++ mid ++ b
    /\ String.length a = 4%nat /\ String.length b = 4%nat
    /\ mid <> ""
    /\ _mask (Some " ATATT3xFfGF0token ") = Some (a ++ "..." ++ b).
Proof.
  apply (proj2 (proj2 mask_hides_middle) " ATATT3xFfGF0token "). simpl. lia.
Defined.

(** ** app.py: unwrapping a fenced answer *)

Lemma drop_prefix p r : Text.drop (String.length p) (p ++ r) = r.
Proof. induction p as [|c q IH]; [reflexivity | exact IH]. Qed.

Lemma removeprefix_app p r : Text.removeprefix p (p ++ r) = r.
Proof. unfold Text.removeprefix. now rewrite prefix_app, drop_prefix. Qed.

Lemma length_app_text a b :
  String.length (a ++ b) = (String.length a + String.length b)%nat.
Proof. induction a as [|c r IH]; simpl; [reflexivity | now rewrite IH]. Qed.

Lemma cut_suffix_app p x : Text.cut_suffix p (x ++ p) = Some x.
Proof.
  induction x as [|c r IH].
  - simpl. destruct p; simpl; now rewrite ?String.eqb_refl, ?Ascii.eqb_refl.
  - change (Text.cut_suffix p (String c r ++ p))
      with (if String.eqb (String c (r ++ p)) p then Some EmptyString
            else option_map (String c) (Text.cut_suffix p (r ++ p))).
    destruct (String.eqb_spec (String c (r ++ p)) p) as [E|_].
    + apply (f_equal String.length) in E. simpl in E.
      rewrite length_app_text in E. lia.
    + now rewrite IH.
Qed.

Lemma removesuffix_app p x : p <> "" -> Text.removesuffix p (x ++ p) = x.
Proof.
  intros Hp. unfold Text.removesuffix. destruct p; [congruence|].
  now rewrite cut_suffix_app.
Qed.

Lemma drop_right_snoc p c s :
  p c = true -> PyStr.drop_right p (s ++ String c "") = PyStr.drop_right p s.
Proof.
  intros Hc. induction s as [|x r IH].
  - simpl. now rewrite Hc.
  - change (String x r ++ String c "") with (String x (r ++ String c "")).
    now rewrite !drop_right_cons, IH.
Qed.

(** A trimmed text wrapped in line breaks strips back to itself. *)
Lemma strip_wrapped body :
  trimmed body -> PyStr.strip (newline ++ body ++ newline) = body.
Proof.
  intros Hb. destruct body as [|c r]; [reflexivity|].
  apply trimmed_ends in Hb. destruct Hb as [Hh Hl].
  unfold PyStr.strip, PyStr.lstrip, PyStr.rstrip.
  change (newline ++ String c r ++ newline)
    with (String (ascii_of_N 10) (String c r ++ newline)).
  cbn [PyStr.drop_left]. change (PyStr.is_space (ascii_of_N 10)) with true. cbv iota.
  rewrite drop_left_fix by (simpl in *; exact Hh).
  unfold newline. rewrite drop_right_snoc by reflexivity.
  now apply drop_right_fix.
Qed.

Lemma fenced_is_trimmed x : trimmed (fence ++ x ++ fence).
Proof.
  apply trimmed_ends. split; [reflexivity|].
  rewrite <- text_app_assoc, last_ok_app by discriminate. reflexivity.
Qed.

(** X12. What reaches [json.loads]. An answer that does not open with a code
    fence is only stripped. An answer made of an opening fence, with the
    tag [json] or none, a line break, the payload, a line break and the
    closing fence comes to the payload alone. *)
Theorem fenced_answer_unwrapped :
  (forall text, String.prefix fence (PyStr.strip text) = false ->
                gemini_json_text text = PyStr.strip text)
  /\ (forall body, trimmed body ->
        gemini_json_text (fence ++ ("json" ++ newline ++ body ++ newline) ++ fence)
        = body)
  /\ (forall body, trimmed body ->
        gemini_json_text (fence ++ (newline ++ body ++ newline) ++ fence) = body).
Proof.
  repeat apply conj.
  - intros text H. unfold gemini_json_text. now rewrite H.
  - intros body Hb. unfold gemini_json_text.
    rewrite (trimmed_strip _ (fenced_is_trimmed _)).
    rewrite prefix_app.
    change (fence ++ ("json" ++ newline ++ body ++ newline) ++ fence)
      with ((fence ++ "json") ++ (newline ++ body ++ newline) ++ fence).
    rewrite removeprefix_app.
    change (Text.removeprefix fence ((newline ++ body ++ newline) ++ fence))
      with ((newline ++ body ++ newline) ++ fence).
    rewrite removesuffix_app by discriminate. now apply strip_wrapped.
  - intros body Hb. unfold gemini_json_text.
    rewrite (trimmed_strip _ (fenced_is_trimmed _)).
    rewrite prefix_app.
    change (Text.removeprefix (fence ++ "json")
              (fence ++ (newline ++ body ++ newline) ++ fence))
      with (fence ++ (newline ++ body ++ newline) ++ fence).
    rewrite removeprefix_app.
    change (Text.removeprefix fence ((newline ++ body ++ newline) ++ fence))
      with ((newline ++ body ++ newline) ++ fence).
    rewrite removesuffix_app by discriminate. now apply strip_wrapped.
Qed.

Lemma fenced_answer_unwrapped_witness :
  trimmed "[{}]"
  /\ gemini_json_text (fence ++ ("json" ++ newline ++ "[{}]" ++ newline) ++ fence) = "[{}]"
  /\ String.prefix fence (PyStr.strip " [1] ") = false
  /\ gemini_json_text " [1] " = "[1]".
Proof.
  destruct fenced_answer_unwrapped as (Hplain & Hjson & _).
  assert (Ht : trimmed "[{}]") by reflexivity.
  assert (Hp : String.prefix fence (PyStr.strip " [1] ") = false) by reflexivity.
  exact (conj Ht (conj (Hjson "[{}]" Ht) (conj Hp (Hplain " [1] " Hp)))).
Defined.

(** ** app.py: the plain text of a description *)

Lemma texts_of_texts l : texts_of (map PStr l) = inr l.
Proof.
  induction l as [|s r IH]; [reflexivity|].
  cbn [map texts_of]. rewrite IH. reflexivity.
Qed.

Lemma plain_inner_texts texts : plain_inner (map adf_text texts) = map PStr texts.
Proof.
  induction texts as [|s r IH]; [reflexivity|].
  cbn [map]. unfold adf_text at 1.
  cbn [plain_inner Dict.get get_or eq_text String.eqb Ascii.eqb Bool.eqb].
  now rewrite IH.
Qed.

Lemma plain_outer_paragraphs paras :
  plain_outer (map (fun texts => adf_block "paragraph" (map adf_text texts)) paras)
  = inr (map PStr (List.concat paras)).
Proof.
  induction paras as [|texts r IH]; [reflexivity|].
  cbn [map List.concat]. unfold adf_block at 1.
  cbn [plain_outer get_or iterate String.eqb Ascii.eqb Bool.eqb bind ret].
  rewrite IH. cbn [bind ret]. now rewrite plain_inner_texts, map_app.
Qed.

Lemma plain_inner_skips ty inner r :
  String.eqb ty "text" = false ->
  plain_inner (adf_block ty inner :: r) = plain_inner r.
Proof.
  intros H. unfold adf_block.
  cbn [plain_inner Dict.get eq_text String.eqb Ascii.eqb Bool.eqb]. now rewrite H.
Qed.

(** X13. [_plain_desc] returns a text as it is, and the empty text for anything
    that is neither a text nor a mapping of type [doc]. Of a document made
    of blocks of text nodes it returns the texts in reading order, joined
    by single spaces. It reads two levels only: a block whose child is not a
    text node (a list, say) adds nothing, whatever that child holds. A
    document with no content gives the empty text; one whose content is
    null, or that has a text node whose text is not a text, raises a
    [TypeError]. *)
Theorem plain_desc_reads_two_levels :
  (forall s, _plain_desc (PStr s) = inr s)
  /\ (forall v, Py.is_str v = false -> Py.is_dict v = false -> _plain_desc v = inr "")
  /\ (forall d, eq_text (Dict.get d "type") "doc" = false -> _plain_desc (PDict d) = inr "")
  /\ (forall paras,
        _plain_desc (adf_paragraphs paras) = inr (PyStr.join " " (List.concat paras)))
  /\ (forall ty ty' inner paras,
        String.eqb ty' "text" = false ->
        _plain_desc
          (adf_doc (adf_block ty [adf_block ty' inner]
                    :: map (fun texts => adf_block "paragraph" (map adf_text texts)) paras))
        = inr (PyStr.join " " (List.concat paras)))
  /\ _plain_desc (PDict [("type", PStr "doc")]) = inr ""
  /\ (exists e, _plain_desc (PDict [("type", PStr "doc"); ("content", PNone)])
               = inl (TypeError e))
  /\ (forall n, exists e,
        _plain_desc
          (adf_doc [adf_block "paragraph" [PDict [("type", PStr "text"); ("text", PInt n)]]])
        = inl (TypeError e)).
Proof.
  repeat apply conj.
  - reflexivity.
  - intros v Hs Hd. destruct v; try discriminate; reflexivity.
  - intros d H. unfold _plain_desc. now rewrite H.
  - intros paras. unfold adf_paragraphs, adf_doc, _plain_desc.
    cbn [Dict.get get_or eq_text iterate String.eqb Ascii.eqb Bool.eqb bind ret].
    rewrite plain_outer_paragraphs. cbn [bind ret].
    rewrite texts_of_texts. reflexivity.
  - intros ty ty' inner paras H. unfold adf_doc, _plain_desc.
    cbn [Dict.get get_or eq_text iterate String.eqb Ascii.eqb Bool.eqb bind ret].
    unfold adf_block at 1.
    cbn [plain_outer get_or iterate String.eqb Ascii.eqb Bool.eqb bind ret].
    rewrite plain_outer_paragraphs. cbn [bind ret].
    rewrite plain_inner_skips by exact H. cbn [plain_inner app].
    rewrite texts_of_texts. reflexivity.
  - reflexivity.
  - eexists. reflexivity.
  - intros n. eexists. reflexivity.
Qed.

Lemma plain_desc_reads_two_levels_witness :
  _plain_desc
    (adf_doc (adf_block "bulletList" [adf_block "listItem" [adf_text "hidden"]]
              :: map (fun texts => adf_block "paragraph" (map adf_text texts))
                   [["As a user"; "I pay"]; ["by card"]]))
  = inr "As a user I pay by card".
Proof.
  apply (proj1 (proj2 (proj2 (proj2 (proj2 plain_desc_reads_two_levels))))
           "bulletList" "listItem" [adf_text "hidden"] [["As a user"; "I pay"]; ["by card"]]).
  reflexivity.
Defined.

(** ** app.py: ingestion *)

Lemma bind_ret_some {A B} (m : M A) (k : option A -> M B) :
  bind (bind m (fun a => ret (Some a))) k = bind m (fun a => k (Some a)).
Proof. now destruct m. Qed.

Lemma feature_of_issue_json x :
  feature_of_issue (issue_json x)
  = if is_epic x then f <- epic_feature x ;; ret (Some f) else ret None.
Proof.
  unfold feature_of_issue, issue_json, is_epic, epic_feature.
  cbn [get_attr_or Dict.get_attr get_or Dict.get String.eqb Ascii.eqb Bool.eqb
       bind ret Py.or Py.truthy lower_of].
  destruct (String.eqb (PyStr.lower (issue_type x)) "epic"); [|reflexivity].
  cbn [negb]. destruct (Py.strip _) as [e|ti]; [reflexivity|]. cbn [bind].
  destruct (_plain_desc (issue_description x)) as [e|de]; reflexivity.
Qed.

Lemma features_of_issues_json issues :
  features_of_issues (map issue_json issues)
  = mapM epic_feature (filter is_epic issues).
Proof.
  induction issues as [|x r IH]; [reflexivity|].
  cbn [map features_of_issues filter]. rewrite feature_of_issue_json, IH.
  destruct (is_epic x).
  - cbn [mapM]. rewrite bind_ret_some. reflexivity.
  - unfold ret at 1. cbn [bind].
    destruct (mapM epic_feature (filter is_epic r)); reflexivity.
Qed.

Lemma mapM_length {A B} (f : A -> M B) l : forall l',
  mapM f l = inr l' -> List.length l' = List.length l.
Proof.
  induction l as [|a r IH]; intros l' H.
  - injection H as <-. reflexivity.
  - cbn [mapM] in H. destruct (f a) as [e|b]; [discriminate|]. cbn [bind] in H.
    destruct (mapM f r) as [e|bs]; [discriminate|]. cbn [bind ret] in H.
    injection H as <-. simpl. now rewrite (IH bs eq_refl).
Qed.

(** X14. Ingestion from the tracker. With a setting missing or empty, or when
    the request fails, it answers an error text and leaves the state as it
    was. Otherwise it keeps the issues whose type reads [epic] in any
    spelling of upper and lower case, in the order of the answer, and skips
    every other issue whatever its summary and description hold; each epic
    becomes a feature with its id, its key, its summary stripped and the
    plain text of its description; the count answered is the number of
    epics. The first epic that cannot be converted ends the call with its
    exception, the state untouched. *)
Theorem ingest_jira_keeps_epics :
  (forall env answer st,
     complete env = false ->
     ingest_jira env answer st
     = inr (IngestError "Missing JIRA_BASE_URL/JIRA_EMAIL/JIRA_API_TOKEN in .env", st))
  /\ (forall env msg st,
        complete env = true ->
        ingest_jira env (JiraFails msg) st
        = inr (IngestError ("Jira request failed: " ++ msg), st))
  /\ (forall env issues st,
        complete env = true ->
        ingest_jira env (JiraAnswers (PDict [("issues", PList (map issue_json issues))])) st
        = (feats <- mapM epic_feature (filter is_epic issues) ;;
           ret (Ingested (List.length feats) (map Feature.model_dump feats),
                with_features st (map Feature.model_dump feats))))
  /\ (forall env issues st n fs st',
        complete env = true ->
        ingest_jira env (JiraAnswers (PDict [("issues", PList (map issue_json issues))])) st
        = inr (Ingested n fs, st') ->
        n = List.length (filter is_epic issues)
        /\ List.length fs = n
        /\ STATE_features st' = fs
        /\ STATE_stories st' = STATE_stories st
        /\ STATE_tests st' = STATE_tests st).
Proof.
  assert (Hrun : forall env issues st,
            complete env = true ->
            ingest_jira env (JiraAnswers (PDict [("issues", PList (map issue_json issues))])) st
            = (feats <- mapM epic_feature (filter is_epic issues) ;;
               ret (Ingested (List.length feats) (map Feature.model_dump feats),
                    with_features st (map Feature.model_dump feats)))).
  { intros env issues st Hc. unfold ingest_jira. fold (complete env). rewrite Hc.
    cbn [negb get_attr_or get_or String.eqb Ascii.eqb Bool.eqb bind ret iterate].
    rewrite features_of_issues_json.
    destruct (mapM epic_feature (filter is_epic issues)) as [e|feats]; [reflexivity|].
    cbn [bind ret with_features STATE_features]. now rewrite length_map. }
  repeat apply conj.
  - intros env answer st Hc. unfold ingest_jira. fold (complete env). now rewrite Hc.
  - intros env msg st Hc. unfold ingest_jira. fold (complete env). now rewrite Hc.
  - exact Hrun.
  - intros env issues st n fs st' Hc H. rewrite (Hrun env issues st Hc) in H.
    destruct (mapM epic_feature (filter is_epic issues)) as [e|feats] eqn:E;
      [discriminate|].
    cbn [bind ret] in H. injection H as <- <- <-.
    rewrite length_map. rewrite (mapM_length _ _ _ E). repeat split.
Qed.

Lemma ingest_jira_keeps_epics_witness :
  let env := mkJiraEnv (Some "https://x.atlassian.net") (Some "me@x.io") (Some "tok") in
  let issues := [mkIssue "10001" "PAY-1" "Epic" (PStr " Payments ")
                   (adf_paragraphs [["Pay"; "by card"]]);
                 mkIssue "10002" "PAY-2" "Bug" (PInt 0) (PList [])] in
  complete env = true
  /\ ingest_jira env (JiraAnswers (PDict [("issues", PList (map issue_json issues))]))
       initial_state
     = inr (Ingested 1 [Feature.model_dump
                          (Feature.mk "10001" (Some "PAY-1") "Payments" (Some "Pay by card"))],
            with_features initial_state
              [Feature.model_dump
                 (Feature.mk "10001" (Some "PAY-1") "Payments" (Some "Pay by card"))]).
Proof.
  intros env issues. split; [reflexivity|].
  rewrite (proj1 (proj2 (proj2 ingest_jira_keeps_epics)) env issues initial_state eq_refl).
  reflexivity.
Defined.

Lemma feature_of_dump f : feature_of_mapping (Feature.model_dump f) = inr f.
Proof. destruct f as [i [k|] t [d|]]; reflexivity. Qed.

Lemma mapM_feature_dumps fs :
  mapM feature_of_mapping (map Feature.model_dump fs) = inr fs.
Proof.
  induction fs as [|f r IH]; [reflexivity|].
  cbn [map mapM]. rewrite feature_of_dump, IH. reflexivity.
Qed.

(** X15. Ingestion from an upload. Uploading the dump of a list of features
    stores and answers exactly that dump, with its length as count. An
    upload without a [features] entry stores the empty list. A feature given
    by its title alone gets the empty id, no key and the empty description.
    A feature whose title is missing or not a text ends the call with an
    exception, whatever follows it, and nothing is stored. *)
Theorem ingest_mock_round_trip :
  (forall fs st,
     ingest_mock (PDict [("features", PList (map Feature.model_dump fs))]) st
     = inr (Ingested (List.length fs) (map Feature.model_dump fs),
            with_features st (map Feature.model_dump fs)))
  /\ (forall d st,
        get_or d "features" (PList []) = PList [] ->
        ingest_mock (PDict d) st = inr (Ingested 0 [], with_features st []))
  /\ (forall t, feature_of_mapping (PDict [("title", PStr t)])
                = inr (Feature.mk "" None t (Some "")))
  /\ (forall d rest st,
        Py.is_str (get_or d "title" (PBool false)) = false ->
        exists e,
          ingest_mock (PDict [("features", PList (PDict d :: rest))]) st = inl e).
Proof.
  repeat apply conj.
  - intros fs st. unfold ingest_mock.
    cbn [get_attr_or get_or String.eqb Ascii.eqb Bool.eqb bind ret iterate].
    rewrite mapM_feature_dumps. cbn [bind ret with_features STATE_features].
    now rewrite length_map.
  - intros d st H. unfold ingest_mock. cbn [get_attr_or bind ret]. rewrite H. reflexivity.
  - reflexivity.
  - intros d rest st H. unfold ingest_mock.
    cbn [get_attr_or get_or String.eqb Ascii.eqb Bool.eqb bind ret iterate mapM
         feature_of_mapping].
    assert (Hf : exists e,
              feature_init (get_or d "id" (PStr "")) (get_or d "key" PNone)
                (get_or d "title" (PBool false)) (get_or d "description" (PStr ""))
              = inl e).
    { unfold feature_init.
      destruct (get_or d "id" (PStr "")); try (eexists; reflexivity).
      destruct (get_or d "key" PNone); try (eexists; reflexivity);
        destruct (get_or d "title" (PBool false)); try discriminate;
        eexists; reflexivity. }
    destruct Hf as [e ->]. cbn [bind]. eauto.
Qed.

Lemma ingest_mock_round_trip_witness :
  Py.is_str (get_or [("id", PStr "F-9")] "title" (PBool false)) = false
  /\ exists e,
       ingest_mock
         (PDict [("features", PList [PDict [("id", PStr "F-9")];
                                     Feature.model_dump login_feature])])
         initial_state = inl e.
Proof.
  split; [reflexivity|].
  apply (proj2 (proj2 (proj2 ingest_mock_round_trip))
           [("id", PStr "F-9")] [Feature.model_dump login_feature] initial_state).
  reflexivity.
Defined.

(** ** app.py: what a generation call leaves behind *)

Lemma generate_stories_outcome llm features st :
  exists stories resp st',
    generate_stories llm features st = inr (resp, st')
    /\ records resp = map Story.model_dump stories
    /\ STATE_stories st' = records resp
    /\ count resp = List.length stories
    /\ engine resp = LAST_AI_ENGINE st'
    /\ STATE_features st' = STATE_features st
    /\ STATE_tests st' = STATE_tests st.
Proof.
  unfold generate_stories.
  destruct (baseline_total features) as [base Hbase].
  destruct (llm_available llm) eqn:Hav; cbn [negb].
  - unfold stories_attempt. rewrite gemini_json_available by assumption.
    destruct (reply llm) as [e|raw].
    + rewrite Hbase. cbn [bind ret]. exists base. eexists. eexists.
      split; [reflexivity|]. cbn. repeat split.
    + destruct (story_items 1 (as_array raw) (hd_error features)) as [e|stories].
      * rewrite Hbase. cbn [bind ret]. exists base. eexists. eexists.
        split; [reflexivity|]. cbn. repeat split.
      * cbn [bind ret]. exists stories. eexists. eexists.
        split; [reflexivity|]. cbn. repeat split.
  - rewrite Hbase. cbn [bind ret]. exists base. eexists. eexists.
    split; [reflexivity|]. cbn. repeat split.
Qed.

Lemma generate_tests_outcome llm stories st :
  exists tests,
    records (fst (generate_tests llm stories st)) = map TestCase.model_dump tests
    /\ STATE_tests (snd (generate_tests llm stories st))
       = records (fst (generate_tests llm stories st))
    /\ count (fst (generate_tests llm stories st)) = List.length tests
    /\ engine (fst (generate_tests llm stories st))
       = LAST_AI_ENGINE (snd (generate_tests llm stories st))
    /\ STATE_features (snd (generate_tests llm stories st)) = STATE_features st
    /\ STATE_stories (snd (generate_tests llm stories st)) = STATE_stories st.
Proof.
  unfold generate_tests.
  destruct (llm_available llm) eqn:Hav; cbn [negb].
  - unfold tests_attempt. rewrite gemini_json_available by assumption.
    destruct (reply llm) as [e|raw].
    + eexists. cbn. repeat split.
    + match goal with
      | |- context [bind ?m ?k] => destruct (bind m k) as [e|tests]
      end; eexists; cbn; repeat split.
  - eexists. cbn. repeat split.
Qed.

(** X16. A generation call replaces its own part of the shared state and
    nothing else of it: story generation leaves the features and the tests
    as they were, test generation the features and the stories. What is
    stored is what is answered, and the count answered is its length. *)
Theorem generation_replaces_own_records :
  (forall llm features st resp st',
     generate_stories llm features st = inr (resp, st') ->
     STATE_features st' = STATE_features st
     /\ STATE_tests st' = STATE_tests st
     /\ STATE_stories st' = records resp
     /\ count resp = List.length (records resp))
  /\ (forall llm stories st,
        let resp := fst (generate_tests llm stories st) in
        let st' := snd (generate_tests llm stories st) in
        STATE_features st' = STATE_features st
        /\ STATE_stories st' = STATE_stories st
        /\ STATE_tests st' = records resp
        /\ count resp = List.length (records resp)).
Proof.
  split.
  - intros llm features st resp st' H.
    destruct (generate_stories_outcome llm features st)
      as (stories & resp0 & st0 & H0 & Hrec & Hst & Hcount & _ & Hf & Ht).
    rewrite H0 in H. injection H as <- <-.
    repeat split; try assumption. now rewrite Hcount, Hrec, length_map.
  - intros llm stories st. cbv zeta.
    destruct (generate_tests_outcome llm stories st)
      as (tests & Hrec & Hst & Hcount & _ & Hf & Hs).
    repeat split; try assumption. now rewrite Hcount, Hrec, length_map.
Qed.

Lemma generation_replaces_own_records_witness :
  exists resp st',
    generate_stories (mkLLM false (Returns PNone)) [login_feature]
      (mkState [PInt 1] [PInt 2] [PInt 3] "unknown" None) = inr (resp, st')
    /\ STATE_features st' = [PInt 1]
    /\ STATE_tests st' = [PInt 3]
    /\ STATE_stories st' = records resp
    /\ count resp = List.length (records resp).
Proof.
  destruct (generate_stories_outcome (mkLLM false (Returns PNone)) [login_feature]
              (mkState [PInt 1] [PInt 2] [PInt 3] "unknown" None))
    as (stories & resp & st' & H & _).
  exists resp, st'. split; [exact H|].
  exact (proj1 generation_replaces_own_records _ _ _ _ _ H).
Defined.

(** ** app.py: export *)

Lemma export_lines_dump x : export_lines (Story.model_dump x) = inr (story_lines x).
Proof. destruct x as [i f t [a w s] acs sp]. reflexivity. Qed.

Lemma export_out_dumps stories :
  export_out (map Story.model_dump stories) = inr (List.concat (map story_lines stories)).
Proof.
  induction stories as [|x r IH]; [reflexivity|].
  cbn [map export_out List.concat]. rewrite export_lines_dump, IH. reflexivity.
Qed.

(** X17. Export after a story generation. The JSON export shows the records the
    generation answered, between the features and tests it left alone. The
    Markdown export never raises on generated stories: it is the heading
    followed, per story, by one line with id and title and one line with
    the three parts of the description. Any format other than [json] and
    [md] is answered by an error text that names it. *)
Theorem export_after_generation :
  (forall llm features st,
     exists stories resp st',
       generate_stories llm features st = inr (resp, st')
       /\ records resp = map Story.model_dump stories
       /\ export "json" st'
          = inr (ExportJson (STATE_features st) (records resp) (STATE_tests st))
       /\ export "md" st'
          = inr (ExportMarkdown
                   (PyStr.join newline
                      (("# Generated Stories & Tests" ++ newline)
                       :: List.concat (map story_lines stories)))))
  /\ (forall fmt st,
        fmt <> "json" -> fmt <> "md" ->
        export fmt st = inr (ExportError ("Unsupported format: " ++ fmt))).
Proof.
  split.
  - intros llm features st.
    destruct (generate_stories_outcome llm features st)
      as (stories & resp & st' & H & Hrec & Hst & _ & _ & Hf & Ht).
    exists stories, resp, st'. split; [exact H|]. split; [exact Hrec|].
    unfold export. cbn [String.eqb Ascii.eqb Bool.eqb].
    rewrite Hf, Ht, Hst. split; [reflexivity|].
    rewrite Hrec, export_out_dumps. reflexivity.
  - intros fmt st Hj Hm. unfold export.
    apply String.eqb_neq in Hj, Hm. now rewrite Hj, Hm.
Qed.

Lemma export_after_generation_witness :
  "csv" <> "json" /\ "csv" <> "md"
  /\ export "csv" initial_state = inr (ExportError "Unsupported format: csv").
Proof.
  assert (Hj : "csv" <> "json") by discriminate.
  assert (Hm : "csv" <> "md") by discriminate.
  exact (conj Hj (conj Hm (proj2 export_after_generation "csv" initial_state Hj Hm))).
Defined.

(** ** app.py: ids of a normalized test case *)

Lemma normalize_testcase_fields (d : Dict.items) (fb : pyval) :
  let steps := kept_texts (steps_input (Dict.get d "steps")) in
  let sid := or_text
               (PyStr.strip (Py.str (Py.or (Dict.get d "storyId") (Py.or fb (PStr "S")))))
               "S" in
  let tid := Dict.get d "id" in
  exists t e p,
    _normalize_testcase (PDict d) fb = inr t
    /\ Dict.other_keys t = false
    /\ Dict.get (Dict.entries t) "storyId" = PStr sid
    /\ TestCase.validate t
       = inr (TestCase.mk
                (if negb (Py.is_str tid) || negb (PyStr.nonempty (PyStr.strip (Py.str tid)))
                 then "TC-" ++ sid ++ "-"
                      ++ PyStr.of_Z (Z.max 1 (Z.of_nat (List.length steps)))
                 else Py.str tid)
                sid p steps e).
Proof.
  intros steps sid tid. unfold _normalize_testcase. rewrite of_val_dict.
  cbn [bind ret Dict.entries Dict.other_keys Dict.of_items]. cbv zeta.
  dict_lookup.
  fold (steps_input (Dict.get d "steps")).
  fold (kept_texts (steps_input (Dict.get d "steps"))). fold steps.
  cbn [Py.str]. fold sid. fold tid.
  set (e := PyStr.strip (Py.str match Dict.get d "expected" with
                                | PList l => _
                                | PNone => PStr ""
                                | _ => Dict.get d "expected"
                                end)).
  set (p := PyStr.strip (if Py.is_none (Dict.get d "preconditions") then ""
                         else Py.str (Dict.get d "preconditions"))).
  set (c := negb (Py.is_str tid) || negb (PyStr.nonempty (PyStr.strip (Py.str tid)))).
  eexists. exists e, p. split; [reflexivity|]. split; [reflexivity|].
  cbn [Dict.entries]. split.
  - destruct c; dict_lookup; reflexivity.
  - unfold TestCase.validate, str_field. cbn [Dict.other_keys Dict.entries].
    assert (Hid : Dict.get (if c then Dict.set
                      (Dict.set (Dict.set (Dict.set (Dict.set d "steps"
                         (PList (map PStr steps))) "expected" (PStr e))
                         "preconditions" (PStr p)) "storyId" (PStr sid)) "id"
                      (PStr ("TC-" ++ sid ++ "-"
                             ++ PyStr.of_Z (Z.max 1 (Z.of_nat (List.length steps)))))
                    else Dict.set (Dict.set (Dict.set (Dict.set d "steps"
                         (PList (map PStr steps))) "expected" (PStr e))
                         "preconditions" (PStr p)) "storyId" (PStr sid)) "id"
                  = PStr (if c then "TC-" ++ sid ++ "-"
                                    ++ PyStr.of_Z (Z.max 1 (Z.of_nat (List.length steps)))
                          else Py.str tid)).
    { destruct c eqn:Ec; dict_lookup; [reflexivity|].
      subst c. apply orb_false_iff in Ec. destruct Ec as [Ec _].
      apply negb_false_iff in Ec. fold tid. destruct tid; try discriminate. reflexivity. }
    rewrite Hid.
    replace (Dict.get _ "storyId") with (PStr sid)
      by (destruct c; dict_lookup; reflexivity).
    replace (Dict.get _ "preconditions") with (PStr p)
      by (destruct c; dict_lookup; reflexivity).
    replace (Dict.get _ "steps") with (PList (map PStr steps))
      by (destruct c; dict_lookup; reflexivity).
    replace (Dict.get _ "expected") with (PStr e)
      by (destruct c; dict_lookup; reflexivity).
    cbn [bind ret]. rewrite mapM_step_items. reflexivity.
Qed.

Lemma or_text_clean x : clean (or_text (PyStr.strip x) "S").
Proof.
  unfold or_text. destruct (PyStr.nonempty (PyStr.strip x)) eqn:E.
  - split; [apply strip_idempotent | now apply nonempty_true].
  - split; [reflexivity | discriminate].
Qed.

(** X18. The ids of a normalized test case. The story id is never blank: a given
    text is used stripped; without one (missing, null, empty) the fallback
    story id is used stripped, and [S] when there is none; a given text of
    blanks only gives [S], the fallback is not consulted. The id is kept as
    given, untrimmed, when it is a text that is not blank; otherwise it is
    [TC-], the story id, a dash and the number of steps, 1 when there is no
    step. *)
Theorem testcase_ids (d : Dict.items) (fb : pyval) :
  exists t tc,
    _normalize_testcase (PDict d) fb = inr t
    /\ TestCase.validate t = inr tc
    /\ clean (TestCase.storyId tc)
    /\ (forall s, Dict.get d "storyId" = PStr s -> PyStr.strip s <> "" ->
                  TestCase.storyId tc = PyStr.strip s)
    /\ (forall s, Dict.get d "storyId" = PStr s -> s <> "" -> PyStr.strip s = "" ->
                  TestCase.storyId tc = "S")
    /\ (forall s, Py.truthy (Dict.get d "storyId") = false -> fb = PStr s ->
                  PyStr.strip s <> "" -> TestCase.storyId tc = PyStr.strip s)
    /\ (Py.truthy (Dict.get d "storyId") = false -> Py.truthy fb = false ->
        TestCase.storyId tc = "S")
    /\ (forall s, Dict.get d "id" = PStr s -> PyStr.strip s <> "" -> TestCase.id tc = s)
    /\ (Py.is_str (Dict.get d "id") = false
        \/ PyStr.strip (Py.str (Dict.get d "id")) = "" ->
        TestCase.id tc
        = "TC-" ++ TestCase.storyId tc ++ "-"
          ++ PyStr.of_Z (Z.max 1 (Z.of_nat (List.length (TestCase.steps tc))))).
Proof.
  destruct (normalize_testcase_fields d fb) as (t & e & p & Hn & _ & _ & Hv).
  exists t. eexists. split; [exact Hn|]. split; [exact Hv|].
  cbn [TestCase.storyId TestCase.id TestCase.steps].
  split; [apply or_text_clean|].
  repeat apply conj.
  - intros s Hs Hne. rewrite Hs.
    assert (s <> "") by (intros ->; now apply Hne).
    rewrite or_kept_text by assumption. cbn [Py.str].
    unfold or_text. apply nonempty_true in Hne. now rewrite Hne.
  - intros s Hs Hne Hblank. rewrite Hs, or_kept_text by assumption. cbn [Py.str].
    now rewrite Hblank.
  - intros s Hf -> Hne. unfold Py.or at 1. rewrite Hf.
    assert (s <> "") by (intros ->; now apply Hne).
    rewrite or_kept_text by assumption. cbn [Py.str].
    unfold or_text. apply nonempty_true in Hne. now rewrite Hne.
  - intros Hf Hfb. unfold Py.or. rewrite Hf, Hfb. reflexivity.
  - intros s Hs Hne. rewrite Hs. cbn [Py.is_str Py.str negb orb].
    apply nonempty_true in Hne. now rewrite Hne.
  - intros [H|H].
    + now rewrite H.
    + rewrite H. cbn [PyStr.nonempty negb]. now rewrite orb_true_r.
Qed.

Lemma falsy_item_is_empty_mapping v fb :
  Py.truthy v = false -> _normalize_testcase v fb = _normalize_testcase (PDict []) fb.
Proof. intros H. unfold _normalize_testcase, Py.or. now rewrite H. Qed.

Lemma normalize_item_validates v fb :
  Py.is_dict v = true \/ Py.truthy v = false ->
  exists t tc, _normalize_testcase v fb = inr t /\ TestCase.validate t = inr tc.
Proof.
  intros [H|H].
  - destruct v as [| | | | | |d]; try discriminate.
    destruct (normalize_testcase_fields d fb) as (t & e & p & Hn & _ & _ & Hv). eauto.
  - rewrite (falsy_item_is_empty_mapping v fb H).
    destruct (normalize_testcase_fields [] fb) as (t & e & p & Hn & _ & _ & Hv). eauto.
Qed.

Lemma normalize_items_validate fb l :
  Forall (fun v => Py.is_dict v = true \/ Py.truthy v = false) l ->
  exists ts tcs,
    mapM (fun t => _normalize_testcase t fb) l = inr ts
    /\ mapM TestCase.validate ts = inr tcs
    /\ List.length tcs = List.length l.
Proof.
  induction 1 as [|v r Hv Hr (ts & tcs & H1 & H2 & Hlen)]; [exists [], []; auto|].
  destruct (normalize_item_validates v fb Hv) as (t & tc & Ht & Htc).
  exists (t :: ts), (tc :: tcs). cbn [mapM]. rewrite Ht, H1. cbn [bind ret mapM].
  rewrite Htc, H2. cbn [bind ret]. repeat split. simpl. now rewrite Hlen.
Qed.

(** X19. Test generation never falls back on an answer made of objects: when
    the model answers one object, or an array whose items are objects (or
    falsy: null, 0, empty), every item normalizes and validates, the engine
    is ["gemini"], the count is the number of items, and the last error is
    left as it was. *)
Theorem tests_from_objects_never_fall_back (llm : LLM) (stories : list Story.t)
    (st : ServerState) (raw : pyval) :
  llm_available llm = true ->
  reply llm = Returns raw ->
  Forall (fun v => Py.is_dict v = true \/ Py.truthy v = false) (as_array raw) ->
  engine (fst (generate_tests llm stories st)) = "gemini"
  /\ count (fst (generate_tests llm stories st)) = List.length (as_array raw)
  /\ LAST_AI_ENGINE (snd (generate_tests llm stories st)) = "gemini"
  /\ LAST_AI_ERROR (snd (generate_tests llm stories st)) = LAST_AI_ERROR st.
Proof.
  intros Hav Hr Hall. unfold generate_tests, tests_attempt.
  rewrite Hav, gemini_json_available, Hr by assumption. cbn [negb].
  match goal with
  | |- context [mapM (fun t => _normalize_testcase t ?fb) _] =>
      destruct (normalize_items_validate fb (as_array raw) Hall)
        as (ts & tcs & H1 & H2 & Hlen)
  end.
  rewrite H1. cbn [bind]. rewrite H2. cbn. rewrite Hlen. auto.
Qed.

Lemma tests_from_objects_never_fall_back_witness :
  let llm := mkLLM true (Returns (PList [PDict sample_testcase; PNone])) in
  engine (fst (generate_tests llm [tidy_story] initial_state)) = "gemini"
  /\ count (fst (generate_tests llm [tidy_story] initial_state)) = 2%nat
  /\ LAST_AI_ENGINE (snd (generate_tests llm [tidy_story] initial_state)) = "gemini"
  /\ LAST_AI_ERROR (snd (generate_tests llm [tidy_story] initial_state)) = None.
Proof.
  intros llm.
  apply (tests_from_objects_never_fall_back llm [tidy_story] initial_state
           (PList [PDict sample_testcase; PNone])).
  - reflexivity.
  - reflexivity.
  - constructor; [left; reflexivity|]. constructor; [right; reflexivity | constructor].
Defined.

(** ** app.py: the AI path of story generation *)

Lemma story_item_non_mapping idx s fb :
  Py.is_dict s = false -> exists e, story_item idx s fb = inl e.
Proof.
  intros H. unfold story_item.
  destruct (_normalize_story s fb) as [e|ns]; cbn [bind]; [eauto|].
  destruct s; try discriminate; cbn [Dict.get_attr bind raise]; eauto.
Qed.

(** X21. One item of the answer that is not an object (a text, a number, a
    list, null) is enough for story generation to fall back as a whole:
    for such an item the loop raises even when the normalizer itself
    accepts it, because the item is asked for its [id]. *)
Theorem non_object_item_falls_back (llm : LLM) (features : list Feature.t)
    (st : ServerState) (raw : pyval) (i : nat) (s : pyval) :
  llm_available llm = true ->
  reply llm = Returns raw ->
  nth_error (as_array raw) i = Some s ->
  Py.is_dict s = false ->
  exists base resp st',
    features_to_baseline_stories features = inr base
    /\ generate_stories llm features st = inr (resp, st')
    /\ engine resp = "fallback"
    /\ records resp = map Story.model_dump base
    /\ exists e, LAST_AI_ERROR st' = Some e.
Proof.
  intros Hav Hr Hnth Hs.
  destruct (story_item_non_mapping (1 + i) s (hd_error features) Hs) as [e He].
  assert (Hfail : stories_ai_fails llm features)
    by (right; exists raw, i, s, e; auto).
  destruct (baseline_total features) as [base Hbase].
  destruct (stories_attempt_fails llm features st Hav Hfail) as (st1 & e' & Hatt & _).
  exists base. unfold generate_stories. rewrite Hav. cbn [negb].
  rewrite Hatt, Hbase. cbn [bind ret].
  eexists. eexists. split; [reflexivity|]. split; [reflexivity|].
  cbn. repeat split. eauto.
Qed.

Lemma non_object_item_falls_back_witness :
  let llm := mkLLM true (Returns (PList [PDict [("title", PStr "Pay")]; PNone])) in
  exists base resp st',
    features_to_baseline_stories [login_feature] = inr base
    /\ generate_stories llm [login_feature] initial_state = inr (resp, st')
    /\ engine resp = "fallback"
    /\ records resp = map Story.model_dump base
    /\ exists e, LAST_AI_ERROR st' = Some e.
Proof.
  intros llm.
  apply (non_object_item_falls_back llm [login_feature] initial_state
           (PList [PDict [("title", PStr "Pay")]; PNone]) 1 PNone); reflexivity.
Defined.

(** X22. An answer that is neither an array nor an object (a text, a number,
    null) is taken as the empty array: both endpoints then answer no record
    at all under the engine ["gemini"], without falling back. *)
Theorem scalar_answer_gives_nothing (llm : LLM) (raw : pyval) :
  llm_available llm = true ->
  reply llm = Returns raw ->
  Py.is_list raw = false -> Py.is_dict raw = false ->
  (forall features st,
     generate_stories llm features st
     = inr (mkResponse 0 "gemini" [],
            with_stories (with_error (with_engine st "gemini") None) []))
  /\ (forall stories st,
        generate_tests llm stories st
        = (mkResponse 0 "gemini" [], with_tests (with_engine st "gemini") [])).
Proof.
  intros Hav Hr Hl Hd.
  assert (Ha : as_array raw = []) by (destruct raw; try discriminate; reflexivity).
  split.
  - intros features st. unfold generate_stories, stories_attempt.
    rewrite Hav, gemini_json_available, Hr, Ha by assumption. reflexivity.
  - intros stories st. unfold generate_tests, tests_attempt.
    rewrite Hav, gemini_json_available, Hr, Ha by assumption. reflexivity.
Qed.

Lemma scalar_answer_gives_nothing_witness :
  generate_stories (mkLLM true (Returns (PStr "Sorry, I cannot help."))) [login_feature]
    initial_state
  = inr (mkResponse 0 "gemini" [],
         with_stories (with_error (with_engine initial_state "gemini") None) []).
Proof.
  apply (proj1 (scalar_answer_gives_nothing
                  (mkLLM true (Returns (PStr "Sorry, I cannot help.")))
                  (PStr "Sorry, I cannot help.") eq_refl eq_refl eq_refl eq_refl)).
Defined.

Lemma validate_id ns x :
  Story.validate ns = inr x ->
  opt_str_field "Story" "id" (Dict.entries ns) = inr (Story.id x).
Proof.
  unfold Story.validate. destruct (Dict.other_keys ns); [discriminate|].
  destruct (opt_str_field "Story" "id" _) as [e|i]; [discriminate|]. cbn [bind].
  destruct (opt_str_field "Story" "featureId" _) as [e|f]; [discriminate|]. cbn [bind].
  destruct (str_field "Story" "title" _) as [e|t]; [discriminate|]. cbn [bind].
  destruct (StoryDescription.validate _) as [e|de]; [discriminate|]. cbn [bind].
  match goal with
  | |- context [bind ?m _] => destruct m as [e|ac]; [discriminate|]
  end.
  cbn [bind]. destruct (Dict.get _ "storyPoints"); try discriminate.
  unfold Story.init. destruct (Story.points_ok _); [|discriminate].
  intros H. injection H as <-. reflexivity.
Qed.

Lemma story_item_default_id idx d fb x :
  story_item idx (PDict d) fb = inr x ->
  Py.truthy (Dict.get d "id") = false ->
  Story.id x = Some ("S-" ++ PyStr.pad3 idx).
Proof.
  unfold story_item. destruct (_normalize_story (PDict d) fb) as [e|ns]; [discriminate|].
  cbn [bind Dict.get_attr ret]. intros H Hid.
  apply validate_id in H. unfold Py.or in H. rewrite Hid in H.
  cbn [Dict.entries Dict.of_items] in H. unfold opt_str_field in H.
  destruct (negb (Py.truthy (Dict.get (Dict.set ns "id" _) "featureId")));
    revert H; dict_lookup; intros H; injection H as <-; reflexivity.
Qed.

Lemma story_items_accepted fb l : forall idx,
  Forall (fun s => story_item_ok fb s = true) l ->
  exists stories,
    story_items idx l fb = inr stories
    /\ List.length stories = List.length l
    /\ Forall (fun x => In (Story.storyPoints x) [1; 2; 3; 5; 8; 13]
                        /\ clean (Story.title x)
                        /\ Story.acceptanceCriteria x <> []) stories
    /\ (forall i s, nth_error l i = Some s -> lacks_id s = true ->
          exists x, nth_error stories i = Some x
                    /\ Story.id x = Some ("S-" ++ PyStr.pad3 (idx + i))).
Proof.
  induction l as [|s r IH]; intros idx Hall.
  - exists []. repeat split; auto. intros [|i] s H; discriminate.
  - inversion Hall as [|? ? Hs Hr]; subst.
    destruct s as [| | | | | |d]; try discriminate.
    cbn [story_item_ok] in Hs. apply andb_true_iff in Hs. destruct Hs as [Hok Hid].
    assert (Hid' : Py.truthy (Dict.get d "id") = false \/ Py.is_str (Dict.get d "id") = true).
    { apply orb_true_iff in Hid. destruct Hid as [H|H]; [left|now right].
      now apply negb_true_iff in H. }
    destruct (story_item_validates idx d fb Hok Hid')
      as (x & Hx & _ & _ & Ht & Hac & _ & Hp).
    destruct (IH (idx + 1)%nat Hr) as (stories & Hrun & Hlen & Hall' & Hids).
    exists (x :: stories). cbn [story_items]. rewrite Hx, Hrun. cbn [bind ret].
    split; [reflexivity|]. split; [simpl; now rewrite Hlen|].
    split; [constructor; auto|].
    intros [|i] s Hnth Hlack.
    + injection Hnth as <-. exists x. split; [reflexivity|]. rewrite Nat.add_0_r.
      cbn [lacks_id] in Hlack. apply negb_true_iff in Hlack.
      exact (story_item_default_id idx d fb x Hx Hlack).
    + cbn [nth_error] in Hnth. destruct (Hids i s Hnth Hlack) as (y & Hy & Hyid).
      exists y. split; [exact Hy|]. rewrite Hyid. do 3 f_equal. lia.
Qed.

(** X23. The AI path of story generation succeeds when every item of the answer
    is an object whose title and description parts are texts (or absent)
    and whose [id] is a text (or absent): the engine is ["gemini"], the
    last error is cleared, there is one story per item, each with allowed
    story points, a non-empty trimmed title and at least one criterion, and
    an item without id gets [S-] and its position in the answer, counted
    from 1, on three digits. *)
Theorem stories_from_typed_objects (llm : LLM) (features : list Feature.t)
    (st : ServerState) (raw : pyval) :
  llm_available llm = true ->
  reply llm = Returns raw ->
  Forall (fun s => story_item_ok (hd_error features) s = true) (as_array raw) ->
  exists stories resp st',
    generate_stories llm features st = inr (resp, st')
    /\ engine resp = "gemini"
    /\ LAST_AI_ENGINE st' = "gemini"
    /\ LAST_AI_ERROR st' = None
    /\ records resp = map Story.model_dump stories
    /\ count resp = List.length (as_array raw)
    /\ Forall (fun x => In (Story.storyPoints x) [1; 2; 3; 5; 8; 13]
                        /\ clean (Story.title x)
                        /\ Story.acceptanceCriteria x <> []) stories
    /\ (forall i s, nth_error (as_array raw) i = Some s -> lacks_id s = true ->
          exists x, nth_error stories i = Some x
                    /\ Story.id x = Some ("S-" ++ PyStr.pad3 (1 + i))).
Proof.
  intros Hav Hr Hall.
  destruct (story_items_accepted (hd_error features) (as_array raw) 1 Hall)
    as (stories & Hrun & Hlen & Hinv & Hids).
  exists stories. unfold generate_stories, stories_attempt.
  rewrite Hav, gemini_json_available, Hr by assumption. cbn [negb].
  rewrite Hrun. cbn [bind ret].
  eexists. eexists. split; [reflexivity|]. cbn.
  rewrite Hlen. repeat apply conj; auto.
Qed.

Lemma stories_from_typed_objects_witness :
  let llm := mkLLM true (Returns (PDict [("title", PStr " Pay by card ");
                                         ("storyPoints", PStr "6")])) in
  exists stories resp st',
    generate_stories llm [login_feature] initial_state = inr (resp, st')
    /\ engine resp = "gemini"
    /\ LAST_AI_ENGINE st' = "gemini"
    /\ LAST_AI_ERROR st' = None
    /\ records resp = map Story.model_dump stories
    /\ count resp = 1%nat
    /\ Forall (fun x => In (Story.storyPoints x) [1; 2; 3; 5; 8; 13]
                        /\ clean (Story.title x)
                        /\ Story.acceptanceCriteria x <> []) stories
    /\ (forall i s,
          nth_error [PDict [("title", PStr " Pay by card "); ("storyPoints", PStr "6")]] i
          = Some s ->
          lacks_id s = true ->
          exists x, nth_error stories i = Some x
                    /\ Story.id x = Some ("S-" ++ PyStr.pad3 (1 + i))).
Proof.
  intros llm.
  apply (stories_from_typed_objects llm [login_feature] initial_state
           (PDict [("title", PStr " Pay by card "); ("storyPoints", PStr "6")])).
  - reflexivity.
  - reflexivity.
  - constructor; [reflexivity | constructor].
Defined.

(** ** app.py: normalizing twice *)

Lemma has_key_set_same d k v : has_key (Dict.set d k v) k = true.
Proof.
  induction d as [|[k0 v0] r IH]; simpl.
  - now rewrite String.eqb_refl.
  - destruct (String.eqb k k0) eqn:E; simpl; [now rewrite String.eqb_refl|].
    now rewrite E, IH.
Qed.

Lemma has_key_set_other d k v k' :
  has_key d k' = true -> has_key (Dict.set d k v) k' = true.
Proof.
  induction d as [|[k0 v0] r IH]; simpl; [discriminate|].
  intros H. destruct (String.eqb k k0) eqn:E; simpl.
  - apply String.eqb_eq in E. now subst k0.
  - destruct (String.eqb k' k0); [reflexivity | now apply IH].
Qed.

(** Writing the value that is already there changes nothing. *)
Lemma set_fixed d k v : has_key d k = true -> Dict.get d k = v -> Dict.set d k v = d.
Proof.
  induction d as [|[k0 v0] r IH]; simpl; [discriminate|].
  destruct (String.eqb k k0) eqn:E.
  - apply String.eqb_eq in E. subst k0. now intros _ ->.
  - simpl. intros Hh Hg. now rewrite IH.
Qed.

Lemma kept_texts_fixed l : Forall clean l -> kept_texts (map PStr l) = l.
Proof.
  unfold kept_texts. induction 1 as [|s r [Hs Hne] Hr IH]; [reflexivity|].
  cbn [map filter Py.is_none negb andb Py.str]. rewrite Hs.
  apply nonempty_true in Hne. rewrite Hne. cbn [map Py.str]. now rewrite Hs, IH.
Qed.

Lemma or_text_fixed s : clean s -> or_text (PyStr.strip s) "S" = s.
Proof.
  intros [Hs Hne]. rewrite Hs. unfold or_text. apply nonempty_true in Hne. now rewrite Hne.
Qed.

Lemma normalize_normal_testcase f fb :
  testcase_normal f -> _normalize_testcase (PDict f) fb = inr (Dict.mk f false).
Proof.
  intros ((steps & Hsteps & Hclean) & (e & He & Hte) & (p & Hp & Htp)
          & (sid & Hsid & Hcs) & (i & Hid & Hi) & K1 & K2 & K3 & K4).
  unfold _normalize_testcase. rewrite of_val_dict.
  cbn [bind ret Dict.entries Dict.other_keys Dict.of_items]. cbv zeta.
  rewrite Hsteps.
  fold (kept_texts (map PStr steps)). rewrite (kept_texts_fixed steps Hclean).
  rewrite (set_fixed f "steps" _ K1 Hsteps).
  rewrite He. cbn [Py.str]. rewrite Hte. rewrite (set_fixed f "expected" _ K2 He).
  rewrite Hp. cbn [Py.is_none Py.str]. rewrite Htp.
  rewrite (set_fixed f "preconditions" _ K3 Hp).
  rewrite Hsid. rewrite or_kept_text by apply Hcs. cbn [Py.str].
  rewrite (or_text_fixed sid Hcs). rewrite (set_fixed f "storyId" _ K4 Hsid).
  rewrite Hid. cbn [Py.is_str Py.str negb orb].
  apply nonempty_true in Hi. rewrite Hi. reflexivity.
Qed.

Lemma normalized_testcase_normal d fb :
  exists f, _normalize_testcase (PDict d) fb = inr (Dict.mk f false)
            /\ testcase_normal f.
Proof.
  unfold _normalize_testcase. rewrite of_val_dict.
  cbn [bind ret Dict.entries Dict.other_keys Dict.of_items]. cbv zeta.
  dict_lookup.
  fold (steps_input (Dict.get d "steps")).
  fold (kept_texts (steps_input (Dict.get d "steps"))).
  set (steps := kept_texts (steps_input (Dict.get d "steps"))).
  set (e := PyStr.strip (Py.str match Dict.get d "expected" with
                                | PList l => _
                                | PNone => PStr ""
                                | _ => Dict.get d "expected"
                                end)).
  set (p := PyStr.strip (if Py.is_none (Dict.get d "preconditions") then ""
                         else Py.str (Dict.get d "preconditions"))).
  set (sid := or_text _ "S").
  match goal with
  | |- context [if ?c then Dict.set ?t "id" ?v else ?t] =>
      set (cond := c); set (t4 := t); set (newid := v)
  end.
  eexists. split; [reflexivity|].
  assert (Hsid : clean sid) by apply or_text_clean.
  unfold testcase_normal. repeat apply conj.
  - exists steps. split; [|apply kept_texts_clean].
    destruct cond; subst t4; dict_lookup; reflexivity.
  - exists e. split; [|apply strip_idempotent].
    destruct cond; subst t4; dict_lookup; reflexivity.
  - exists p. split; [|apply strip_idempotent].
    destruct cond; subst t4; dict_lookup; reflexivity.
  - exists sid. split; [|exact Hsid].
    destruct cond; subst t4; dict_lookup; reflexivity.
  - destruct cond eqn:Ec.
    + subst newid. eexists. split; [dict_lookup; reflexivity|].
      cbn [Py.str]. apply strip_keeps_head. reflexivity.
    + subst cond. apply orb_false_iff in Ec. destruct Ec as [E1 E2].
      apply negb_false_iff in E1. apply negb_false_iff in E2.
      subst t4. revert E1 E2. dict_lookup. intros E1 E2.
      destruct (Dict.get d "id"); try discriminate.
      eexists. split; [reflexivity|]. now apply nonempty_true.
  - destruct cond; subst t4;
      repeat first [apply has_key_set_same | apply has_key_set_other].
  - destruct cond; subst t4;
      repeat first [apply has_key_set_same | apply has_key_set_other].
  - destruct cond; subst t4;
      repeat first [apply has_key_set_same | apply has_key_set_other].
  - destruct cond; subst t4;
      repeat first [apply has_key_set_same | apply has_key_set_other].
Qed.

(** X20. The TestCase normalizer is idempotent on mappings: normalizing what it
    returned, with whatever fallback story id, returns it unchanged. *)
Theorem normalize_testcase_idempotent (d : Dict.items) (fb fb' : pyval) :
  exists t,
    _normalize_testcase (PDict d) fb = inr t
    /\ _normalize_testcase (PDict (Dict.entries t)) fb' = inr t.
Proof.
  destruct (normalized_testcase_normal d fb) as (f & Hrun & Hnormal).
  exists (Dict.mk f false). split; [exact Hrun|].
  exact (normalize_normal_testcase f fb' Hnormal).
Qed.

(** ** app.py: one acceptance criterion *)

Lemma normalize_gwt_is_dump x :
  exists g, _normalize_gwt x = GivenWhenThen.model_dump g /\ trimmed_gwt g.
Proof.
  unfold _normalize_gwt. eexists (GivenWhenThen.mk _ _ _). split; [reflexivity|].
  repeat split; apply strip_idempotent.
Qed.

(** X24. [_normalize_gwt] accepts any value and always returns the three texts
    [given], [when], [then], trimmed; applied to its own result it changes
    nothing. The alternate names are read when the main one is missing; a
    value that is not a text is stringified, except that a falsy one (0,
    null, an empty list) counts as missing. *)
Theorem normalize_gwt_idempotent :
  (forall x, _normalize_gwt (_normalize_gwt x) = _normalize_gwt x)
  /\ (forall x, exists g,
        GivenWhenThen.validate (_normalize_gwt x) = inr g /\ trimmed_gwt g)
  /\ (forall a b c,
        _normalize_gwt (PDict [("context", PStr a); ("event", PStr b); ("result", PStr c)])
        = gwt_literal (PyStr.strip a) (PyStr.strip b) (PyStr.strip c))
  /\ (forall n, n <> 0 ->
        _normalize_gwt (PDict [("given", PInt n)]) = gwt_literal (PyStr.of_Z n) "" "")
  /\ _normalize_gwt (PDict [("given", PInt 0); ("Given", PList []); ("context", PNone)])
     = gwt_literal "" "" "".
Proof.
  repeat apply conj.
  - intros x. destruct (normalize_gwt_is_dump x) as (g & -> & Hg).
    now apply normalize_gwt_dumped.
  - apply normalize_gwt_validates.
  - intros a b c. unfold _normalize_gwt, gwt_literal.
    cbn [Dict.get String.eqb Ascii.eqb Bool.eqb].
    destruct a, b, c; reflexivity.
  - intros n Hn. unfold _normalize_gwt, gwt_literal.
    cbn [Dict.get String.eqb Ascii.eqb Bool.eqb]. unfold Py.or at 1.
    cbn [Py.truthy]. apply Z.eqb_neq in Hn. rewrite Hn. cbn [negb Py.str Py.repr].
    now rewrite strip_of_Z.
  - reflexivity.
Qed.

Lemma normalize_gwt_idempotent_witness :
  7 <> 0 /\ _normalize_gwt (PDict [("given", PInt 7)]) = gwt_literal "7" "" "".
Proof.
  assert (H : 7 <> 0) by discriminate.
  exact (conj H (proj1 (proj2 (proj2 (proj2 normalize_gwt_idempotent))) 7 H)).
Defined.

(** ** schema.py: dumping and validating *)

Lemma story_of_dump x :
  Story.validate (Dict.of_items (("id", Py.of_opt (Story.id x)) :: dumped_fields x))
  = if Story.points_ok (Story.storyPoints x) then inr x
    else inl (ValidationError "Story" "storyPoints").
Proof.
  destruct x as [[i|] [f|] t [a w s] acs sp]; unfold Story.validate, dumped_fields;
    cbn [Dict.other_keys Dict.of_items Dict.entries opt_str_field str_field Dict.get
         String.eqb Ascii.eqb Bool.eqb bind ret StoryDescription.validate
         StoryDescription.model_dump Py.of_opt Story.id Story.featureId Story.title
         Story.description Story.acceptanceCriteria Story.storyPoints
         StoryDescription.asA StoryDescription.iWant StoryDescription.soThat];
    rewrite validate_dumped_gwts; cbn [bind]; unfold Story.init;
    cbn [Story.storyPoints]; destruct (Story.points_ok sp); reflexivity.
Qed.

Lemma testcase_of_dump x :
  d <- Dict.of_val (TestCase.model_dump x) ;; TestCase.validate d = inr x.
Proof.
  destruct x as [i s p st e]. unfold TestCase.model_dump.
  cbn [Dict.of_val bind ret]. unfold TestCase.validate, str_field.
  cbn [Dict.other_keys Dict.of_items Dict.entries Dict.get String.eqb Ascii.eqb Bool.eqb
       bind ret TestCase.id TestCase.storyId TestCase.preconditions TestCase.steps
       TestCase.expected].
  rewrite mapM_step_items. reflexivity.
Qed.

(** X10. Validation undoes the dump: a dumped story validates back to itself
    exactly when its story points are one of 1, 2, 3, 5, 8, 13 and is
    rejected otherwise; a dumped test case and a dumped feature always
    validate back to themselves. *)
Theorem dump_then_validate :
  (forall x : Story.t,
     d <- Dict.of_val (Story.model_dump x) ;; Story.validate d
     = if Story.points_ok (Story.storyPoints x) then inr x
       else inl (ValidationError "Story" "storyPoints"))
  /\ (forall x : Story.t,
        Story.points_ok (Story.storyPoints x) = true <->
        In (Story.storyPoints x) [1; 2; 3; 5; 8; 13])
  /\ (forall x : TestCase.t,
        d <- Dict.of_val (TestCase.model_dump x) ;; TestCase.validate d = inr x)
  /\ (forall x : Feature.t, feature_of_mapping (Feature.model_dump x) = inr x).
Proof.
  repeat apply conj.
  - intros x. rewrite model_dump_fields. cbn [Dict.of_val bind ret]. apply story_of_dump.
  - intros x. unfold Story.points_ok, Story.points_literal. rewrite existsb_exists. split.
    + intros (y & Hy & E). apply Z.eqb_eq in E. now subst y.
    + intros H. exists (Story.storyPoints x). split; [exact H | apply Z.eqb_refl].
  - apply testcase_of_dump.
  - apply feature_of_dump.
Qed.

Lemma baseline_from_valid (features : list Feature.t) : forall stories sid,
  baseline_stories_from sid features = inr stories ->
  Forall (fun x =>
            In (Story.storyPoints x) [1; 2; 3; 5]
            /\ List.length (Story.acceptanceCriteria x) = 2%nat
            /\ (d <- Dict.of_val (Story.model_dump x) ;; Story.validate d) = inr x)
         stories.
Proof.
  induction features as [|f rest IH]; intros stories sid Hrun.
  - injection Hrun as <-. constructor.
  - destruct (baseline_stories_step sid f rest)
      as (s1 & more & Hstep & _ & _ & _ & Hp1 & Hac1 & Hno & Hyes).
    rewrite Hstep in Hrun. injection Hrun as <-.
    assert (H1 : In (Story.storyPoints s1) [2; 3; 5]).
    { rewrite Hp1. destruct (estimate_points_cases (base_title_of f)) as [E|[E|E]];
        rewrite E; simpl; tauto. }
    assert (Hvalid : forall x, In (Story.storyPoints x) [1; 2; 3; 5] ->
              (d <- Dict.of_val (Story.model_dump x) ;; Story.validate d) = inr x).
    { intros x Hx. rewrite model_dump_fields. cbn [Dict.of_val bind ret].
      rewrite story_of_dump.
      replace (Story.points_ok (Story.storyPoints x)) with true; [reflexivity|].
      simpl in Hx. destruct Hx as [E|[E|[E|[E|[]]]]]; rewrite <- E; reflexivity. }
    assert (G1 : In (Story.storyPoints s1) [1; 2; 3; 5]) by (simpl in *; tauto).
    constructor; [repeat split; auto|].
    destruct (has_description f).
    + destruct (Hyes eq_refl) as (s2 & more' & -> & Hmore & _ & _ & _ & Hp2 & Hac2).
      assert (G2 : In (Story.storyPoints s2) [1; 2; 3; 5]).
      { simpl in H1. destruct H1 as [E|[E|[E|[]]]]; rewrite <- E in Hp2;
          match type of Hp2 with
          | fib_next_lower ?x = _ =>
              let v := eval vm_compute in (fib_next_lower x) in
              change (fib_next_lower x) with v in Hp2
          end; injection Hp2 as <-; simpl; tauto. }
      constructor; [repeat split; auto|]. exact (IH more' (sid + 2)%nat Hmore).
    + exact (IH more (sid + 1)%nat (Hno eq_refl)).
Qed.

(** X7. Every baseline story is valid against the schema: it validates back
    from its dump, has 1, 2, 3 or 5 story points (never 8 or 13) and two
    acceptance criteria. *)
Theorem baseline_stories_valid (features : list Feature.t) (stories : list Story.t) :
  features_to_baseline_stories features = inr stories ->
  Forall (fun x =>
            In (Story.storyPoints x) [1; 2; 3; 5]
            /\ List.length (Story.acceptanceCriteria x) = 2%nat
            /\ (d <- Dict.of_val (Story.model_dump x) ;; Story.validate d) = inr x)
         stories.
Proof. apply baseline_from_valid. Qed.

Lemma baseline_stories_valid_witness :
  exists stories,
    features_to_baseline_stories [login_feature] = inr stories
    /\ Forall (fun x =>
                 In (Story.storyPoints x) [1; 2; 3; 5]
                 /\ List.length (Story.acceptanceCriteria x) = 2%nat
                 /\ (d <- Dict.of_val (Story.model_dump x) ;; Story.validate d) = inr x)
              stories.
Proof.
  destruct (baseline_total [login_feature]) as [stories Hrun].
  exists stories. split; [exact Hrun|].
  exact (baseline_stories_valid [login_feature] stories Hrun).
Defined.

(** ** utils.py: the authorization header *)

Lemma sextet_char_of n :
  0 <= n < 64 ->
  sextet (Base64.char_of n) = n
  /\ Ascii.eqb (Base64.char_of n) Base64.pad = false.
Proof.
  intros Hn.
  assert (Hall : forallb sextet_ok sextets = true) by (vm_compute; reflexivity).
  assert (Hin : In n sextets).
  { unfold sextets. rewrite <- (Z2Nat.id n) by lia. apply in_map, in_seq. lia. }
  pose proof (proj1 (forallb_forall sextet_ok sextets) Hall n Hin) as H.
  unfold sextet_ok in H. apply andb_true_iff in H. destruct H as [H1 H2].
  split; [now apply Z.eqb_eq | now apply negb_true_iff].
Qed.

Lemma three_step_ind {A} (P : list A -> Prop) :
  P [] -> (forall a, P [a]) -> (forall a b, P [a; b]) ->
  (forall a b c r, P r -> P (a :: b :: c :: r)) ->
  forall l, P l.
Proof.
  intros H0 H1 H2 H3.
  assert (H : forall l, P l /\ (forall a, P (a :: l)) /\ (forall a b, P (a :: b :: l))).
  { induction l as [|x r (IH0 & IH1 & IH2)]; [auto|].
    split; [apply IH1|]. split; [intros a; apply IH2|].
    intros a b. apply H3, IH0. }
  intros l. apply H.
Qed.

Ltac byte_arith := Z.div_mod_to_equations; lia.

(** Reading back what [Base64.encode] wrote gives the bytes. *)
Lemma base64_decode_encode bs :
  Forall (fun b => 0 <= b < 256) bs -> base64_decode (Base64.encode bs) = bs.
Proof.
  induction bs as [|a|a b|a b c r IH] using three_step_ind; intros Hall.
  - reflexivity.
  - inversion Hall as [|? ? Ha _]; subst.
    destruct (sextet_char_of (a / 4)) as [E1 _]; [byte_arith|].
    destruct (sextet_char_of (a mod 4 * 16)) as [E2 _]; [byte_arith|].
    cbn [Base64.encode base64_decode]. rewrite E1, E2.
    change (Ascii.eqb Base64.pad Base64.pad) with true. cbv iota.
    f_equal. byte_arith.
  - inversion Hall as [|? ? Ha Hr]; subst. inversion Hr as [|? ? Hb _]; subst.
    destruct (sextet_char_of (a / 4)) as [E1 _]; [byte_arith|].
    destruct (sextet_char_of (a mod 4 * 16 + b / 16)) as [E2 _]; [byte_arith|].
    destruct (sextet_char_of (b mod 16 * 4)) as [E3 N3]; [byte_arith|].
    cbn [Base64.encode base64_decode]. rewrite E1, E2, E3, N3.
    change (Ascii.eqb Base64.pad Base64.pad) with true. cbv iota.
    f_equal; [byte_arith|]. f_equal. byte_arith.
  - inversion Hall as [|? ? Ha Hr]; subst. inversion Hr as [|? ? Hb Hr']; subst.
    inversion Hr' as [|? ? Hc Hr'']; subst.
    destruct (sextet_char_of (a / 4)) as [E1 _]; [byte_arith|].
    destruct (sextet_char_of (a mod 4 * 16 + b / 16)) as [E2 _]; [byte_arith|].
    destruct (sextet_char_of (b mod 16 * 4 + c / 64)) as [E3 N3]; [byte_arith|].
    destruct (sextet_char_of (c mod 64)) as [E4 N4]; [byte_arith|].
    cbn [Base64.encode base64_decode]. rewrite E1, E2, E3, E4, N3, N4, (IH Hr'').
    f_equal; [byte_arith|]. f_equal; [byte_arith|]. f_equal. byte_arith.
Qed.

Lemma code_point_bound c : 0 <= Z.of_N (N_of_ascii c) < 256.
Proof. pose proof (N_ascii_bounded c). lia. Qed.

Lemma utf8_bytes s : Forall (fun b => 0 <= b < 256) (utf8 s).
Proof.
  induction s as [|c r IH]; [constructor|].
  cbn [utf8]. apply Forall_app. split; [|exact IH].
  unfold utf8_char. pose proof (code_point_bound c) as Hc.
  destruct (Z.ltb_spec (Z.of_N (N_of_ascii c)) 128) as [L|L].
  - constructor; [lia | constructor].
  - constructor; [byte_arith|]. constructor; [byte_arith | constructor].
Qed.

Lemma code_point_injective c c' :
  Z.of_N (N_of_ascii c) = Z.of_N (N_of_ascii c') -> c = c'.
Proof.
  intros H. apply N2Z.inj in H.
  rewrite <- (ascii_N_embedding c), <- (ascii_N_embedding c'). now rewrite H.
Qed.

Lemma cons_inj {A} (x y : A) l l' : x :: l = y :: l' -> x = y /\ l = l'.
Proof. intros H. injection H as H1 H2. auto. Qed.

Lemma utf8_char_injective c c' r r' :
  (utf8_char c ++ r)%list = (utf8_char c' ++ r')%list -> c = c' /\ r = r'.
Proof.
  unfold utf8_char.
  pose proof (code_point_bound c) as Hc. pose proof (code_point_bound c') as Hc'.
  destruct (Z.ltb_spec (Z.of_N (N_of_ascii c)) 128) as [L|L];
    destruct (Z.ltb_spec (Z.of_N (N_of_ascii c')) 128) as [L'|L'];
    cbn [app]; intros E.
  - apply cons_inj in E. destruct E as [E1 E2].
    split; [now apply code_point_injective | exact E2].
  - apply cons_inj in E. destruct E as [E1 _]. exfalso. byte_arith.
  - apply cons_inj in E. destruct E as [E1 _]. exfalso. byte_arith.
  - apply cons_inj in E. destruct E as [E1 E]. apply cons_inj in E. destruct E as [E2 E3].
    split; [|exact E3]. apply code_point_injective. byte_arith.
Qed.

Lemma utf8_injective s : forall s', utf8 s = utf8 s' -> s = s'.
Proof.
  induction s as [|c r IH]; intros [|c' r'] H; cbn [utf8] in H.
  - reflexivity.
  - exfalso. unfold utf8_char in H.
    destruct (Z.of_N (N_of_ascii c') <? 128); discriminate.
  - exfalso. unfold utf8_char in H.
    destruct (Z.of_N (N_of_ascii c) <? 128); discriminate.
  - apply utf8_char_injective in H. destruct H as [-> H]. f_equal. now apply IH.
Qed.

Lemma colon_split e : forall t e' t',
  any_char (fun c => Ascii.eqb c ":") e = false ->
  any_char (fun c => Ascii.eqb c ":") e' = false ->
  e ++ ":" ++ t = e' ++ ":" ++ t' -> e = e' /\ t = t'.
Proof.
  induction e as [|c r IH]; intros t [|c' r'] t' He He' H.
  - simpl in H. injection H as H. auto.
  - simpl in H, He'. injection H as H _. subst c'. discriminate.
  - simpl in H, He. injection H as H _. subst c. discriminate.
  - simpl in H, He, He'. injection H as Hc H. subst c'.
    apply orb_false_iff in He, He'.
    destruct (IH t r' t' (proj2 He) (proj2 He') H) as [-> ->]. auto.
Qed.

(** X25. The authorization header is [Basic ] followed by the Base64 text of
    [email:token] in UTF-8, which reads back to those bytes. Two headers
    are equal only if [email:token] is the same text; when neither email
    holds a colon, only if the emails are equal and the tokens are equal. *)
Theorem basic_auth_header_injective :
  (forall email token,
     basic_auth_header email token
     = "Basic " ++ Base64.encode (utf8 (email ++ ":" ++ token))
     /\ base64_decode (Base64.encode (utf8 (email ++ ":" ++ token)))
        = utf8 (email ++ ":" ++ token))
  /\ (forall email token email' token',
        basic_auth_header email token = basic_auth_header email' token' ->
        email ++ ":" ++ token = email' ++ ":" ++ token')
  /\ (forall email token email' token',
        any_char (fun c => Ascii.eqb c ":") email = false ->
        any_char (fun c => Ascii.eqb c ":") email' = false ->
        basic_auth_header email token = basic_auth_header email' token' ->
        email = email' /\ token = token').
Proof.
  assert (Hinj : forall email token email' token',
            basic_auth_header email token = basic_auth_header email' token' ->
            email ++ ":" ++ token = email' ++ ":" ++ token').
  { intros e t e' t' H. unfold basic_auth_header in H. simpl in H.
    injection H as H. apply (f_equal base64_decode) in H.
    rewrite !base64_decode_encode in H by apply utf8_bytes.
    now apply utf8_injective. }
  repeat apply conj.
  - intros e t. split; [reflexivity|]. apply base64_decode_encode, utf8_bytes.
  - exact Hinj.
  - intros e t e' t' He He' H. apply (colon_split e t e' t' He He'), Hinj, H.
Qed.

Lemma basic_auth_header_injective_witness :
  basic_auth_header "me@x.io" "tok" = basic_auth_header "me@x.io" "tok"
  /\ "me@x.io" = "me@x.io" /\ "tok" = "tok".
Proof.
  assert (H : basic_auth_header "me@x.io" "tok" = basic_auth_header "me@x.io" "tok")
    by reflexivity.
  exact (conj H (proj2 (proj2 basic_auth_header_injective)
                   "me@x.io" "tok" "me@x.io" "tok" eq_refl eq_refl H)).
Defined.
